(** * pico_hid_device: the HID demo firmware of [src/main.c]

    A shallow embedding of the firmware's globals, its report helpers, the
    TinyUSB device callbacks, the LED task and the [hid_task] state machine,
    followed by the properties of the design document checked against it. *)

From Stdlib Require Import ZArith Bool Lia String Ascii List.
Import ListNotations.
Local Open Scope Z_scope.

(** ** Machine integers *)

Definition u8 (z : Z) : Z := z mod 256.
Definition s8 (z : Z) : Z := (z + 128) mod 256 - 128.
Definition u32 (z : Z) : Z := z mod 4294967296.
Definition INT_MAX : Z := 2147483647.

Arguments u8 : simpl never.
Arguments s8 : simpl never.
Arguments u32 : simpl never.

(** A character literal of the C source, as its code. *)
Definition chr (a : ascii) : Z := Z.of_N (N_of_ascii a).

(** ** What the firmware takes from headers outside [main.c]

    [tusb.h] (the HID usage and LED constants) and [usb_descriptors.h] (the
    report ids) are not part of [main.c]; their values stay abstract. *)

Class tusb_h : Type := {
  REPORT_ID_KEYBOARD : Z;
  REPORT_ID_MOUSE : Z;
  HID_KEY_A : Z;
  HID_KEY_1 : Z;
  HID_KEY_SPACE : Z;
  KEYBOARD_MODIFIER_LEFTSHIFT : Z;
  KEYBOARD_LED_CAPSLOCK : Z;
  MOUSE_BUTTON_LEFT : Z;
  HID_REPORT_TYPE_OUTPUT : Z
}.

(** What the USB stack and the board answer during one call of a task or a
    callback.  The firmware is single threaded and [tud_task] does not run
    inside a task, so the answers are fixed for the duration of the call;
    the two clock reads of one [hid_task] call return the same
    [board_millis].  [tud_hid_report] is the value returned by
    [tud_hid_keyboard_report] and [tud_hid_mouse_report]. *)
Record usb : Type := {
  board_millis : Z;
  tud_mounted : bool;
  tud_suspended : bool;
  tud_hid_ready : bool;
  tud_hid_report : bool
}.

(** ** Observable effects *)

Inductive report : Type :=
| Keyboard (report_id modifier : Z) (keycode : option (list Z))
| Mouse (report_id buttons x y vertical horizontal : Z).

Inductive effect : Type :=
| HidReport (r : report) (accepted : bool)
| RemoteWakeup
| LedWrite (level : bool).

(** ** Globals *)

Definition BLINK_NOT_MOUNTED : Z := 250.
Definition BLINK_MOUNTED : Z := 1000.
Definition BLINK_SUSPENDED : Z := 2500.

Inductive app_state_t : Type :=
| STATE_IDLE
| STATE_WAIT_INIT
| STATE_MOUSE_UP
| STATE_MOUSE_DOWN
| STATE_CLICK_PRESS
| STATE_CLICK_RELEASE
| STATE_WAIT_BEFORE_TYPE
| STATE_TYPE_CHAR
| STATE_RELEASE_CHAR
| STATE_DONE.

(** The statics of [main.c]; [hid_start_ms], [led_start_ms] and [led_state]
    are the function-local statics of [hid_task] and [led_blinking_task].
    [trace] is the history of calls into the stack and the board. *)
Record machine : Type := {
  blink_interval_ms : Z;
  app_state : app_state_t;
  state_start_ms : Z;
  text_index : Z;
  hid_start_ms : Z;
  led_start_ms : Z;
  led_state : bool;
  trace : list effect
}.

Definition set_blink_interval_ms (v : Z) (m : machine) : machine :=
  {| blink_interval_ms := v; app_state := app_state m;
     state_start_ms := state_start_ms m; text_index := text_index m;
     hid_start_ms := hid_start_ms m; led_start_ms := led_start_ms m;
     led_state := led_state m; trace := trace m |}.

Definition set_app_state (v : app_state_t) (m : machine) : machine :=
  {| blink_interval_ms := blink_interval_ms m; app_state := v;
     state_start_ms := state_start_ms m; text_index := text_index m;
     hid_start_ms := hid_start_ms m; led_start_ms := led_start_ms m;
     led_state := led_state m; trace := trace m |}.

Definition set_state_start_ms (v : Z) (m : machine) : machine :=
  {| blink_interval_ms := blink_interval_ms m; app_state := app_state m;
     state_start_ms := v; text_index := text_index m;
     hid_start_ms := hid_start_ms m; led_start_ms := led_start_ms m;
     led_state := led_state m; trace := trace m |}.

Definition set_text_index (v : Z) (m : machine) : machine :=
  {| blink_interval_ms := blink_interval_ms m; app_state := app_state m;
     state_start_ms := state_start_ms m; text_index := v;
     hid_start_ms := hid_start_ms m; led_start_ms := led_start_ms m;
     led_state := led_state m; trace := trace m |}.

Definition set_hid_start_ms (v : Z) (m : machine) : machine :=
  {| blink_interval_ms := blink_interval_ms m; app_state := app_state m;
     state_start_ms := state_start_ms m; text_index := text_index m;
     hid_start_ms := v; led_start_ms := led_start_ms m;
     led_state := led_state m; trace := trace m |}.

Definition set_led_start_ms (v : Z) (m : machine) : machine :=
  {| blink_interval_ms := blink_interval_ms m; app_state := app_state m;
     state_start_ms := state_start_ms m; text_index := text_index m;
     hid_start_ms := hid_start_ms m; led_start_ms := v;
     led_state := led_state m; trace := trace m |}.

Definition set_led_state (v : bool) (m : machine) : machine :=
  {| blink_interval_ms := blink_interval_ms m; app_state := app_state m;
     state_start_ms := state_start_ms m; text_index := text_index m;
     hid_start_ms := hid_start_ms m; led_start_ms := led_start_ms m;
     led_state := v; trace := trace m |}.

Definition set_trace (v : list effect) (m : machine) : machine :=
  {| blink_interval_ms := blink_interval_ms m; app_state := app_state m;
     state_start_ms := state_start_ms m; text_index := text_index m;
     hid_start_ms := hid_start_ms m; led_start_ms := led_start_ms m;
     led_state := led_state m; trace := v |}.

(** The values the statics are initialised with. *)
Definition boot : machine :=
  {| blink_interval_ms := BLINK_NOT_MOUNTED; app_state := STATE_IDLE;
     state_start_ms := 0; text_index := 0; hid_start_ms := 0;
     led_start_ms := 0; led_state := false; trace := [] |}.

(** ** Computations over the globals

    A computation reads and writes the globals and may be undefined (a read
    outside the script text, an overflowing [int] increment). *)

Definition M (A : Type) : Type := machine -> option (A * machine).

Definition ret {A : Type} (a : A) : M A := fun m => Some (a, m).

Definition bind {A B : Type} (c : M A) (k : A -> M B) : M B :=
  fun m => match c m with
           | Some (a, m') => k a m'
           | None => None
           end.

Definition undefined {A : Type} : M A := fun _ => None.

Definition read {A : Type} (f : machine -> A) : M A := fun m => Some (f m, m).

Definition write {A : Type} (set : A -> machine -> machine) (v : A) : M unit :=
  fun m => Some (tt, set v m).

Definition emit (e : effect) : M unit :=
  fun m => Some (tt, set_trace (trace m ++ [e]) m).

Definition exec {A : Type} (c : M A) (m : machine) : option machine :=
  match c m with
  | Some (_, m') => Some m'
  | None => None
  end.

Declare Scope fw_scope.
Delimit Scope fw_scope with fw.
Notation "x <- c ;; k" := (bind c (fun x => k))
  (at level 61, c at next level, right associativity) : fw_scope.
Notation "c ;; k" := (bind c (fun _ => k))
  (at level 61, right associativity) : fw_scope.
Local Open Scope fw_scope.

(** ** The script text *)

Definition text_to_type : string := "Hello World!".

(** The bytes of the string literal, with its terminating NUL. *)
Definition text_bytes : list Z :=
  map chr (list_ascii_of_string text_to_type) ++ [0].

Arguments text_bytes : simpl never.

(** [text_to_type[i]]: defined inside the literal only. *)
Definition load_char (i : Z) : M Z :=
  if i <? 0 then undefined
  else match nth_error text_bytes (Z.to_nat i) with
       | Some c => ret c
       | None => undefined
       end.

Section Firmware.

Context {tusb : tusb_h}.

(** ** Stack and board primitives *)

Definition tud_hid_keyboard_report (w : usb) (report_id modifier : Z)
    (keycode : option (list Z)) : M bool :=
  emit (HidReport (Keyboard (u8 report_id) (u8 modifier) keycode)
          (tud_hid_report w)) ;;
  ret (tud_hid_report w).

Definition tud_hid_mouse_report (w : usb)
    (report_id buttons x y vertical horizontal : Z) : M bool :=
  emit (HidReport (Mouse (u8 report_id) (u8 buttons) (s8 x) (s8 y)
                     (s8 vertical) (s8 horizontal))
          (tud_hid_report w)) ;;
  ret (tud_hid_report w).

Definition tud_remote_wakeup : M unit := emit RemoteWakeup.

Definition board_led_write (level : bool) : M unit := emit (LedWrite level).

(** ** Helper functions *)

Definition send_keyboard_report (w : usb) (report_id modifier : Z)
    (keycode : list Z) : M bool :=
  if negb (tud_hid_ready w) then ret false
  else tud_hid_keyboard_report w report_id modifier (Some keycode).

Definition send_key_press (w : usb) (modifier key_code : Z) : M bool :=
  let keycode := [u8 key_code; 0; 0; 0; 0; 0] in
  send_keyboard_report w REPORT_ID_KEYBOARD modifier keycode.

Definition send_key_release (w : usb) : M bool :=
  tud_hid_keyboard_report w REPORT_ID_KEYBOARD 0 None.

Definition send_mouse_move (w : usb) (x y : Z) : M bool :=
  if negb (tud_hid_ready w) then ret false
  else tud_hid_mouse_report w REPORT_ID_MOUSE 0 x y 0 0.

Definition send_mouse_click (w : usb) (buttons : Z) : M bool :=
  if negb (tud_hid_ready w) then ret false
  else tud_hid_mouse_report w REPORT_ID_MOUSE buttons 0 0 0 0.

Definition send_mouse_release (w : usb) : M bool :=
  if negb (tud_hid_ready w) then ret false
  else tud_hid_mouse_report w REPORT_ID_MOUSE 0 0 0 0 0.

(** ** Device callbacks *)

Definition tud_mount_cb : M unit := write set_blink_interval_ms BLINK_MOUNTED.

Definition tud_umount_cb : M unit :=
  write set_blink_interval_ms BLINK_NOT_MOUNTED.

Definition tud_suspend_cb (remote_wakeup_en : bool) : M unit :=
  write set_blink_interval_ms BLINK_SUSPENDED.

Definition tud_resume_cb (w : usb) : M unit :=
  write set_blink_interval_ms
    (if tud_mounted w then BLINK_MOUNTED else BLINK_NOT_MOUNTED).

(** ** The HID demo state machine *)

Definition interval_ms : Z := 10.

(** The (key, modifier) chosen for a character: the [if] chain of the
    [STATE_TYPE_CHAR] case, over its two [uint8_t] locals. *)
Definition key_modifier (c : Z) : Z * Z :=
  let key := 0 in
  let modifier := 0 in
  if (chr "a" <=? c) && (c <=? chr "z") then
    (u8 (HID_KEY_A + (c - chr "a")), modifier)
  else if (chr "A" <=? c) && (c <=? chr "Z") then
    (u8 (HID_KEY_A + (c - chr "A")), u8 KEYBOARD_MODIFIER_LEFTSHIFT)
  else if c =? chr " " then
    (u8 HID_KEY_SPACE, modifier)
  else if c =? chr "!" then
    (u8 HID_KEY_1, u8 KEYBOARD_MODIFIER_LEFTSHIFT)
  else (key, modifier).

Definition hid_task (w : usb) : M unit :=
  start_ms <- read hid_start_ms ;;
  if u32 (board_millis w - start_ms) <? interval_ms then ret tt
  else
    write set_hid_start_ms (u32 (start_ms + interval_ms)) ;;
    if negb (tud_mounted w) then write set_app_state STATE_IDLE
    else if tud_suspended w then tud_remote_wakeup
    else if negb (tud_hid_ready w) then ret tt
    else
      st <- read app_state ;;
      match st with
      | STATE_IDLE =>
          write set_state_start_ms (u32 (board_millis w)) ;;
          write set_app_state STATE_WAIT_INIT
      | STATE_WAIT_INIT =>
          t0 <- read state_start_ms ;;
          if 2000 <? u32 (board_millis w - t0)
          then write set_app_state STATE_WAIT_BEFORE_TYPE
          else ret tt
      | STATE_MOUSE_UP =>
          ok <- send_mouse_move w 0 (-20) ;;
          if ok then write set_app_state STATE_MOUSE_DOWN else ret tt
      | STATE_MOUSE_DOWN =>
          ok <- send_mouse_move w 0 20 ;;
          if ok then write set_app_state STATE_CLICK_PRESS else ret tt
      | STATE_CLICK_PRESS =>
          ok <- send_mouse_click w MOUSE_BUTTON_LEFT ;;
          if ok then write set_app_state STATE_CLICK_RELEASE else ret tt
      | STATE_CLICK_RELEASE =>
          ok <- send_mouse_release w ;;
          if ok then
            write set_state_start_ms (u32 (board_millis w)) ;;
            write set_app_state STATE_WAIT_BEFORE_TYPE
          else ret tt
      | STATE_WAIT_BEFORE_TYPE =>
          t0 <- read state_start_ms ;;
          if 500 <? u32 (board_millis w - t0) then
            write set_text_index 0 ;;
            write set_app_state STATE_TYPE_CHAR
          else ret tt
      | STATE_TYPE_CHAR =>
          i <- read text_index ;;
          c <- load_char i ;;
          if c =? 0 then write set_app_state STATE_DONE
          else
            let '(key, modifier) := key_modifier c in
            ok <- send_key_press w modifier key ;;
            if ok then write set_app_state STATE_RELEASE_CHAR else ret tt
      | STATE_RELEASE_CHAR =>
          ok <- send_key_release w ;;
          if ok then
            i <- read text_index ;;
            (if INT_MAX <=? i then undefined
             else write set_text_index (i + 1)) ;;
            write set_app_state STATE_TYPE_CHAR
          else ret tt
      | STATE_DONE => ret tt
      end.

(** ** Host requests *)

Definition tud_hid_report_complete_cb : M unit := ret tt.

Definition tud_hid_get_report_cb : M Z := ret 0.

(** [buffer] holds the [bufsize] bytes the stack passes. *)
Definition tud_hid_set_report_cb (report_id report_type : Z)
    (buffer : list Z) : M unit :=
  let bufsize := Z.of_nat (length buffer) in
  if report_type =? HID_REPORT_TYPE_OUTPUT then
    if report_id =? REPORT_ID_KEYBOARD then
      if bufsize <? 1 then ret tt
      else
        let kbd_leds := nth 0 buffer 0 in
        if negb (Z.land kbd_leds KEYBOARD_LED_CAPSLOCK =? 0) then
          write set_blink_interval_ms 0 ;;
          board_led_write true
        else
          board_led_write false ;;
          write set_blink_interval_ms BLINK_MOUNTED
    else ret tt
  else ret tt.

(** ** Blinking task *)

Definition led_blinking_task (w : usb) : M unit :=
  interval <- read blink_interval_ms ;;
  if interval =? 0 then ret tt
  else
    start_ms <- read led_start_ms ;;
    if u32 (board_millis w - start_ms) <? interval then ret tt
    else
      write set_led_start_ms (u32 (start_ms + interval)) ;;
      level <- read led_state ;;
      board_led_write level ;;
      write set_led_state (negb level).

(** ** Runs

    What [main]'s loop can make happen: [tud_task] delivers callbacks, then
    the two tasks run.  A run is any sequence of these. *)

Inductive event : Type :=
| Mount
| Umount
| Suspend (remote_wakeup_en : bool)
| Resume (w : usb)
| ReportComplete
| GetReport
| SetReport (report_id report_type : Z) (buffer : list Z)
| LedBlinkingTask (w : usb)
| HidTask (w : usb).

Definition fire (e : event) : M unit :=
  match e with
  | Mount => tud_mount_cb
  | Umount => tud_umount_cb
  | Suspend en => tud_suspend_cb en
  | Resume w => tud_resume_cb w
  | ReportComplete => tud_hid_report_complete_cb
  | GetReport => _ <- tud_hid_get_report_cb ;; ret tt
  | SetReport report_id report_type buffer =>
      tud_hid_set_report_cb report_id report_type buffer
  | LedBlinkingTask w => led_blinking_task w
  | HidTask w => hid_task w
  end.

Fixpoint run (es : list event) : M unit :=
  match es with
  | [] => ret tt
  | e :: es' => fire e ;; run es'
  end.

(** Successive calls of [hid_task]. *)
Fixpoint ticks (ws : list usb) : M unit :=
  match ws with
  | [] => ret tt
  | w :: ws' => hid_task w ;; ticks ws'
  end.

(** ** [main]

    One round of the [while (1)] loop: [tud_task] delivers the callbacks of
    [delivered], then the blinking task and the HID task run, each with what
    the stack and the board answer at that moment. *)
Record iteration : Type := {
  delivered : list event;
  led_poll : usb;
  hid_poll : usb
}.

Fixpoint main_loop (its : list iteration) : M unit :=
  match its with
  | [] => ret tt
  | it :: its' =>
      run (delivered it) ;;
      led_blinking_task (led_poll it) ;;
      hid_task (hid_poll it) ;;
      main_loop its'
  end.

End Firmware.

(** ** Vocabulary of the properties *)

(** The header values of the TinyUSB release the example is built against
    ([class/hid/hid.h]) and of the example's [usb_descriptors.h]; used for
    concrete runs only. *)
Definition tinyusb : tusb_h :=
  {| REPORT_ID_KEYBOARD := 1; REPORT_ID_MOUSE := 2;
     HID_KEY_A := 4; HID_KEY_1 := 30; HID_KEY_SPACE := 44;
     KEYBOARD_MODIFIER_LEFTSHIFT := 2; KEYBOARD_LED_CAPSLOCK := 2;
     MOUSE_BUTTON_LEFT := 1; HID_REPORT_TYPE_OUTPUT := 2 |}.

(** The reports the stack accepted, oldest first. *)
Fixpoint sent (tr : list effect) : list report :=
  match tr with
  | [] => []
  | HidReport r true :: tr' => r :: sent tr'
  | _ :: tr' => sent tr'
  end.

(** Every report handed to the stack, accepted or not. *)
Fixpoint offered (tr : list effect) : list report :=
  match tr with
  | [] => []
  | HidReport r _ :: tr' => r :: offered tr'
  | _ :: tr' => offered tr'
  end.

(** The levels written to the LED pin, oldest first. *)
Fixpoint leds (tr : list effect) : list bool :=
  match tr with
  | [] => []
  | LedWrite level :: tr' => level :: leds tr'
  | _ :: tr' => leds tr'
  end.

Definition is_release (r : report) : bool :=
  match r with
  | Keyboard _ _ None => true
  | _ => false
  end.

Definition releases (rs : list report) : nat :=
  List.length (filter is_release rs).

(** The poll gate of [hid_task] lets the call through. *)
Definition due (w : usb) (start_ms : Z) : bool :=
  negb (u32 (board_millis w - start_ms) <? interval_ms).

(** The call passes the three guards and its report is accepted. *)
Definition live (w : usb) : bool :=
  tud_mounted w && negb (tud_suspended w) && tud_hid_ready w
  && tud_hid_report w.

(** 1 when the call gets through the gate and the guards with its report
    accepted, 0 when it stalls; [start_ms] is [hid_task]'s accumulator. *)
Definition gained (w : usb) (start_ms : Z) : nat :=
  if due w start_ms && live w then 1%nat else 0%nat.

(** The accumulator after the call. *)
Definition polled (w : usb) (start_ms : Z) : Z :=
  if due w start_ms then u32 (start_ms + interval_ms) else start_ms.

(** How many calls of a run make progress. *)
Fixpoint progress (start_ms : Z) (ws : list usb) : nat :=
  match ws with
  | [] => 0%nat
  | w :: ws' => (gained w start_ms + progress (polled w start_ms) ws')%nat
  end.

(** The globals after the gate has let a call through. *)
Definition advance (m : machine) : machine :=
  set_hid_start_ms (u32 (hid_start_ms m + interval_ms)) m.

(** A call at clock [t] with the device mounted, awake, ready and the stack
    accepting. *)
Definition steady (t : Z) : usb :=
  {| board_millis := t; tud_mounted := true; tud_suspended := false;
     tud_hid_ready := true; tud_hid_report := true |}.

(** [n] calls, 10 ms apart, the first at [t + 10]. *)
Fixpoint cadence (t : Z) (n : nat) : list usb :=
  match n with
  | O => []
  | S n' => steady (t + interval_ms) :: cadence (t + interval_ms) n'
  end.

Definition on_script_path (s : app_state_t) : bool :=
  match s with
  | STATE_MOUSE_UP | STATE_MOUSE_DOWN | STATE_CLICK_PRESS
  | STATE_CLICK_RELEASE => false
  | _ => true
  end.

Definition before_typing (s : app_state_t) : bool :=
  match s with
  | STATE_IDLE | STATE_WAIT_INIT | STATE_WAIT_BEFORE_TYPE => true
  | _ => false
  end.

Definition in_typing_loop (s : app_state_t) : bool :=
  match s with
  | STATE_TYPE_CHAR | STATE_RELEASE_CHAR | STATE_DONE => true
  | _ => false
  end.

(** The cursor is inside the literal, and on a character that was pressed
    while its release is outstanding. *)
Definition cursor_ok (m : machine) : Prop :=
  0 <= text_index m <= 12 /\
  (app_state m = STATE_RELEASE_CHAR -> text_index m < 12).

(** How often remote wakeup was requested. *)
Fixpoint wakeups (tr : list effect) : nat :=
  match tr with
  | [] => 0%nat
  | RemoteWakeup :: tr' => S (wakeups tr')
  | _ :: tr' => wakeups tr'
  end.

(** The calls into the USB stack, without the LED writes. *)
Fixpoint usb_calls (tr : list effect) : list effect :=
  match tr with
  | [] => []
  | LedWrite _ :: tr' => usb_calls tr'
  | e :: tr' => e :: usb_calls tr'
  end.

(** How many calls of a run get through the poll gate of [hid_task]. *)
Fixpoint passes (start_ms : Z) (ws : list usb) : nat :=
  match ws with
  | [] => 0%nat
  | w :: ws' =>
      ((if due w start_ms then 1 else 0) + passes (polled w start_ms) ws')%nat
  end.

(** The poll accumulator of [hid_task] after a run of calls. *)
Fixpoint accumulator (start_ms : Z) (ws : list usb) : Z :=
  match ws with
  | [] => start_ms
  | w :: ws' => accumulator (polled w start_ms) ws'
  end.

(** Successive clock readings, from [t] on, are at most 10 ms apart. *)
Fixpoint paced (t : Z) (ws : list usb) : Prop :=
  match ws with
  | [] => True
  | w :: ws' =>
      u32 (board_millis w - t) <= interval_ms /\ paced (board_millis w) ws'
  end.

(** The clock at the last call of a run that started at clock [t]. *)
Fixpoint last_clock (t : Z) (ws : list usb) : Z :=
  match ws with
  | [] => t
  | w :: ws' => last_clock (board_millis w) ws'
  end.

(** [n] levels, alternating, the first being [level]. *)
Fixpoint blink_pattern (n : nat) (level : bool) : list bool :=
  match n with
  | O => []
  | S n' => level :: blink_pattern n' (negb level)
  end.

(** What the sequencer owns: its state, timer, cursor and poll accumulator,
    and its calls into the stack. *)
Definition seq_view (m : machine)
    : app_state_t * Z * Z * Z * list effect :=
  (app_state m, state_start_ms m, text_index m, hid_start_ms m,
   usb_calls (trace m)).

(** What the indicator owns: the interval, the blink accumulator, the next
    level and the levels written so far. *)
Definition blink_view (m : machine) : Z * Z * bool * list bool :=
  (blink_interval_ms m, led_start_ms m, led_state m, leds (trace m)).

Definition is_hid_task (e : event) : bool :=
  match e with
  | HidTask _ => true
  | _ => false
  end.

(** The answers the [hid_task] calls of a run got. *)
Fixpoint hid_polls (es : list event) : list usb :=
  match es with
  | [] => []
  | HidTask w :: es' => w :: hid_polls es'
  | _ :: es' => hid_polls es'
  end.

Definition is_mouse_state (s : app_state_t) : bool :=
  match s with
  | STATE_MOUSE_UP | STATE_MOUSE_DOWN | STATE_CLICK_PRESS
  | STATE_CLICK_RELEASE => true
  | _ => false
  end.

Definition is_mouse_report (r : report) : bool :=
  match r with
  | Mouse _ _ _ _ _ _ => true
  | Keyboard _ _ _ => false
  end.

(** On the script path with only keyboard reports handed over so far. *)
Definition keyboard_only (m : machine) : Prop :=
  on_script_path (app_state m) = true
  /\ Forall (fun r => is_mouse_report r = false) (offered (trace m)).

(** The LED writes so far alternate from off, and the pending level
    continues the alternation. *)
Definition blink_inv (m : machine) : Prop :=
  leds (trace m) = blink_pattern (List.length (leds (trace m))) false
  /\ led_state m = Nat.odd (List.length (leds (trace m))).

(** The events of the rounds of [main], in the order they happen. *)
Fixpoint events_of (its : list iteration) : list event :=
  match its with
  | [] => []
  | it :: its' =>
      delivered it ++ LedBlinkingTask (led_poll it) :: HidTask (hid_poll it)
      :: events_of its'
  end.

(** The call passes the poll gate and the three guards. *)
Definition eligible (w : usb) (start_ms : Z) : bool :=
  due w start_ms && tud_mounted w && negb (tud_suspended w)
  && tud_hid_ready w.

(** No call of the run that passes the gate and the guards reads a clock
    more than 2000 ms after [a]; [start_ms] is the accumulator before the
    run. *)
Fixpoint waiting (a start_ms : Z) (ws : list usb) : bool :=
  match ws with
  | [] => true
  | w :: ws' =>
      (negb (eligible w start_ms) || (u32 (board_millis w - a) <=? 2000))
      && waiting a (polled w start_ms) ws'
  end.

(** Mounted-and-ready time of a run that starts at clock [t], as the design
    document counts it: the clock time since the previous call, for the
    calls that find the device mounted, awake and ready. *)
Fixpoint ready_time (t : Z) (ws : list usb) : Z :=
  match ws with
  | [] => 0
  | w :: ws' =>
      (if tud_mounted w && negb (tud_suspended w) && tud_hid_ready w
       then u32 (board_millis w - t) else 0)
      + ready_time (board_millis w) ws'
  end.

(** A call at clock [t] with the device mounted and awake and the transport
    not ready. *)
Definition busy (t : Z) : usb :=
  {| board_millis := t; tud_mounted := true; tud_suspended := false;
     tud_hid_ready := false; tud_hid_report := false |}.

(** [n] such calls, 10 ms apart, the first at [t + 10]. *)
Fixpoint stalls (t : Z) (n : nat) : list usb :=
  match n with
  | O => []
  | S n' => busy (t + interval_ms) :: stalls (t + interval_ms) n'
  end.

(** The cursor a call leaves, by the states before and after it: the reset
    on entering the typing loop, the increment after a release, and no
    change otherwise. *)
Definition cursor_after (m m' : machine) : Z :=
  match app_state m, app_state m' with
  | STATE_WAIT_BEFORE_TYPE, STATE_TYPE_CHAR => 0
  | STATE_RELEASE_CHAR, STATE_TYPE_CHAR => text_index m + 1
  | _, _ => text_index m
  end.

Section Vocabulary.

Context {tusb : tusb_h}.

Definition key_down (modifier key : Z) : report :=
  Keyboard (u8 REPORT_ID_KEYBOARD) modifier (Some [key; 0; 0; 0; 0; 0]).

Definition key_up : report := Keyboard (u8 REPORT_ID_KEYBOARD) 0 None.

(** The press report [STATE_TYPE_CHAR] builds for character [c]. *)
Definition press (c : Z) : report :=
  key_down (u8 (snd (key_modifier c))) (u8 (fst (key_modifier c))).

(** The reports for the characters of [cs] up to its NUL. *)
Fixpoint script_of (cs : list Z) : list report :=
  match cs with
  | [] => []
  | c :: cs' => if c =? 0 then [] else press c :: key_up :: script_of cs'
  end.

(** What is still to be sent from a state on the script path. *)
Definition pending (m : machine) : list report :=
  match app_state m with
  | STATE_TYPE_CHAR => script_of (skipn (Z.to_nat (text_index m)) text_bytes)
  | STATE_RELEASE_CHAR =>
      key_up :: script_of (skipn (S (Z.to_nat (text_index m))) text_bytes)
  | STATE_DONE => []
  | _ => script_of text_bytes
  end.

(** A mouse report as the helpers build it: no wheel, no pan. *)
Definition mouse_report (buttons x y : Z) : report :=
  Mouse (u8 REPORT_ID_MOUSE) buttons (s8 x) (s8 y) 0 0.

(** How one call may move the cursor. *)
Definition cursor_move (m m' : machine) : Prop :=
  text_index m' = text_index m
  \/ (app_state m = STATE_RELEASE_CHAR /\ app_state m' = STATE_TYPE_CHAR
      /\ text_index m' = text_index m + 1)
  \/ (app_state m = STATE_WAIT_BEFORE_TYPE /\ app_state m' = STATE_TYPE_CHAR
      /\ text_index m' = 0).

(** The key of the [n]-th letter of the alphabet. *)
Definition letter (n : Z) : Z := u8 (HID_KEY_A + n).

Definition plain (key : Z) : list report := [key_down 0 key; key_up].

Definition shifted (key : Z) : list report :=
  [key_down (u8 KEYBOARD_MODIFIER_LEFTSHIFT) key; key_up].

(** "Hello World!" as the design document describes it: a press and a release
    per character, left shift on [H], [W] and [!]. *)
Definition hello_world_reports : list report :=
  shifted (letter 7) ++ plain (letter 4) ++ plain (letter 11)
  ++ plain (letter 11) ++ plain (letter 14) ++ plain (u8 HID_KEY_SPACE)
  ++ shifted (letter 22) ++ plain (letter 14) ++ plain (letter 17)
  ++ plain (letter 11) ++ plain (letter 3) ++ shifted (u8 HID_KEY_1).

(** The character mapping policy of the design document, case by case. *)
Inductive keymap : Z -> Z -> Z -> Prop :=
| keymap_lower c :
    chr "a" <= c <= chr "z" -> keymap c 0 (u8 (HID_KEY_A + (c - chr "a")))
| keymap_upper c :
    chr "A" <= c <= chr "Z" ->
    keymap c (u8 KEYBOARD_MODIFIER_LEFTSHIFT) (u8 (HID_KEY_A + (c - chr "A")))
| keymap_space : keymap (chr " ") 0 (u8 HID_KEY_SPACE)
| keymap_bang :
    keymap (chr "!") (u8 KEYBOARD_MODIFIER_LEFTSHIFT) (u8 HID_KEY_1)
| keymap_other c :
    ~ chr "a" <= c <= chr "z" -> ~ chr "A" <= c <= chr "Z" ->
    c <> chr " " -> c <> chr "!" -> keymap c 0 0.

(** The blink interval a callback selects, if it selects one. *)
Definition selects (e : event) : option Z :=
  match e with
  | Mount => Some BLINK_MOUNTED
  | Umount => Some BLINK_NOT_MOUNTED
  | Suspend _ => Some BLINK_SUSPENDED
  | Resume w => Some (if tud_mounted w then BLINK_MOUNTED
                      else BLINK_NOT_MOUNTED)
  | SetReport report_id report_type (kbd_leds :: _) =>
      if (report_type =? HID_REPORT_TYPE_OUTPUT)
         && (report_id =? REPORT_ID_KEYBOARD)
      then Some (if Z.land kbd_leds KEYBOARD_LED_CAPSLOCK =? 0
                 then BLINK_MOUNTED else 0)
      else None
  | _ => None
  end.

(** The interval selected by the most recent selecting event of a run that
    started with interval [i]. *)
Fixpoint selected (i : Z) (es : list event) : Z :=
  match es with
  | [] => i
  | e :: es' => selected (match selects e with Some v => v | None => i end) es'
  end.

(** The indicator lock of the design document: the most recent keyboard LED
    report had the Capslock bit set. *)
Fixpoint lock_engaged (locked : bool) (es : list event) : bool :=
  match es with
  | [] => locked
  | SetReport report_id report_type (kbd_leds :: _) :: es' =>
      if (report_type =? HID_REPORT_TYPE_OUTPUT)
         && (report_id =? REPORT_ID_KEYBOARD)
      then lock_engaged (negb (Z.land kbd_leds KEYBOARD_LED_CAPSLOCK =? 0)) es'
      else lock_engaged locked es'
  | _ :: es' => lock_engaged locked es'
  end.

(** The mouse reports still to be sent from a state of the mouse
    sub-sequence: up, down, click, release. *)
Definition mouse_pending (s : app_state_t) : list report :=
  match s with
  | STATE_MOUSE_UP =>
      [mouse_report 0 0 (-20); mouse_report 0 0 20;
       mouse_report (u8 MOUSE_BUTTON_LEFT) 0 0; mouse_report 0 0 0]
  | STATE_MOUSE_DOWN =>
      [mouse_report 0 0 20; mouse_report (u8 MOUSE_BUTTON_LEFT) 0 0;
       mouse_report 0 0 0]
  | STATE_CLICK_PRESS =>
      [mouse_report (u8 MOUSE_BUTTON_LEFT) 0 0; mouse_report 0 0 0]
  | STATE_CLICK_RELEASE => [mouse_report 0 0 0]
  | _ => []
  end.

(** The event is a keyboard LED report that writes the indicator. *)
Definition writes_led (e : event) : bool :=
  match e with
  | SetReport report_id report_type (_ :: _) =>
      (report_type =? HID_REPORT_TYPE_OUTPUT)
      && (report_id =? REPORT_ID_KEYBOARD)
  | _ => false
  end.

(** The report a state offers to the stack when a call gets through. *)
Definition next_report (m : machine) : option report :=
  match app_state m with
  | STATE_MOUSE_UP => Some (mouse_report 0 0 (-20))
  | STATE_MOUSE_DOWN => Some (mouse_report 0 0 20)
  | STATE_CLICK_PRESS => Some (mouse_report (u8 MOUSE_BUTTON_LEFT) 0 0)
  | STATE_CLICK_RELEASE => Some (mouse_report 0 0 0)
  | STATE_TYPE_CHAR =>
      match nth_error text_bytes (Z.to_nat (text_index m)) with
      | Some c => if c =? 0 then None else Some (press c)
      | None => None
      end
  | STATE_RELEASE_CHAR => Some key_up
  | _ => None
  end.

End Vocabulary.

(** * Properties *)

Section Properties.

Context {tusb : tusb_h}.

Local Open Scope fw_scope.

(** ** Arithmetic of the wrapped clock *)

Lemma u8_u8 (z : Z) : u8 (u8 z) = u8 z.
Proof. unfold u8. apply Z.mod_mod. lia. Qed.

Lemma u32_u32 (z : Z) : u32 (u32 z) = u32 z.
Proof. unfold u32. apply Z.mod_mod. lia. Qed.

Lemma u32_small (z : Z) : 0 <= z < 4294967296 -> u32 z = z.
Proof. intros H. unfold u32. apply Z.mod_small. exact H. Qed.

Lemma u32_sub_l (a b : Z) : u32 (u32 a - b) = u32 (a - b).
Proof. unfold u32. apply Zminus_mod_idemp_l. Qed.

Lemma u32_sub_r (a b : Z) : u32 (a - u32 b) = u32 (a - b).
Proof. unfold u32. apply Zminus_mod_idemp_r. Qed.

Lemma u32_add_l (a b : Z) : u32 (u32 a + b) = u32 (a + b).
Proof. unfold u32. apply Zplus_mod_idemp_l. Qed.

(** ** The guards of [hid_task], one equation each *)

Lemma hid_task_early (w : usb) (m : machine) :
  due w (hid_start_ms m) = false -> hid_task w m = Some (tt, m).
Proof.
  unfold due, hid_task, bind, read. intros H.
  apply negb_false_iff in H. rewrite H. reflexivity.
Qed.

Lemma hid_task_unmounted (w : usb) (m : machine) :
  due w (hid_start_ms m) = true -> tud_mounted w = false ->
  hid_task w m = Some (tt, set_app_state STATE_IDLE (advance m)).
Proof.
  unfold due, hid_task, bind, read, write. intros H Hm.
  apply negb_true_iff in H. rewrite H, Hm. reflexivity.
Qed.

Lemma hid_task_suspended (w : usb) (m : machine) :
  due w (hid_start_ms m) = true -> tud_mounted w = true ->
  tud_suspended w = true ->
  hid_task w m
  = Some (tt, set_trace (trace m ++ [RemoteWakeup]) (advance m)).
Proof.
  unfold due, hid_task, bind, read, write. intros H Hm Hs.
  apply negb_true_iff in H. rewrite H, Hm, Hs. reflexivity.
Qed.

Lemma hid_task_busy (w : usb) (m : machine) :
  due w (hid_start_ms m) = true -> tud_mounted w = true ->
  tud_suspended w = false -> tud_hid_ready w = false ->
  hid_task w m = Some (tt, advance m).
Proof.
  unfold due, hid_task, bind, read, write. intros H Hm Hs Hr.
  apply negb_true_iff in H. rewrite H, Hm, Hs, Hr. reflexivity.
Qed.

(** Past the guards the call is the [switch] on [app_state]. *)
Ltac enter_switch :=
  unfold due, hid_task, bind, read, write;
  let H := fresh in let Hm := fresh in let Hs := fresh in
  let Hr := fresh in let Hst := fresh in
  intros H Hm Hs Hr Hst; intros;
  apply negb_true_iff in H; rewrite H, Hm, Hs, Hr; cbn; rewrite Hst; cbn.

Lemma hid_task_idle (w : usb) (m : machine) :
  due w (hid_start_ms m) = true -> tud_mounted w = true ->
  tud_suspended w = false -> tud_hid_ready w = true ->
  app_state m = STATE_IDLE ->
  hid_task w m
  = Some (tt, set_app_state STATE_WAIT_INIT
                (set_state_start_ms (u32 (board_millis w)) (advance m))).
Proof. enter_switch. reflexivity. Qed.

Lemma hid_task_wait_init (w : usb) (m : machine) :
  due w (hid_start_ms m) = true -> tud_mounted w = true ->
  tud_suspended w = false -> tud_hid_ready w = true ->
  app_state m = STATE_WAIT_INIT ->
  hid_task w m
  = Some (tt, if 2000 <? u32 (board_millis w - state_start_ms m)
              then set_app_state STATE_WAIT_BEFORE_TYPE (advance m)
              else advance m).
Proof.
  enter_switch.
  destruct (2000 <? u32 (board_millis w - state_start_ms m)); reflexivity.
Qed.

Lemma hid_task_wait_before_type (w : usb) (m : machine) :
  due w (hid_start_ms m) = true -> tud_mounted w = true ->
  tud_suspended w = false -> tud_hid_ready w = true ->
  app_state m = STATE_WAIT_BEFORE_TYPE ->
  hid_task w m
  = Some (tt, if 500 <? u32 (board_millis w - state_start_ms m)
              then set_app_state STATE_TYPE_CHAR
                     (set_text_index 0 (advance m))
              else advance m).
Proof.
  enter_switch.
  destruct (500 <? u32 (board_millis w - state_start_ms m)); reflexivity.
Qed.

Lemma hid_task_done (w : usb) (m : machine) :
  due w (hid_start_ms m) = true -> tud_mounted w = true ->
  tud_suspended w = false -> tud_hid_ready w = true ->
  app_state m = STATE_DONE ->
  hid_task w m = Some (tt, advance m).
Proof. enter_switch. reflexivity. Qed.

Lemma hid_task_type_char (w : usb) (m : machine) (c : Z) :
  due w (hid_start_ms m) = true -> tud_mounted w = true ->
  tud_suspended w = false -> tud_hid_ready w = true ->
  app_state m = STATE_TYPE_CHAR ->
  0 <= text_index m ->
  nth_error text_bytes (Z.to_nat (text_index m)) = Some c ->
  hid_task w m
  = Some (tt, if c =? 0 then set_app_state STATE_DONE (advance m)
              else
                let m1 := set_trace
                            (trace m ++ [HidReport (press c) (tud_hid_report w)])
                            (advance m) in
                if tud_hid_report w
                then set_app_state STATE_RELEASE_CHAR m1 else m1).
Proof.
  enter_switch.
  unfold load_char.
  destruct (Z.ltb_spec (text_index m) 0) as [Hneg | _]; [lia |].
  match goal with Hc : nth_error _ _ = _ |- _ => rewrite Hc end. cbn.
  destruct (c =? 0); [reflexivity |].
  unfold press, key_down.
  destruct (key_modifier c) as [key modifier]. cbn.
  unfold send_key_press, send_keyboard_report.
  match goal with Hr : tud_hid_ready w = true |- _ => rewrite Hr end. cbn.
  destruct (tud_hid_report w); reflexivity.
Qed.

Lemma hid_task_release_char (w : usb) (m : machine) :
  due w (hid_start_ms m) = true -> tud_mounted w = true ->
  tud_suspended w = false -> tud_hid_ready w = true ->
  app_state m = STATE_RELEASE_CHAR ->
  text_index m < INT_MAX ->
  hid_task w m
  = Some (tt, let m1 := set_trace
                          (trace m ++ [HidReport key_up (tud_hid_report w)])
                          (advance m) in
              if tud_hid_report w
              then set_app_state STATE_TYPE_CHAR
                     (set_text_index (text_index m + 1) m1)
              else m1).
Proof.
  enter_switch.
  unfold send_key_release, tud_hid_keyboard_report, bind, emit, ret, key_up.
  cbn. destruct (tud_hid_report w); cbn; [| reflexivity].
  destruct (Z.leb_spec INT_MAX (text_index m)) as [Hbig | _]; [lia |].
  reflexivity.
Qed.

Ltac mouse_case w :=
  enter_switch;
  unfold send_mouse_move, send_mouse_click, send_mouse_release,
    tud_hid_mouse_report, bind, emit, ret, mouse_report;
  match goal with Hr : tud_hid_ready w = true |- _ => rewrite Hr end;
  cbn; destruct (tud_hid_report w); reflexivity.

Lemma hid_task_mouse_up (w : usb) (m : machine) :
  due w (hid_start_ms m) = true -> tud_mounted w = true ->
  tud_suspended w = false -> tud_hid_ready w = true ->
  app_state m = STATE_MOUSE_UP ->
  hid_task w m
  = Some (tt, let m1 := set_trace
                          (trace m ++ [HidReport (mouse_report 0 0 (-20))
                                         (tud_hid_report w)])
                          (advance m) in
              if tud_hid_report w
              then set_app_state STATE_MOUSE_DOWN m1 else m1).
Proof. mouse_case w. Qed.

Lemma hid_task_mouse_down (w : usb) (m : machine) :
  due w (hid_start_ms m) = true -> tud_mounted w = true ->
  tud_suspended w = false -> tud_hid_ready w = true ->
  app_state m = STATE_MOUSE_DOWN ->
  hid_task w m
  = Some (tt, let m1 := set_trace
                          (trace m ++ [HidReport (mouse_report 0 0 20)
                                         (tud_hid_report w)])
                          (advance m) in
              if tud_hid_report w
              then set_app_state STATE_CLICK_PRESS m1 else m1).
Proof. mouse_case w. Qed.

Lemma hid_task_click_press (w : usb) (m : machine) :
  due w (hid_start_ms m) = true -> tud_mounted w = true ->
  tud_suspended w = false -> tud_hid_ready w = true ->
  app_state m = STATE_CLICK_PRESS ->
  hid_task w m
  = Some (tt, let m1 := set_trace
                          (trace m
                           ++ [HidReport (mouse_report (u8 MOUSE_BUTTON_LEFT) 0 0)
                                 (tud_hid_report w)])
                          (advance m) in
              if tud_hid_report w
              then set_app_state STATE_CLICK_RELEASE m1 else m1).
Proof. mouse_case w. Qed.

Lemma hid_task_click_release (w : usb) (m : machine) :
  due w (hid_start_ms m) = true -> tud_mounted w = true ->
  tud_suspended w = false -> tud_hid_ready w = true ->
  app_state m = STATE_CLICK_RELEASE ->
  hid_task w m
  = Some (tt, let m1 := set_trace
                          (trace m ++ [HidReport (mouse_report 0 0 0)
                                         (tud_hid_report w)])
                          (advance m) in
              if tud_hid_report w
              then set_app_state STATE_WAIT_BEFORE_TYPE
                     (set_state_start_ms (u32 (board_millis w)) m1)
              else m1).
Proof. mouse_case w. Qed.

(** ** The script text *)

Lemma text_at (i : Z) :
  0 <= i < 12 ->
  exists c, nth_error text_bytes (Z.to_nat i) = Some c /\ c <> 0.
Proof.
  intros Hi.
  assert (Hn : (Z.to_nat i < 12)%nat) by lia.
  revert Hn. generalize (Z.to_nat i). intros n Hn.
  do 12 (destruct n as [| n]; [eexists; split; [reflexivity | discriminate] |]).
  lia.
Qed.

Lemma text_end : nth_error text_bytes (Z.to_nat 12) = Some 0.
Proof. reflexivity. Qed.

Lemma skipn_nth_error {A : Type} (l : list A) (n : nat) (a : A) :
  nth_error l n = Some a -> skipn n l = a :: skipn (S n) l.
Proof.
  revert l. induction n as [| n IH]; intros [| x l] H; try discriminate.
  - injection H as ->. reflexivity.
  - cbn in H. apply IH in H. exact H.
Qed.

Lemma sent_app (a b : list effect) : sent (a ++ b) = sent a ++ sent b.
Proof.
  induction a as [| e a IH]; [reflexivity |].
  destruct e as [r [|] | |]; cbn; rewrite IH; reflexivity.
Qed.

Lemma offered_app (a b : list effect) :
  offered (a ++ b) = offered a ++ offered b.
Proof.
  induction a as [| e a IH]; [reflexivity |].
  destruct e as [r acc | |]; cbn; rewrite IH; reflexivity.
Qed.

(** ** One call inside the typing loop *)

Lemma pending_type_char (m : machine) (c : Z) :
  app_state m = STATE_TYPE_CHAR ->
  nth_error text_bytes (Z.to_nat (text_index m)) = Some c ->
  pending m
  = if c =? 0 then []
    else press c :: key_up
         :: script_of (skipn (S (Z.to_nat (text_index m))) text_bytes).
Proof.
  intros Hst Hc. unfold pending. rewrite Hst.
  rewrite (skipn_nth_error _ _ _ Hc). reflexivity.
Qed.

Ltac fields :=
  cbn [blink_interval_ms app_state state_start_ms text_index hid_start_ms
       led_start_ms led_state trace set_blink_interval_ms set_app_state
       set_state_start_ms set_text_index set_hid_start_ms set_led_start_ms
       set_led_state set_trace advance] in *.

Lemma skipn_one {A : Type} (a : A) (l : list A) : skipn 1 (a :: l) = l.
Proof. reflexivity. Qed.

Ltac lists :=
  unfold releases;
  rewrite ?skipn_O, ?skipn_one;
  cbn [firstn app sent offered filter is_release press key_down key_up
       List.length Z.of_nat];
  rewrite ?app_nil_r, ?Z.add_0_r.

Ltac settle :=
  repeat match goal with H : cursor_ok _ |- _ => destruct H end;
  repeat split; intros; fields;
  repeat match goal with
         | H : app_state ?m = _ |- context [app_state ?m] => rewrite H
         end;
  try first [assumption | reflexivity | lia | discriminate | congruence
            | solve [auto]].

Lemma typing_step (w : usb) (m : machine) :
  tud_mounted w = true ->
  in_typing_loop (app_state m) = true -> cursor_ok m ->
  exists m',
    hid_task w m = Some (tt, m')
    /\ in_typing_loop (app_state m') = true /\ cursor_ok m'
    /\ hid_start_ms m' = polled w (hid_start_ms m)
    /\ sent (trace m')
       = sent (trace m) ++ firstn (gained w (hid_start_ms m)) (pending m)
    /\ pending m' = skipn (gained w (hid_start_ms m)) (pending m)
    /\ text_index m'
       = text_index m
         + Z.of_nat (releases (firstn (gained w (hid_start_ms m)) (pending m)))
    /\ (gained w (hid_start_ms m) = 1%nat -> pending m = [] ->
        app_state m' = STATE_DONE)
    /\ (app_state m = STATE_DONE -> app_state m' = STATE_DONE).
Proof.
  intros Hm Hloop [Hidx Hrel].
  unfold gained, polled, live. rewrite Hm.
  destruct (due w (hid_start_ms m)) eqn:Hdue; cbn [andb negb].
  2: { exists m. rewrite (hid_task_early _ _ Hdue). lists. settle. }
  destruct (tud_suspended w) eqn:Hs; cbn [andb negb].
  { rewrite (hid_task_suspended _ _ Hdue Hm Hs).
    eexists. split; [reflexivity |]. fields. rewrite sent_app. lists.
    settle. }
  destruct (tud_hid_ready w) eqn:Hr; cbn [andb negb].
  2: { rewrite (hid_task_busy _ _ Hdue Hm Hs Hr).
       eexists. split; [reflexivity |]. lists. settle. }
  destruct (app_state m) eqn:Hst; try discriminate Hloop.
  - (* STATE_TYPE_CHAR *)
    destruct (Z.eq_dec (text_index m) 12) as [Hend | Hmid].
    + assert (Hc : nth_error text_bytes (Z.to_nat (text_index m)) = Some 0)
        by (rewrite Hend; reflexivity).
      rewrite (hid_task_type_char _ _ 0 Hdue Hm Hs Hr Hst (proj1 Hidx) Hc).
      rewrite (pending_type_char _ _ Hst Hc). cbn [Z.eqb].
      eexists. split; [reflexivity |].
      destruct (tud_hid_report w); lists; settle.
    + destruct (text_at (text_index m)) as [c [Hc Hnz]]; [lia |].
      rewrite (hid_task_type_char _ _ c Hdue Hm Hs Hr Hst (proj1 Hidx) Hc).
      rewrite (pending_type_char _ _ Hst Hc).
      apply Z.eqb_neq in Hnz. rewrite Hnz.
      eexists. split; [reflexivity |].
      destruct (tud_hid_report w); fields; rewrite sent_app; lists; settle.
      unfold pending. fields. rewrite Hst.
      rewrite (skipn_nth_error _ _ _ Hc). cbn [script_of]. rewrite Hnz.
      reflexivity.
  - (* STATE_RELEASE_CHAR *)
    specialize (Hrel eq_refl).
    rewrite (hid_task_release_char _ _ Hdue Hm Hs Hr Hst);
      [| unfold INT_MAX; lia].
    eexists. split; [reflexivity |].
    unfold pending at 1 2 3 4. rewrite Hst.
    destruct (tud_hid_report w); fields; rewrite sent_app; lists; settle.
    all: try match goal with
             | H0 : pending _ = [], H1 : app_state _ = _ |- _ =>
                 unfold pending in H0; rewrite H1 in H0; discriminate H0
             end.
    all: unfold pending; fields; rewrite ?Hst; try reflexivity.
    replace (Z.to_nat (text_index m + 1)) with (S (Z.to_nat (text_index m)))
      by lia.
    reflexivity.
  - (* STATE_DONE *)
    rewrite (hid_task_done _ _ Hdue Hm Hs Hr Hst).
    eexists. split; [reflexivity |].
    unfold pending. fields. rewrite Hst.
    destruct (tud_hid_report w); lists; settle.
Qed.

(** ** Runs of calls *)

Lemma firstn_plus {A : Type} (a b : nat) (l : list A) :
  firstn (a + b) l = firstn a l ++ firstn b (skipn a l).
Proof.
  revert l. induction a as [| a IH]; intros l; [reflexivity |].
  destruct l as [| x l]; cbn.
  - destruct b; reflexivity.
  - rewrite IH. reflexivity.
Qed.

Lemma skipn_plus {A : Type} (a b : nat) (l : list A) :
  skipn (a + b) l = skipn b (skipn a l).
Proof.
  revert l. induction a as [| a IH]; intros l; [reflexivity |].
  destruct l as [| x l]; cbn.
  - destruct b; reflexivity.
  - apply IH.
Qed.

Lemma releases_app (a b : list report) :
  releases (a ++ b) = (releases a + releases b)%nat.
Proof. unfold releases. rewrite filter_app, length_app. reflexivity. Qed.

Lemma ticks_cons (w : usb) (ws : list usb) (m m1 : machine) :
  hid_task w m = Some (tt, m1) -> ticks (w :: ws) m = ticks ws m1.
Proof. intros H. cbn. unfold bind. rewrite H. reflexivity. Qed.

Lemma ticks_app (ws1 ws2 : list usb) (m m1 : machine) :
  ticks ws1 m = Some (tt, m1) -> ticks (ws1 ++ ws2) m = ticks ws2 m1.
Proof.
  revert m. induction ws1 as [| w ws1 IH]; intros m H.
  - injection H as ->. reflexivity.
  - cbn in *. unfold bind in *.
    destruct (hid_task w m) as [[[] m0] |]; [| discriminate].
    apply IH. exact H.
Qed.

Lemma typing_run (ws : list usb) :
  forall m : machine,
  Forall (fun w => tud_mounted w = true) ws ->
  in_typing_loop (app_state m) = true -> cursor_ok m ->
  exists m',
    ticks ws m = Some (tt, m')
    /\ in_typing_loop (app_state m') = true /\ cursor_ok m'
    /\ sent (trace m')
       = sent (trace m) ++ firstn (progress (hid_start_ms m) ws) (pending m)
    /\ pending m' = skipn (progress (hid_start_ms m) ws) (pending m)
    /\ text_index m'
       = text_index m
         + Z.of_nat (releases (firstn (progress (hid_start_ms m) ws)
                                 (pending m)))
    /\ ((List.length (pending m) < progress (hid_start_ms m) ws)%nat ->
        app_state m' = STATE_DONE)
    /\ (app_state m = STATE_DONE -> app_state m' = STATE_DONE).
Proof.
  induction ws as [| w ws IH]; intros m Hws Hloop Hcur.
  - exists m. cbn [progress firstn skipn]. rewrite app_nil_r.
    repeat split; auto; try (cbn; lia); try apply Hcur.
  - inversion Hws as [| ? ? Hw Hws']; subst.
    destruct (typing_step w m Hw Hloop Hcur)
      as (m1 & Hstep & Hloop1 & Hcur1 & Hacc & Hsent & Hpend & Hidx & Hfin
          & Hdone).
    destruct (IH m1 Hws' Hloop1 Hcur1)
      as (m' & Hrun & Hloop' & Hcur' & Hsent' & Hpend' & Hidx' & Hfin'
          & Hdone').
    exists m'. rewrite (ticks_cons _ _ _ _ Hstep).
    cbn [progress]. rewrite Hacc in *.
    set (g := gained w (hid_start_ms m)) in *.
    set (k := progress (polled w (hid_start_ms m)) ws) in *.
    repeat split; auto; try apply Hcur'.
    + rewrite Hsent', Hsent, Hpend, firstn_plus, app_assoc. reflexivity.
    + rewrite Hpend', Hpend, skipn_plus. reflexivity.
    + rewrite Hidx', Hidx, Hpend, firstn_plus, releases_app. lia.
    + intros Hlt.
      destruct (Nat.lt_ge_cases (List.length (pending m1)) k) as [Hk | Hk];
        [apply Hfin'; exact Hk |].
      rewrite Hpend, length_skipn in Hk.
      assert (Hg : g = 1%nat /\ pending m = []).
      { assert (Hg1 : (g <= 1)%nat).
        { subst g. unfold gained.
          destruct (due w (hid_start_ms m) && live w); lia. }
        destruct (pending m) as [| r rs]; cbn [List.length] in *; [| lia].
        split; [lia | reflexivity]. }
      apply Hdone'. apply Hfin; apply Hg.
Qed.

(** ** Every call of [hid_task] is defined and keeps the cursor in the text *)

Lemma leds_app (a b : list effect) : leds (a ++ b) = leds a ++ leds b.
Proof.
  induction a as [| e a IH]; [reflexivity |].
  destruct e as [r acc | |]; cbn; rewrite IH; reflexivity.
Qed.

Lemma hid_task_total (w : usb) (m : machine) :
  cursor_ok m ->
  exists m',
    hid_task w m = Some (tt, m')
    /\ cursor_ok m'
    /\ blink_interval_ms m' = blink_interval_ms m
    /\ led_start_ms m' = led_start_ms m
    /\ led_state m' = led_state m
    /\ leds (trace m') = leds (trace m)
    /\ cursor_move m m'
    /\ (on_script_path (app_state m) = true ->
        on_script_path (app_state m') = true).
Proof.
  intros [Hidx Hrel]. unfold cursor_ok, cursor_move.
  destruct (due w (hid_start_ms m)) eqn:Hdue.
  2: { exists m. rewrite (hid_task_early _ _ Hdue). settle. }
  destruct (tud_mounted w) eqn:Hm.
  2: { rewrite (hid_task_unmounted _ _ Hdue Hm).
       eexists. split; [reflexivity |]. settle. }
  destruct (tud_suspended w) eqn:Hs.
  { rewrite (hid_task_suspended _ _ Hdue Hm Hs).
    eexists. split; [reflexivity |]. fields. rewrite leds_app.
    cbn [leds]. rewrite app_nil_r. settle. }
  destruct (tud_hid_ready w) eqn:Hr.
  2: { rewrite (hid_task_busy _ _ Hdue Hm Hs Hr).
       eexists. split; [reflexivity |]. settle. }
  destruct (app_state m) eqn:Hst.
  - rewrite (hid_task_idle _ _ Hdue Hm Hs Hr Hst).
    eexists. split; [reflexivity |]. settle.
  - rewrite (hid_task_wait_init _ _ Hdue Hm Hs Hr Hst).
    eexists. split; [reflexivity |].
    destruct (2000 <? _); settle.
  - rewrite (hid_task_mouse_up _ _ Hdue Hm Hs Hr Hst).
    eexists. split; [reflexivity |].
    destruct (tud_hid_report w); fields; rewrite leds_app; cbn [leds];
      rewrite app_nil_r; settle.
  - rewrite (hid_task_mouse_down _ _ Hdue Hm Hs Hr Hst).
    eexists. split; [reflexivity |].
    destruct (tud_hid_report w); fields; rewrite leds_app; cbn [leds];
      rewrite app_nil_r; settle.
  - rewrite (hid_task_click_press _ _ Hdue Hm Hs Hr Hst).
    eexists. split; [reflexivity |].
    destruct (tud_hid_report w); fields; rewrite leds_app; cbn [leds];
      rewrite app_nil_r; settle.
  - rewrite (hid_task_click_release _ _ Hdue Hm Hs Hr Hst).
    eexists. split; [reflexivity |].
    destruct (tud_hid_report w); fields; rewrite leds_app; cbn [leds];
      rewrite app_nil_r; settle.
  - rewrite (hid_task_wait_before_type _ _ Hdue Hm Hs Hr Hst).
    eexists. split; [reflexivity |].
    destruct (500 <? _); settle.
  - destruct (Z.eq_dec (text_index m) 12) as [Hend | Hmid].
    + assert (Hc : nth_error text_bytes (Z.to_nat (text_index m)) = Some 0)
        by (rewrite Hend; reflexivity).
      rewrite (hid_task_type_char _ _ 0 Hdue Hm Hs Hr Hst (proj1 Hidx) Hc).
      eexists. split; [reflexivity |]. cbn [Z.eqb]. settle.
    + destruct (text_at (text_index m)) as [c [Hc Hnz]]; [lia |].
      rewrite (hid_task_type_char _ _ c Hdue Hm Hs Hr Hst (proj1 Hidx) Hc).
      apply Z.eqb_neq in Hnz. rewrite Hnz.
      eexists. split; [reflexivity |].
      destruct (tud_hid_report w); fields; rewrite leds_app; cbn [leds];
        rewrite app_nil_r; settle.
  - specialize (Hrel eq_refl).
    rewrite (hid_task_release_char _ _ Hdue Hm Hs Hr Hst);
      [| unfold INT_MAX; lia].
    eexists. split; [reflexivity |].
    destruct (tud_hid_report w); fields; rewrite leds_app; cbn [leds];
      rewrite app_nil_r; settle.
  - rewrite (hid_task_done _ _ Hdue Hm Hs Hr Hst).
    eexists. split; [reflexivity |]. settle.
Qed.

(** ** The script is "Hello World!" *)

Lemma text_bytes_eq :
  text_bytes = [72; 101; 108; 108; 111; 32; 87; 111; 114; 108; 100; 33; 0].
Proof. reflexivity. Qed.

Lemma script_is_hello_world : script_of text_bytes = hello_world_reports.
Proof.
  rewrite text_bytes_eq.
  unfold hello_world_reports, shifted, plain, letter, script_of, press,
    key_modifier.
  cbn. rewrite !u8_u8. reflexivity.
Qed.

Lemma hello_world_length : List.length hello_world_reports = 24%nat.
Proof. reflexivity. Qed.

(** ** Calls on the 10 ms cadence *)

Lemma u32_congr_add (s t d : Z) : u32 s = u32 t -> u32 (s + d) = u32 (t + d).
Proof.
  intros H. rewrite <- (u32_add_l s), H, u32_add_l. reflexivity.
Qed.

Lemma u32_congr_sub (s t d : Z) : u32 s = u32 t -> u32 (d - s) = u32 (d - t).
Proof.
  intros H. rewrite <- (u32_sub_r d s), H, u32_sub_r. reflexivity.
Qed.

Lemma steady_due (s t : Z) :
  u32 s = u32 t -> due (steady (t + interval_ms)) s = true.
Proof.
  intros H. unfold due, steady, board_millis.
  rewrite (u32_congr_sub s t _ H).
  replace (t + interval_ms - t) with interval_ms by lia.
  reflexivity.
Qed.

Lemma steady_gained (s t : Z) :
  u32 s = u32 t -> gained (steady (t + interval_ms)) s = 1%nat.
Proof. intros H. unfold gained. rewrite (steady_due s t H). reflexivity. Qed.

Lemma steady_polled (s t : Z) :
  u32 s = u32 t ->
  u32 (polled (steady (t + interval_ms)) s) = u32 (t + interval_ms).
Proof.
  intros H. unfold polled. rewrite (steady_due s t H), u32_u32.
  apply u32_congr_add. exact H.
Qed.

Lemma progress_cadence (n : nat) :
  forall s t : Z, u32 s = u32 t -> progress s (cadence t n) = n.
Proof.
  induction n as [| n IH]; intros s t H; [reflexivity |].
  cbn [cadence progress]. rewrite (steady_gained s t H).
  rewrite (IH _ _ (steady_polled s t H)). reflexivity.
Qed.

Lemma cadence_mounted (n : nat) :
  forall t : Z, Forall (fun w => tud_mounted w = true) (cadence t n).
Proof.
  induction n as [| n IH]; intros t; cbn [cadence]; constructor.
  - reflexivity.
  - apply IH.
Qed.

Lemma cadence_app (a b : nat) :
  forall t : Z,
  cadence t (a + b) = cadence t a ++ cadence (t + interval_ms * Z.of_nat a) b.
Proof.
  induction a as [| a IH]; intros t.
  - cbn [cadence Nat.add app]. f_equal. unfold interval_ms. lia.
  - cbn [cadence Nat.add app]. rewrite IH. do 3 f_equal.
    unfold interval_ms. lia.
Qed.

Lemma wait_init_cadence (n : nat) :
  forall (m : machine) (t a : Z),
  app_state m = STATE_WAIT_INIT ->
  u32 (hid_start_ms m) = u32 t -> state_start_ms m = u32 a ->
  a <= t -> t + interval_ms * Z.of_nat n - a <= 2000 ->
  exists m',
    ticks (cadence t n) m = Some (tt, m')
    /\ app_state m' = STATE_WAIT_INIT
    /\ state_start_ms m' = u32 a
    /\ u32 (hid_start_ms m') = u32 (t + interval_ms * Z.of_nat n)
    /\ trace m' = trace m.
Proof.
  unfold interval_ms.
  induction n as [| n IH]; intros m t a Hst Hacc Hanchor Hle Hwait.
  - exists m. cbn [cadence ticks]. replace (t + 10 * Z.of_nat 0) with t by lia.
    settle.
  - cbn [cadence].
    assert (Hdue := steady_due _ _ Hacc).
    assert (Hstep := hid_task_wait_init (steady (t + interval_ms)) m Hdue
                       eq_refl eq_refl eq_refl Hst).
    rewrite Hanchor in Hstep. cbn [board_millis steady] in Hstep.
    rewrite u32_sub_r, u32_small in Hstep by (unfold interval_ms; lia).
    destruct (Z.ltb_spec 2000 (t + interval_ms - a)) as [Hbad | _];
      [unfold interval_ms in Hbad; lia |].
    rewrite (ticks_cons _ _ _ _ Hstep).
    destruct (IH (advance m) (t + 10) a) as (m' & Hrun & Hst' & Ha' & Hacc' & Htr);
      fields; try assumption; try lia.
    + rewrite u32_u32. apply u32_congr_add. exact Hacc.
    + exists m'. unfold interval_ms. rewrite Hrun.
      replace (t + 10 * Z.of_nat (S n)) with (t + 10 + 10 * Z.of_nat n) by lia.
      settle.
Qed.

(** ** From [STATE_IDLE] to the typing loop *)

Lemma prelude_step (w : usb) (m : machine) :
  tud_mounted w = true -> before_typing (app_state m) = true ->
  exists m',
    hid_task w m = Some (tt, m')
    /\ sent (trace m') = sent (trace m)
    /\ (before_typing (app_state m') = true
        \/ (app_state m' = STATE_TYPE_CHAR /\ text_index m' = 0)).
Proof.
  intros Hm Hpre.
  destruct (due w (hid_start_ms m)) eqn:Hdue.
  2: { exists m. rewrite (hid_task_early _ _ Hdue). settle. }
  destruct (tud_suspended w) eqn:Hs.
  { rewrite (hid_task_suspended _ _ Hdue Hm Hs).
    eexists. split; [reflexivity |]. fields. rewrite sent_app. lists.
    settle. }
  destruct (tud_hid_ready w) eqn:Hr.
  2: { rewrite (hid_task_busy _ _ Hdue Hm Hs Hr).
       eexists. split; [reflexivity |]. settle. }
  destruct (app_state m) eqn:Hst; try discriminate Hpre.
  - rewrite (hid_task_idle _ _ Hdue Hm Hs Hr Hst).
    eexists. split; [reflexivity |]. settle.
  - rewrite (hid_task_wait_init _ _ Hdue Hm Hs Hr Hst).
    eexists. split; [reflexivity |]. destruct (2000 <? _); settle.
  - rewrite (hid_task_wait_before_type _ _ Hdue Hm Hs Hr Hst).
    eexists. split; [reflexivity |]. destruct (500 <? _); settle.
Qed.

Lemma prelude_run (ws : list usb) :
  forall m : machine,
  Forall (fun w => tud_mounted w = true) ws ->
  before_typing (app_state m) = true ->
  (exists m',
     ticks ws m = Some (tt, m') /\ before_typing (app_state m') = true
     /\ sent (trace m') = sent (trace m))
  \/ (exists ws1 ws2 m1,
        ws = ws1 ++ ws2 /\ ticks ws1 m = Some (tt, m1)
        /\ app_state m1 = STATE_TYPE_CHAR /\ text_index m1 = 0
        /\ sent (trace m1) = sent (trace m)).
Proof.
  induction ws as [| w ws IH]; intros m Hws Hpre.
  - left. exists m. settle.
  - inversion Hws as [| ? ? Hw Hws']; subst.
    destruct (prelude_step w m Hw Hpre) as (m1 & Hstep & Hsent & [Hpre1 | Hin]).
    + destruct (IH m1 Hws' Hpre1)
        as [(m' & Hrun & Hpre' & Hsent')
           | (ws1 & ws2 & m2 & Hsplit & Hrun & Hst & Hidx & Hsent')].
      * left. exists m'. rewrite (ticks_cons _ _ _ _ Hstep).
        repeat split; try assumption. congruence.
      * right. exists (w :: ws1), ws2, m2.
        rewrite (ticks_cons _ _ _ _ Hstep), Hsplit.
        repeat split; try assumption; try reflexivity. congruence.
    + right. exists [w], ws, m1.
      rewrite (ticks_cons _ _ _ _ Hstep). cbn [ticks].
      repeat split; try apply Hin; try assumption; reflexivity.
Qed.

Lemma pending_at_start (m : machine) :
  app_state m = STATE_TYPE_CHAR -> text_index m = 0 ->
  pending m = hello_world_reports /\ cursor_ok m
  /\ in_typing_loop (app_state m) = true.
Proof.
  intros Hst Hidx. unfold pending, cursor_ok. rewrite Hst, Hidx.
  cbn [Z.to_nat skipn]. rewrite script_is_hello_world.
  repeat split; try lia; try discriminate.
Qed.

Lemma firstn_all_of_skipn_nil {A : Type} (k : nat) (l : list A) :
  skipn k l = [] -> firstn k l = l.
Proof.
  intros H. rewrite <- (firstn_skipn k l) at 2. rewrite H, app_nil_r.
  reflexivity.
Qed.

Lemma exec_ticks (ws : list usb) (m m' : machine) :
  ticks ws m = Some (tt, m') -> exec (ticks ws) m = Some m'.
Proof. intros H. unfold exec. rewrite H. reflexivity. Qed.

Lemma cadence_reaches_typing (m : machine) :
  app_state m = STATE_IDLE ->
  exists m4,
    ticks (cadence (hid_start_ms m) 203) m = Some (tt, m4)
    /\ app_state m4 = STATE_TYPE_CHAR /\ text_index m4 = 0
    /\ trace m4 = trace m
    /\ u32 (hid_start_ms m4) = u32 (hid_start_ms m + 2030).
Proof.
  intros Hst. set (t0 := hid_start_ms m).
  change 203%nat with (1 + (200 + (1 + 1)))%nat.
  rewrite (cadence_app 1), (cadence_app 200).
  unfold interval_ms.
  replace (t0 + 10 * Z.of_nat 1) with (t0 + 10) by lia.
  replace (t0 + 10 + 10 * Z.of_nat 200) with (t0 + 2010) by lia.
  (* leaving STATE_IDLE *)
  assert (H1 : ticks (cadence t0 1) m
               = Some (tt, set_app_state STATE_WAIT_INIT
                             (set_state_start_ms (u32 (t0 + 10)) (advance m)))).
  { cbn [cadence ticks]. unfold bind.
    rewrite (hid_task_idle (steady (t0 + interval_ms)) m
               (steady_due _ _ eq_refl) eq_refl eq_refl eq_refl Hst).
    reflexivity. }
  rewrite (ticks_app _ _ _ _ H1). clear H1.
  (* waiting in STATE_WAIT_INIT *)
  destruct (wait_init_cadence 200
              (set_app_state STATE_WAIT_INIT
                 (set_state_start_ms (u32 (t0 + 10)) (advance m)))
              (t0 + 10) (t0 + 10))
    as (m2 & H2 & Hst2 & Hanchor2 & Hacc2 & Htr2);
    fields; unfold interval_ms; try reflexivity; try lia.
  { fold t0. apply u32_u32. }
  rewrite (ticks_app _ _ _ _ H2). clear H2.
  unfold interval_ms in Hacc2.
  replace (t0 + 10 + 10 * Z.of_nat 200) with (t0 + 2010) in Hacc2 by lia.
  (* the two timed transitions *)
  change (1 + 1)%nat with 2%nat. cbn [cadence]. unfold interval_ms.
  replace (t0 + 2010 + 10 + 10) with (t0 + 2030) by lia.
  replace (t0 + 2010 + 10) with (t0 + 2020) by lia.
  assert (Hdue3 : due (steady (t0 + 2020)) (hid_start_ms m2) = true).
  { replace (t0 + 2020) with (t0 + 2010 + interval_ms)
      by (unfold interval_ms; lia).
    apply steady_due. exact Hacc2. }
  assert (H3 := hid_task_wait_init (steady (t0 + 2020)) m2 Hdue3
                  eq_refl eq_refl eq_refl Hst2).
  rewrite Hanchor2 in H3. cbn [board_millis steady] in H3.
  rewrite u32_sub_r in H3.
  replace (t0 + 2020 - (t0 + 10)) with 2010 in H3 by lia.
  change (2000 <? u32 2010) with true in H3. cbv iota in H3.
  rewrite (ticks_cons _ _ _ _ H3). clear H3.
  set (m3 := set_app_state STATE_WAIT_BEFORE_TYPE (advance m2)).
  assert (Hacc3 : u32 (hid_start_ms m3) = u32 (t0 + 2020)).
  { subst m3. fields. rewrite u32_u32.
    replace (t0 + 2020) with (t0 + 2010 + interval_ms)
      by (unfold interval_ms; lia).
    apply u32_congr_add. exact Hacc2. }
  assert (Hdue4 : due (steady (t0 + 2030)) (hid_start_ms m3) = true).
  { replace (t0 + 2030) with (t0 + 2020 + interval_ms)
      by (unfold interval_ms; lia).
    apply steady_due. exact Hacc3. }
  assert (H4 := hid_task_wait_before_type (steady (t0 + 2030)) m3 Hdue4
                  eq_refl eq_refl eq_refl eq_refl).
  replace (state_start_ms m3) with (u32 (t0 + 10)) in H4
    by (subst m3; fields; congruence).
  cbn [board_millis steady] in H4. rewrite u32_sub_r in H4.
  replace (t0 + 2030 - (t0 + 10)) with 2020 in H4 by lia.
  change (500 <? u32 2020) with true in H4. cbv iota in H4.
  rewrite (ticks_cons _ _ _ _ H4). clear H4.
  eexists. split; [reflexivity |].
  subst m3. fields. rewrite u32_u32.
  repeat split; try assumption; try reflexivity.
  replace (t0 + 2030) with (t0 + 2020 + interval_ms)
    by (unfold interval_ms; lia).
  apply u32_congr_add. exact Hacc3.
Qed.

Lemma live_mounted (ws : list usb) :
  Forall (fun w => live w = true) ws ->
  Forall (fun w => tud_mounted w = true) ws.
Proof.
  apply Forall_impl. intros w H. unfold live in H.
  destruct (tud_mounted w); [reflexivity | discriminate H].
Qed.

(** C1.  Started in [STATE_IDLE] and called with the device mounted, awake,
    ready and the stack accepting, the sequencer types "Hello World!": at any
    point of any such run the accepted reports are a prefix of the 24 reports
    of the script (a press then a release per character, in order, left
    shift on exactly [H], [W] and [!]), a run that has reached [STATE_DONE]
    has sent all of them, and on the 10 ms cadence the 228th call reaches
    [STATE_DONE], where every later call stays without sending more. *)
Theorem hello_world_typed (m : machine) :
  app_state m = STATE_IDLE ->
  (forall ws : list usb,
     Forall (fun w => live w = true) ws ->
     exists (m' : machine) (k : nat),
       exec (ticks ws) m = Some m'
       /\ sent (trace m') = sent (trace m) ++ firstn k hello_world_reports
       /\ (app_state m' = STATE_DONE ->
           sent (trace m') = sent (trace m) ++ hello_world_reports))
  /\ (forall n : nat,
        (228 <= n)%nat ->
        exists m' : machine,
          exec (ticks (cadence (hid_start_ms m) n)) m = Some m'
          /\ app_state m' = STATE_DONE
          /\ sent (trace m') = sent (trace m) ++ hello_world_reports).
Proof.
  intros Hst. split.
  - intros ws Hws. apply live_mounted in Hws.
    assert (Hpre : before_typing (app_state m) = true)
      by (rewrite Hst; reflexivity).
    destruct (prelude_run ws m Hws Hpre)
      as [(m' & Hrun & Hpre' & Hsent)
         | (ws1 & ws2 & m1 & Hsplit & Hrun1 & Hst1 & Hidx1 & Hsent1)].
    + exists m', 0%nat. rewrite (exec_ticks _ _ _ Hrun).
      cbn [firstn]. rewrite app_nil_r.
      repeat split; try assumption.
      intros Hdone. rewrite Hdone in Hpre'. discriminate Hpre'.
    + destruct (pending_at_start m1 Hst1 Hidx1) as (Hpend & Hcur & Hloop).
      subst ws. apply Forall_app in Hws. destruct Hws as [_ Hws2].
      destruct (typing_run ws2 m1 Hws2 Hloop Hcur)
        as (m' & Hrun & _ & _ & Hsent & Hpend' & _ & _ & _).
      exists m', (progress (hid_start_ms m1) ws2).
      unfold exec. rewrite (ticks_app _ _ _ _ Hrun1), Hrun.
      rewrite Hpend in *. rewrite Hsent1 in Hsent.
      repeat split; try assumption.
      intros Hdone. rewrite Hsent. f_equal.
      apply firstn_all_of_skipn_nil. rewrite <- Hpend'.
      unfold pending. rewrite Hdone. reflexivity.
  - intros n Hn.
    destruct (cadence_reaches_typing m Hst)
      as (m4 & H4 & Hst4 & Hidx4 & Htr4 & Hacc4).
    destruct (pending_at_start m4 Hst4 Hidx4) as (Hpend & Hcur & Hloop).
    replace n with (203 + (n - 203))%nat by lia.
    rewrite cadence_app. unfold exec. rewrite (ticks_app _ _ _ _ H4).
    unfold interval_ms at 1.
    replace (hid_start_ms m + 10 * Z.of_nat 203) with (hid_start_ms m + 2030)
      by lia.
    destruct (typing_run (cadence (hid_start_ms m + 2030) (n - 203)) m4
                (cadence_mounted _ _) Hloop Hcur)
      as (m' & Hrun & _ & _ & Hsent & _ & _ & Hfin & _).
    rewrite (progress_cadence _ _ _ Hacc4), Hpend in *.
    exists m'. rewrite Hrun. split; [reflexivity |]. split.
    + apply Hfin. rewrite hello_world_length. lia.
    + rewrite Hsent, Htr4. f_equal. apply firstn_all2.
      rewrite hello_world_length. lia.
Qed.

(** C4.  In the typing loop, with the device mounted and any mix of early,
    suspended, not-ready and refused calls, the accepted reports are the
    first [k] reports still pending at the cursor, [k] being the number of
    calls that were not stalled; the cursor has advanced by one per release
    sent, and the run without stalls that makes the same [k] calls sends the
    same reports and ends on the same cursor. *)
Theorem typing_loop_stall_invariance (m : machine) (ws : list usb) :
  app_state m = STATE_TYPE_CHAR \/ app_state m = STATE_RELEASE_CHAR ->
  cursor_ok m ->
  Forall (fun w => tud_mounted w = true) ws ->
  let k := progress (hid_start_ms m) ws in
  exists m' m0 : machine,
    exec (ticks ws) m = Some m'
    /\ sent (trace m') = sent (trace m) ++ firstn k (pending m)
    /\ text_index m'
       = text_index m + Z.of_nat (releases (firstn k (pending m)))
    /\ exec (ticks (cadence (hid_start_ms m) k)) m = Some m0
    /\ sent (trace m0) = sent (trace m')
    /\ text_index m0 = text_index m'.
Proof.
  intros Hst Hcur Hws k.
  assert (Hloop : in_typing_loop (app_state m) = true)
    by (destruct Hst as [-> | ->]; reflexivity).
  destruct (typing_run ws m Hws Hloop Hcur)
    as (m' & Hrun & _ & _ & Hsent & _ & Hidx & _ & _).
  destruct (typing_run (cadence (hid_start_ms m) k) m
              (cadence_mounted _ _) Hloop Hcur)
    as (m0 & Hrun0 & _ & _ & Hsent0 & _ & Hidx0 & _ & _).
  rewrite (progress_cadence _ _ _ eq_refl) in Hsent0, Hidx0.
  exists m', m0.
  rewrite (exec_ticks _ _ _ Hrun), (exec_ticks _ _ _ Hrun0).
  fold k in Hsent, Hidx.
  repeat split; try assumption; congruence.
Qed.

(** ** Callbacks and the blinking task *)

Lemma led_blinking_task_total (w : usb) (m : machine) :
  exists m',
    led_blinking_task w m = Some (tt, m')
    /\ blink_interval_ms m' = blink_interval_ms m
    /\ app_state m' = app_state m /\ text_index m' = text_index m
    /\ state_start_ms m' = state_start_ms m
    /\ hid_start_ms m' = hid_start_ms m
    /\ sent (trace m') = sent (trace m)
    /\ (blink_interval_ms m = 0 -> m' = m).
Proof.
  unfold led_blinking_task, bind, read, write, board_led_write, emit, ret.
  destruct (blink_interval_ms m =? 0) eqn:Hz.
  - exists m. settle.
  - apply Z.eqb_neq in Hz.
    destruct (u32 (board_millis w - led_start_ms m) <? blink_interval_ms m).
    + exists m. settle.
    + eexists. split; [reflexivity |]. fields. rewrite sent_app. lists.
      settle.
Qed.

Lemma set_report_empty (report_id report_type : Z) (m : machine) :
  tud_hid_set_report_cb report_id report_type [] m = Some (tt, m).
Proof.
  unfold tud_hid_set_report_cb. cbn [List.length Z.of_nat].
  destruct (report_type =? HID_REPORT_TYPE_OUTPUT);
    destruct (report_id =? REPORT_ID_KEYBOARD); reflexivity.
Qed.

Lemma set_report_leds (kbd_leds : Z) (rest : list Z) (m : machine) :
  tud_hid_set_report_cb REPORT_ID_KEYBOARD HID_REPORT_TYPE_OUTPUT
    (kbd_leds :: rest) m
  = Some (tt, if Z.land kbd_leds KEYBOARD_LED_CAPSLOCK =? 0
              then set_blink_interval_ms BLINK_MOUNTED
                     (set_trace (trace m ++ [LedWrite false]) m)
              else set_trace (trace m ++ [LedWrite true])
                     (set_blink_interval_ms 0 m)).
Proof.
  unfold tud_hid_set_report_cb. rewrite !Z.eqb_refl.
  destruct (Z.ltb_spec (Z.of_nat (List.length (kbd_leds :: rest))) 1)
    as [Hlen | _]; [cbn [List.length] in Hlen; lia |].
  cbn [nth].
  destruct (Z.land kbd_leds KEYBOARD_LED_CAPSLOCK =? 0); reflexivity.
Qed.

Lemma set_report_total (report_id report_type : Z) (buffer : list Z)
    (m : machine) :
  exists m',
    tud_hid_set_report_cb report_id report_type buffer m = Some (tt, m')
    /\ blink_interval_ms m'
       = match selects (SetReport report_id report_type buffer) with
         | Some v => v
         | None => blink_interval_ms m
         end
    /\ app_state m' = app_state m /\ text_index m' = text_index m
    /\ state_start_ms m' = state_start_ms m
    /\ hid_start_ms m' = hid_start_ms m
    /\ sent (trace m') = sent (trace m).
Proof.
  destruct buffer as [| kbd_leds rest].
  - exists m. rewrite set_report_empty. settle.
  - unfold selects.
    destruct (report_type =? HID_REPORT_TYPE_OUTPUT) eqn:Hty;
      [destruct (report_id =? REPORT_ID_KEYBOARD) eqn:Hid |]; cbn [andb].
    + apply Z.eqb_eq in Hty, Hid. subst. rewrite set_report_leds.
      eexists. split; [reflexivity |].
      destruct (Z.land kbd_leds KEYBOARD_LED_CAPSLOCK =? 0); fields;
        rewrite sent_app; lists; settle.
    + exists m. unfold tud_hid_set_report_cb. rewrite Hty, Hid. settle.
    + exists m. unfold tud_hid_set_report_cb. rewrite Hty. settle.
Qed.

Lemma fire_total (e : event) (m : machine) :
  cursor_ok m ->
  exists m',
    fire e m = Some (tt, m') /\ cursor_ok m'
    /\ blink_interval_ms m'
       = match selects e with Some v => v | None => blink_interval_ms m end.
Proof.
  intros Hcur. destruct e as [| | en | w | | | id ty buffer | w | w]; cbn [fire].
  - eexists. split; [reflexivity |]. destruct Hcur. settle.
  - eexists. split; [reflexivity |]. destruct Hcur. settle.
  - eexists. split; [reflexivity |]. destruct Hcur. settle.
  - eexists. split; [reflexivity |]. destruct Hcur. settle.
  - exists m. destruct Hcur. settle.
  - exists m. destruct Hcur. settle.
  - destruct (set_report_total id ty buffer m)
      as (m' & Hrun & Hint & Hst & Hidx & _).
    exists m'. destruct Hcur as [Hb Hrel].
    unfold cursor_ok. rewrite Hst, Hidx. settle.
  - destruct (led_blinking_task_total w m)
      as (m' & Hrun & Hint & Hst & Hidx & _).
    exists m'. destruct Hcur as [Hb Hrel].
    unfold cursor_ok. rewrite Hst, Hidx. settle.
  - destruct (hid_task_total w m Hcur) as (m' & Hrun & Hcur' & Hint & _).
    exists m'. split; [exact Hrun | split; [exact Hcur' | exact Hint]].
Qed.

Lemma run_total (es : list event) :
  forall m : machine,
  cursor_ok m ->
  exists m',
    run es m = Some (tt, m') /\ cursor_ok m'
    /\ blink_interval_ms m' = selected (blink_interval_ms m) es.
Proof.
  induction es as [| e es IH]; intros m Hcur.
  - exists m. settle.
  - destruct (fire_total e m Hcur) as (m1 & Hfire & Hcur1 & Hint1).
    destruct (IH m1 Hcur1) as (m' & Hrun & Hcur' & Hint').
    exists m'. cbn [run selected]. unfold bind. rewrite Hfire, Hrun.
    rewrite Hint', Hint1. settle.
Qed.

Lemma boot_cursor_ok : cursor_ok boot.
Proof. unfold cursor_ok, boot. settle. Qed.

Lemma load_char_defined (i : Z) (m : machine) :
  0 <= i <= 12 -> exists c, load_char i m = Some (c, m).
Proof.
  intros Hi. unfold load_char.
  destruct (Z.ltb_spec i 0) as [Hneg | _]; [lia |].
  destruct (Z.eq_dec i 12) as [-> | Hmid].
  - exists 0. reflexivity.
  - destruct (text_at i) as [c [Hc _]]; [lia |].
    exists c. rewrite Hc. reflexivity.
Qed.

(** The cursor after one call of [hid_task]: it is assigned on two
    transitions only, and the typing loop is entered from
    [STATE_WAIT_BEFORE_TYPE] alone. *)
Ltac cursor_case :=
  unfold cursor_after; fields;
  repeat match goal with
         | H : app_state ?m = _ |- context [app_state ?m] => rewrite H
         end;
  split; [try reflexivity
         | intros;
           repeat match goal with
                  | H : app_state ?m = _, H' : context [app_state ?m] |- _ =>
                      rewrite H in H'
                  end;
           first [discriminate | solve [auto]]].

Lemma hid_task_cursor (w : usb) (m : machine) :
  cursor_ok m ->
  exists m',
    hid_task w m = Some (tt, m')
    /\ text_index m' = cursor_after m m'
    /\ (app_state m' = STATE_TYPE_CHAR ->
        app_state m = STATE_WAIT_BEFORE_TYPE
        \/ app_state m = STATE_TYPE_CHAR
        \/ app_state m = STATE_RELEASE_CHAR).
Proof.
  intros [Hidx Hrel].
  destruct (due w (hid_start_ms m)) eqn:Hdue.
  2: { exists m. rewrite (hid_task_early _ _ Hdue).
       split; [reflexivity |].
       destruct (app_state m) eqn:Hst; cursor_case. }
  destruct (tud_mounted w) eqn:Hm.
  2: { rewrite (hid_task_unmounted _ _ Hdue Hm).
       eexists. split; [reflexivity |].
       destruct (app_state m) eqn:Hst; cursor_case. }
  destruct (tud_suspended w) eqn:Hs.
  { rewrite (hid_task_suspended _ _ Hdue Hm Hs).
    eexists. split; [reflexivity |].
    destruct (app_state m) eqn:Hst; cursor_case. }
  destruct (tud_hid_ready w) eqn:Hr.
  2: { rewrite (hid_task_busy _ _ Hdue Hm Hs Hr).
       eexists. split; [reflexivity |].
       destruct (app_state m) eqn:Hst; cursor_case. }
  destruct (app_state m) eqn:Hst.
  - rewrite (hid_task_idle _ _ Hdue Hm Hs Hr Hst).
    eexists. split; [reflexivity |]. cursor_case.
  - rewrite (hid_task_wait_init _ _ Hdue Hm Hs Hr Hst).
    eexists. split; [reflexivity |].
    destruct (2000 <? _); cursor_case.
  - rewrite (hid_task_mouse_up _ _ Hdue Hm Hs Hr Hst).
    eexists. split; [reflexivity |].
    destruct (tud_hid_report w); cursor_case.
  - rewrite (hid_task_mouse_down _ _ Hdue Hm Hs Hr Hst).
    eexists. split; [reflexivity |].
    destruct (tud_hid_report w); cursor_case.
  - rewrite (hid_task_click_press _ _ Hdue Hm Hs Hr Hst).
    eexists. split; [reflexivity |].
    destruct (tud_hid_report w); cursor_case.
  - rewrite (hid_task_click_release _ _ Hdue Hm Hs Hr Hst).
    eexists. split; [reflexivity |].
    destruct (tud_hid_report w); cursor_case.
  - rewrite (hid_task_wait_before_type _ _ Hdue Hm Hs Hr Hst).
    eexists. split; [reflexivity |].
    destruct (500 <? _); cursor_case.
  - destruct (Z.eq_dec (text_index m) 12) as [Hend | Hmid].
    + assert (Hc : nth_error text_bytes (Z.to_nat (text_index m)) = Some 0)
        by (rewrite Hend; reflexivity).
      rewrite (hid_task_type_char _ _ 0 Hdue Hm Hs Hr Hst (proj1 Hidx) Hc).
      eexists. split; [reflexivity |]. cbn [Z.eqb]. cursor_case.
    + destruct (text_at (text_index m)) as [c [Hc Hnz]]; [lia |].
      rewrite (hid_task_type_char _ _ c Hdue Hm Hs Hr Hst (proj1 Hidx) Hc).
      apply Z.eqb_neq in Hnz. rewrite Hnz.
      eexists. split; [reflexivity |].
      destruct (tud_hid_report w); cursor_case.
  - specialize (Hrel eq_refl).
    rewrite (hid_task_release_char _ _ Hdue Hm Hs Hr Hst);
      [| unfold INT_MAX; lia].
    eexists. split; [reflexivity |].
    destruct (tud_hid_report w); cursor_case.
  - rewrite (hid_task_done _ _ Hdue Hm Hs Hr Hst).
    eexists. split; [reflexivity |]. cursor_case.
Qed.

(** C10.  In every state the firmware can reach from its initial globals, by
    any sequence of callbacks and task calls, the cursor is between 0 and 12,
    so [text_to_type[text_index]] reads inside the literal and every call of
    [hid_task] is defined.  A call moves the cursor only by the increment
    after a release or by the reset to 0 on entering the typing loop; on the
    terminating NUL (cursor 12) a call that passes the guards ends in
    [STATE_DONE] with the cursor still 12.  The cursor a call leaves is
    fixed by the states around it ([cursor_after]): 0 on
    [STATE_WAIT_BEFORE_TYPE] to [STATE_TYPE_CHAR], one more on
    [STATE_RELEASE_CHAR] to [STATE_TYPE_CHAR], unchanged otherwise.  The
    typing loop is entered from [STATE_WAIT_BEFORE_TYPE] only, every such
    entry leaves the cursor at 0 whatever it was before, and the entry
    happens on the first call that passes the guards more than 500 ms after
    the anchor. *)
Theorem cursor_within_text (es : list event) :
  exists m : machine,
    exec (run es) boot = Some m
    /\ 0 <= text_index m <= 12
    /\ (exists c, load_char (text_index m) m = Some (c, m))
    /\ forall w : usb,
       exists m' : machine,
         exec (hid_task w) m = Some m'
         /\ 0 <= text_index m' <= 12
         /\ cursor_move m m'
         /\ (app_state m = STATE_TYPE_CHAR -> text_index m = 12 ->
             due w (hid_start_ms m) = true -> tud_mounted w = true ->
             tud_suspended w = false -> tud_hid_ready w = true ->
             app_state m' = STATE_DONE /\ text_index m' = 12)
         /\ text_index m' = cursor_after m m'
         /\ (app_state m' = STATE_TYPE_CHAR ->
             app_state m = STATE_WAIT_BEFORE_TYPE
             \/ app_state m = STATE_TYPE_CHAR
             \/ app_state m = STATE_RELEASE_CHAR)
         /\ (app_state m = STATE_WAIT_BEFORE_TYPE ->
             app_state m' = STATE_TYPE_CHAR -> text_index m' = 0)
         /\ (app_state m = STATE_WAIT_BEFORE_TYPE ->
             due w (hid_start_ms m) = true -> tud_mounted w = true ->
             tud_suspended w = false -> tud_hid_ready w = true ->
             500 < u32 (board_millis w - state_start_ms m) ->
             app_state m' = STATE_TYPE_CHAR /\ text_index m' = 0).
Proof.
  destruct (run_total es boot boot_cursor_ok) as (m & Hrun & Hcur & _).
  exists m. unfold exec. rewrite Hrun.
  split; [reflexivity |]. split; [apply Hcur |].
  split; [apply load_char_defined; apply Hcur |].
  intros w.
  destruct (hid_task_total w m Hcur)
    as (m' & Hstep & Hcur' & _ & _ & _ & _ & Hmove & _).
  destruct (hid_task_cursor w m Hcur) as (m'' & Hstep' & Hafter & Hentry).
  rewrite Hstep in Hstep'. injection Hstep' as <-.
  exists m'. rewrite Hstep.
  split; [reflexivity |]. split; [apply Hcur' |]. split; [exact Hmove |].
  split.
  { intros Hst Hend Hdue Hm Hs Hr.
    assert (Hc : nth_error text_bytes (Z.to_nat (text_index m)) = Some 0)
      by (rewrite Hend; reflexivity).
    rewrite (hid_task_type_char _ _ 0 Hdue Hm Hs Hr Hst (proj1 (proj1 Hcur))
               Hc) in Hstep.
    cbn [Z.eqb] in Hstep. injection Hstep as <-. settle. }
  split; [exact Hafter |]. split; [exact Hentry |].
  split.
  { intros Hst Hst'. rewrite Hafter. unfold cursor_after.
    rewrite Hst, Hst'. reflexivity. }
  intros Hst Hdue Hm Hs Hr Hlate.
  rewrite (hid_task_wait_before_type _ _ Hdue Hm Hs Hr Hst) in Hstep.
  apply Z.ltb_lt in Hlate. rewrite Hlate in Hstep.
  injection Hstep as <-. split; reflexivity.
Qed.

(** C9, as the code has it.  In every reachable state each callback sets the
    blink interval to the value it selects (mount 1000, unmount 250, suspend
    2500, resume 1000 or 250 by [tud_mounted], a non-empty keyboard LED report
    0 with Capslock set and 1000 with it clear) and every other event leaves
    it alone, so the interval is the one selected by the most recent such
    event, a lifecycle callback after a Capslock report included.  The
    Capslock report writes the LED on, the clearing one writes it off; while
    the interval is 0 neither task writes the LED; a zero-length report
    changes nothing. *)
Theorem blink_interval_last_selected (es : list event) (e : event) :
  exists m m' : machine,
    exec (run es) boot = Some m
    /\ blink_interval_ms m = selected BLINK_NOT_MOUNTED es
    /\ exec (fire e) m = Some m'
    /\ blink_interval_ms m'
       = match selects e with Some v => v | None => blink_interval_ms m end
    /\ (forall (kbd_leds : Z) (rest : list Z),
        exec (tud_hid_set_report_cb REPORT_ID_KEYBOARD HID_REPORT_TYPE_OUTPUT
                (kbd_leds :: rest)) m
        = Some (if Z.land kbd_leds KEYBOARD_LED_CAPSLOCK =? 0
                then set_blink_interval_ms BLINK_MOUNTED
                       (set_trace (trace m ++ [LedWrite false]) m)
                else set_trace (trace m ++ [LedWrite true])
                       (set_blink_interval_ms 0 m)))
    /\ (forall report_id report_type : Z,
        exec (tud_hid_set_report_cb report_id report_type []) m = Some m)
    /\ (blink_interval_ms m = 0 ->
        forall w : usb,
          exec (led_blinking_task w) m = Some m
          /\ exists m1 : machine,
               exec (hid_task w) m = Some m1
               /\ blink_interval_ms m1 = 0
               /\ leds (trace m1) = leds (trace m)).
Proof.
  destruct (run_total es boot boot_cursor_ok) as (m & Hrun & Hcur & Hint).
  destruct (fire_total e m Hcur) as (m' & Hfire & _ & Hint').
  exists m, m'. unfold exec. rewrite Hrun, Hfire.
  split; [reflexivity |]. split; [exact Hint |]. split; [reflexivity |].
  split; [exact Hint' |]. split; [| split].
  - intros kbd_leds rest. rewrite set_report_leds. reflexivity.
  - intros report_id report_type. rewrite set_report_empty. reflexivity.
  - intros Hzero w.
    destruct (led_blinking_task_total w m)
      as (m2 & Hled & _ & _ & _ & _ & _ & _ & Hsame).
    rewrite Hled, (Hsame Hzero). split; [reflexivity |].
    destruct (hid_task_total w m Hcur)
      as (m1 & Hstep & _ & Hint1 & _ & _ & Hleds & _).
    exists m1. rewrite Hstep. settle.
Qed.

(** C2, for a mounted device.  A call of [hid_task] that finds the device
    mounted and the transport not ready leaves the state, the cursor and the
    state timer as they were and hands no report to the stack; it only moves
    the poll accumulator when the gate lets it through and, on a suspended
    bus, asks for remote wakeup. *)
Theorem not_ready_tick_stalls (w : usb) (m : machine) :
  tud_hid_ready w = false -> tud_mounted w = true ->
  exists m' : machine,
    exec (hid_task w) m = Some m'
    /\ app_state m' = app_state m
    /\ text_index m' = text_index m
    /\ state_start_ms m' = state_start_ms m
    /\ offered (trace m') = offered (trace m)
    /\ hid_start_ms m' = polled w (hid_start_ms m)
    /\ trace m'
       = trace m ++ (if due w (hid_start_ms m) && tud_suspended w
                     then [RemoteWakeup] else []).
Proof.
  intros Hr Hm. unfold exec, polled.
  destruct (due w (hid_start_ms m)) eqn:Hdue; cbn [andb].
  2: { rewrite (hid_task_early _ _ Hdue). exists m.
       rewrite app_nil_r. settle. }
  destruct (tud_suspended w) eqn:Hs.
  - rewrite (hid_task_suspended _ _ Hdue Hm Hs).
    eexists. split; [reflexivity |]. fields. rewrite offered_app. lists.
    settle.
  - rewrite (hid_task_busy _ _ Hdue Hm Hs Hr).
    eexists. split; [reflexivity |]. fields. rewrite app_nil_r. settle.
Qed.

(** C3, as the code has it.  [tud_umount_cb] selects the unmounted blink
    cadence and leaves the sequencer state alone; the state becomes
    [STATE_IDLE], whatever it was, at the next call of [hid_task] that passes
    the poll gate while the device is not mounted. *)
Theorem unmount_resets_on_next_poll (w : usb) (m : machine) :
  tud_mounted w = false -> due w (hid_start_ms m) = true ->
  exists m1 m' : machine,
    exec tud_umount_cb m = Some m1
    /\ app_state m1 = app_state m
    /\ blink_interval_ms m1 = BLINK_NOT_MOUNTED
    /\ exec (hid_task w) m1 = Some m'
    /\ app_state m' = STATE_IDLE.
Proof.
  intros Hm Hdue.
  exists (set_blink_interval_ms BLINK_NOT_MOUNTED m). eexists.
  split; [reflexivity |]. split; [reflexivity |]. split; [reflexivity |].
  unfold exec. rewrite hid_task_unmounted by assumption.
  split; reflexivity.
Qed.

(** Leaving [STATE_IDLE] captures the clock, and one later call in
    [STATE_WAIT_INIT] that passes the gate and the guards compares the clock
    with that capture. *)
Lemma wait_init_step (m0 : machine) (w0 : usb) :
  due w0 (hid_start_ms m0) = true -> tud_mounted w0 = true ->
  tud_suspended w0 = false -> tud_hid_ready w0 = true ->
  app_state m0 = STATE_IDLE ->
  exists m1 : machine,
    exec (hid_task w0) m0 = Some m1
    /\ app_state m1 = STATE_WAIT_INIT
    /\ state_start_ms m1 = u32 (board_millis w0)
    /\ forall (m : machine) (w : usb),
       app_state m = STATE_WAIT_INIT ->
       state_start_ms m = state_start_ms m1 ->
       due w (hid_start_ms m) = true -> tud_mounted w = true ->
       tud_suspended w = false -> tud_hid_ready w = true ->
       let elapsed := u32 (board_millis w - board_millis w0) in
       exists m' : machine,
         exec (hid_task w) m = Some m'
         /\ state_start_ms m' = state_start_ms m
         /\ (app_state m' = STATE_WAIT_BEFORE_TYPE <-> 2000 < elapsed)
         /\ (app_state m' = STATE_WAIT_INIT <-> elapsed <= 2000)
         /\ (elapsed = 1999 -> app_state m' = STATE_WAIT_INIT)
         /\ (elapsed = 2000 -> app_state m' = STATE_WAIT_INIT)
         /\ (elapsed = 2001 -> app_state m' = STATE_WAIT_BEFORE_TYPE).
Proof.
  intros Hdue0 Hm0 Hs0 Hr0 Hst0. unfold exec.
  rewrite (hid_task_idle _ _ Hdue0 Hm0 Hs0 Hr0 Hst0).
  eexists. split; [reflexivity |]. split; [reflexivity |].
  split; [reflexivity |].
  intros m w Hst Hanchor Hdue Hm Hs Hr.
  set (elapsed := u32 (board_millis w - board_millis w0)).
  rewrite (hid_task_wait_init _ _ Hdue Hm Hs Hr Hst).
  fields. rewrite Hanchor, u32_sub_r. fold elapsed.
  eexists. split; [reflexivity |].
  destruct (Z.ltb_spec 2000 elapsed) as [Hgt | Hle]; fields; rewrite ?Hst;
    repeat split; intros; try lia; try congruence; try reflexivity.
Qed.

Lemma waiting_run (ws : list usb) :
  forall (m : machine) (a : Z),
  app_state m = STATE_WAIT_INIT -> state_start_ms m = u32 a ->
  Forall (fun w => tud_mounted w = true) ws ->
  waiting a (hid_start_ms m) ws = true ->
  exists m',
    ticks ws m = Some (tt, m')
    /\ app_state m' = STATE_WAIT_INIT
    /\ state_start_ms m' = u32 a
    /\ hid_start_ms m' = accumulator (hid_start_ms m) ws
    /\ offered (trace m') = offered (trace m).
Proof.
  induction ws as [| w ws IH]; intros m a Hst Hanchor Hws Hwait.
  - exists m. settle.
  - inversion Hws as [| ? ? Hm Hws']; subst.
    cbn [waiting] in Hwait. apply andb_true_iff in Hwait.
    destruct Hwait as [Hhere Hrest].
    cbn [accumulator]. unfold eligible in Hhere. unfold polled in *.
    rewrite Hm in Hhere.
    assert (Hnext : forall m1,
              hid_task w m = Some (tt, m1) ->
              app_state m1 = STATE_WAIT_INIT -> state_start_ms m1 = u32 a ->
              hid_start_ms m1
              = (if due w (hid_start_ms m)
                 then u32 (hid_start_ms m + interval_ms)
                 else hid_start_ms m) ->
              offered (trace m1) = offered (trace m) ->
              exists m',
                ticks (w :: ws) m = Some (tt, m')
                /\ app_state m' = STATE_WAIT_INIT
                /\ state_start_ms m' = u32 a
                /\ hid_start_ms m'
                   = accumulator
                       (if due w (hid_start_ms m)
                        then u32 (hid_start_ms m + interval_ms)
                        else hid_start_ms m) ws
                /\ offered (trace m') = offered (trace m)).
    { intros m1 Hstep Hst1 Hanchor1 Hacc1 Hoff1.
      rewrite <- Hacc1 in Hrest.
      destruct (IH m1 a Hst1 Hanchor1 Hws' Hrest)
        as (m' & Hrun & Hst' & Hanchor' & Hacc' & Hoff').
      exists m'. rewrite (ticks_cons _ _ _ _ Hstep).
      rewrite <- Hacc1. repeat split; try assumption. congruence. }
    destruct (due w (hid_start_ms m)) eqn:Hdue; cbn [andb] in Hhere.
    2: { apply (Hnext m); try assumption; try reflexivity.
         apply hid_task_early. exact Hdue. }
    destruct (tud_suspended w) eqn:Hs; cbn [andb negb] in Hhere.
    { apply (Hnext (set_trace (trace m ++ [RemoteWakeup]) (advance m)));
        try assumption; try reflexivity.
      - apply hid_task_suspended; assumption.
      - fields. rewrite offered_app. cbn [offered]. apply app_nil_r. }
    destruct (tud_hid_ready w) eqn:Hr; cbn [negb orb] in Hhere.
    2: { apply (Hnext (advance m)); try assumption; try reflexivity.
         apply hid_task_busy; assumption. }
    apply Z.leb_le in Hhere.
    apply (Hnext (advance m)); try assumption; try reflexivity.
    rewrite (hid_task_wait_init _ _ Hdue Hm Hs Hr Hst), Hanchor, u32_sub_r.
    destruct (Z.ltb_spec 2000 (u32 (board_millis w - a))) as [Hbad | _];
      [lia | reflexivity].
Qed.

Lemma stalls_mounted (n : nat) :
  forall t : Z, Forall (fun w => tud_mounted w = true) (stalls t n).
Proof.
  induction n as [| n IH]; intros t; cbn [stalls]; constructor.
  - reflexivity.
  - apply IH.
Qed.

(** C6, as the code has it.  Leaving [STATE_IDLE] captures the clock.  The
    sequencer then stays in [STATE_WAIT_INIT], capture untouched and nothing
    handed to the stack, through any run of calls with the device mounted
    (early, suspended and not-ready calls included) in which no call that
    passed the gate and the guards read a clock more than 2000 ms after the
    capture; and the next call that passes the gate and the guards moves to
    [STATE_WAIT_BEFORE_TYPE] exactly when more than 2000 ms have elapsed on
    the wrapping clock since the capture, however much of that time was
    stalled: it stays at 1999 ms and at 2000 ms and moves at 2001 ms. *)
Theorem wait_init_threshold (m0 : machine) (w0 : usb) (ws : list usb)
    (w : usb) :
  due w0 (hid_start_ms m0) = true -> tud_mounted w0 = true ->
  tud_suspended w0 = false -> tud_hid_ready w0 = true ->
  app_state m0 = STATE_IDLE ->
  Forall (fun w => tud_mounted w = true) ws ->
  waiting (board_millis w0) (u32 (hid_start_ms m0 + interval_ms)) ws = true ->
  due w (accumulator (u32 (hid_start_ms m0 + interval_ms)) ws) = true ->
  tud_mounted w = true -> tud_suspended w = false ->
  tud_hid_ready w = true ->
  exists m1 m2 m' : machine,
    exec (hid_task w0) m0 = Some m1
    /\ app_state m1 = STATE_WAIT_INIT
    /\ state_start_ms m1 = u32 (board_millis w0)
    /\ exec (ticks ws) m1 = Some m2
    /\ app_state m2 = STATE_WAIT_INIT
    /\ state_start_ms m2 = u32 (board_millis w0)
    /\ offered (trace m2) = offered (trace m0)
    /\ exec (hid_task w) m2 = Some m'
    /\ state_start_ms m' = u32 (board_millis w0)
    /\ (app_state m' = STATE_WAIT_BEFORE_TYPE
        <-> 2000 < u32 (board_millis w - board_millis w0))
    /\ (app_state m' = STATE_WAIT_INIT
        <-> u32 (board_millis w - board_millis w0) <= 2000)
    /\ (u32 (board_millis w - board_millis w0) = 1999 ->
        app_state m' = STATE_WAIT_INIT)
    /\ (u32 (board_millis w - board_millis w0) = 2000 ->
        app_state m' = STATE_WAIT_INIT)
    /\ (u32 (board_millis w - board_millis w0) = 2001 ->
        app_state m' = STATE_WAIT_BEFORE_TYPE).
Proof.
  intros Hdue0 Hm0 Hs0 Hr0 Hst0 Hws Hwait Hdue Hm Hs Hr.
  pose (m1 := set_app_state STATE_WAIT_INIT
                (set_state_start_ms (u32 (board_millis w0)) (advance m0))).
  assert (H1 : hid_task w0 m0 = Some (tt, m1))
    by (apply hid_task_idle; assumption).
  destruct (waiting_run ws m1 (board_millis w0) eq_refl eq_refl Hws Hwait)
    as (m2 & H2 & Hst2 & Hanchor2 & Hacc2 & Hoff2).
  assert (Hdue2 : due w (hid_start_ms m2) = true)
    by (rewrite Hacc2; exact Hdue).
  assert (H3 := hid_task_wait_init _ _ Hdue2 Hm Hs Hr Hst2).
  rewrite Hanchor2, u32_sub_r in H3.
  set (elapsed := u32 (board_millis w - board_millis w0)) in *.
  exists m1, m2. eexists. unfold exec. rewrite H1, H2, H3.
  split; [reflexivity |]. split; [reflexivity |]. split; [reflexivity |].
  split; [reflexivity |]. split; [exact Hst2 |]. split; [exact Hanchor2 |].
  split; [exact Hoff2 |]. split; [reflexivity |].
  destruct (Z.ltb_spec 2000 elapsed) as [Hgt | Hle]; fields;
    rewrite ?Hst2, ?Hanchor2;
    repeat split; intros; try lia; try congruence; try reflexivity.
Qed.

(** ** The character mapping *)

Lemma key_modifier_keymap (c : Z) :
  keymap c (snd (key_modifier c)) (fst (key_modifier c)).
Proof.
  unfold key_modifier.
  destruct (Z.leb_spec (chr "a") c) as [Ha | Ha];
    destruct (Z.leb_spec c (chr "z")) as [Hz | Hz]; cbn [andb fst snd];
    try (apply keymap_lower; lia).
  all: destruct (Z.leb_spec (chr "A") c) as [HA | HA];
    destruct (Z.leb_spec c (chr "Z")) as [HZ | HZ]; cbn [andb fst snd];
    try (apply keymap_upper; lia).
  all: destruct (Z.eqb_spec c (chr " ")) as [-> | Hsp]; cbn [fst snd];
    try apply keymap_space.
  all: destruct (Z.eqb_spec c (chr "!")) as [-> | Hbang]; cbn [fst snd];
    try apply keymap_bang.
  all: apply keymap_other; try assumption; lia.
Qed.

Lemma key_modifier_u8 (c : Z) :
  u8 (fst (key_modifier c)) = fst (key_modifier c)
  /\ u8 (snd (key_modifier c)) = snd (key_modifier c).
Proof.
  unfold key_modifier.
  destruct ((chr "a" <=? c) && (c <=? chr "z"));
    [| destruct ((chr "A" <=? c) && (c <=? chr "Z"));
       [| destruct (c =? chr " "); [| destruct (c =? chr "!")]]];
    cbn [fst snd]; rewrite ?u8_u8; split; reflexivity.
Qed.

(** C8.  The key and modifier chosen for any character follow the mapping
    policy (lowercase: [HID_KEY_A] plus the offset from [a], no modifier;
    uppercase: the same key with left shift; space: [HID_KEY_SPACE]; [!]:
    [HID_KEY_1] with left shift; anything else: key 0, no modifier), and the
    press report [STATE_TYPE_CHAR] hands to the stack for the character under
    the cursor carries exactly that pair, the key in the first of six
    slots. *)
Theorem typed_character_mapping (c : Z) :
  keymap c (snd (key_modifier c)) (fst (key_modifier c))
  /\ forall (w : usb) (m : machine),
     due w (hid_start_ms m) = true -> tud_mounted w = true ->
     tud_suspended w = false -> tud_hid_ready w = true ->
     app_state m = STATE_TYPE_CHAR ->
     0 <= text_index m ->
     nth_error text_bytes (Z.to_nat (text_index m)) = Some c ->
     c <> 0 ->
     exists m' : machine,
       exec (hid_task w) m = Some m'
       /\ trace m'
          = trace m
            ++ [HidReport
                  (key_down (snd (key_modifier c)) (fst (key_modifier c)))
                  (tud_hid_report w)]
       /\ app_state m'
          = (if tud_hid_report w then STATE_RELEASE_CHAR else STATE_TYPE_CHAR).
Proof.
  split; [apply key_modifier_keymap |].
  intros w m Hdue Hm Hs Hr Hst Hidx Hc Hnz. unfold exec.
  rewrite (hid_task_type_char _ _ c Hdue Hm Hs Hr Hst Hidx Hc).
  apply Z.eqb_neq in Hnz. rewrite Hnz.
  eexists. split; [reflexivity |].
  unfold press. destruct (key_modifier_u8 c) as [-> ->].
  destruct (tud_hid_report w); settle.
Qed.

(** ** The report helpers and the readiness check *)

Lemma guarded_helpers_skip (w : usb) (m : machine) :
  tud_hid_ready w = false ->
  (forall report_id modifier keycode,
     send_keyboard_report w report_id modifier keycode m = Some (false, m))
  /\ (forall modifier key_code,
        send_key_press w modifier key_code m = Some (false, m))
  /\ (forall x y, send_mouse_move w x y m = Some (false, m))
  /\ (forall buttons, send_mouse_click w buttons m = Some (false, m))
  /\ send_mouse_release w m = Some (false, m).
Proof.
  intros Hr.
  unfold send_key_press, send_keyboard_report, send_mouse_move,
    send_mouse_click, send_mouse_release.
  rewrite Hr. repeat split.
Qed.

Lemma send_key_release_always (w : usb) (m : machine) :
  send_key_release w m
  = Some (tud_hid_report w,
          set_trace (trace m ++ [HidReport key_up (tud_hid_report w)]) m).
Proof. reflexivity. Qed.

(** The timer of [STATE_WAIT_BEFORE_TYPE] is not captured when the state is
    entered from [STATE_WAIT_INIT]. *)
Lemma wait_init_keeps_anchor (w : usb) (m : machine) :
  due w (hid_start_ms m) = true -> tud_mounted w = true ->
  tud_suspended w = false -> tud_hid_ready w = true ->
  app_state m = STATE_WAIT_INIT ->
  exists m' : machine,
    exec (hid_task w) m = Some m' /\ state_start_ms m' = state_start_ms m.
Proof.
  intros Hdue Hm Hs Hr Hst. unfold exec.
  rewrite (hid_task_wait_init _ _ Hdue Hm Hs Hr Hst).
  eexists. split; [reflexivity |]. destruct (2000 <? _); reflexivity.
Qed.

(** * Further properties of the code *)

(** ** The mouse sub-sequence *)

Lemma mouse_step (w : usb) (m : machine) :
  tud_mounted w = true -> is_mouse_state (app_state m) = true ->
  exists m',
    hid_task w m = Some (tt, m')
    /\ hid_start_ms m' = polled w (hid_start_ms m)
    /\ text_index m' = text_index m
    /\ sent (trace m')
       = sent (trace m)
         ++ firstn (gained w (hid_start_ms m)) (mouse_pending (app_state m))
    /\ ((is_mouse_state (app_state m') = true
         /\ mouse_pending (app_state m')
            = skipn (gained w (hid_start_ms m)) (mouse_pending (app_state m)))
        \/ (gained w (hid_start_ms m) = 1%nat
            /\ app_state m = STATE_CLICK_RELEASE
            /\ app_state m' = STATE_WAIT_BEFORE_TYPE
            /\ state_start_ms m' = u32 (board_millis w))).
Proof.
  intros Hm Hmouse.
  unfold gained, polled, live. rewrite Hm.
  destruct (due w (hid_start_ms m)) eqn:Hdue; cbn [andb negb].
  2: { exists m. rewrite (hid_task_early _ _ Hdue). lists. settle. }
  destruct (tud_suspended w) eqn:Hs; cbn [andb negb].
  { rewrite (hid_task_suspended _ _ Hdue Hm Hs).
    eexists. split; [reflexivity |]. fields. rewrite sent_app. lists.
    settle. }
  destruct (tud_hid_ready w) eqn:Hr; cbn [andb negb].
  2: { rewrite (hid_task_busy _ _ Hdue Hm Hs Hr).
       eexists. split; [reflexivity |]. lists. settle. }
  destruct (app_state m) eqn:Hst; try discriminate Hmouse.
  - rewrite (hid_task_mouse_up _ _ Hdue Hm Hs Hr Hst).
    eexists. split; [reflexivity |].
    destruct (tud_hid_report w); fields; rewrite sent_app;
      cbn [mouse_pending]; lists; rewrite ?Hst; settle.
  - rewrite (hid_task_mouse_down _ _ Hdue Hm Hs Hr Hst).
    eexists. split; [reflexivity |].
    destruct (tud_hid_report w); fields; rewrite sent_app;
      cbn [mouse_pending]; lists; rewrite ?Hst; settle.
  - rewrite (hid_task_click_press _ _ Hdue Hm Hs Hr Hst).
    eexists. split; [reflexivity |].
    destruct (tud_hid_report w); fields; rewrite sent_app;
      cbn [mouse_pending]; lists; rewrite ?Hst; settle.
  - rewrite (hid_task_click_release _ _ Hdue Hm Hs Hr Hst).
    eexists. split; [reflexivity |].
    destruct (tud_hid_report w); fields; rewrite sent_app;
      cbn [mouse_pending]; lists; rewrite ?Hst; settle.
Qed.

Lemma mouse_pending_nonempty (s : app_state_t) :
  is_mouse_state s = true -> (1 <= List.length (mouse_pending s))%nat.
Proof. destruct s; try discriminate; intros _; cbn; lia. Qed.

Lemma gained_le_1 (w : usb) (s : Z) : (gained w s <= 1)%nat.
Proof. unfold gained. destruct (due w s && live w); lia. Qed.

(** The script from a state before the typing loop, stalls allowed. *)
Lemma prelude_then_typing (ws : list usb) (m : machine) :
  Forall (fun w => tud_mounted w = true) ws ->
  before_typing (app_state m) = true ->
  exists (m' : machine) (k : nat),
    ticks ws m = Some (tt, m')
    /\ sent (trace m') = sent (trace m) ++ firstn k hello_world_reports
    /\ (app_state m' = STATE_DONE ->
        sent (trace m') = sent (trace m) ++ hello_world_reports).
Proof.
  intros Hws Hpre.
  destruct (prelude_run ws m Hws Hpre)
    as [(m' & Hrun & Hpre' & Hsent)
       | (ws1 & ws2 & m1 & Hsplit & Hrun1 & Hst1 & Hidx1 & Hsent1)].
  - exists m', 0%nat. cbn [firstn]. rewrite app_nil_r.
    repeat split; try assumption.
    intros Hdone. rewrite Hdone in Hpre'. discriminate Hpre'.
  - destruct (pending_at_start m1 Hst1 Hidx1) as (Hpend & Hcur & Hloop).
    subst ws. apply Forall_app in Hws. destruct Hws as [_ Hws2].
    destruct (typing_run ws2 m1 Hws2 Hloop Hcur)
      as (m' & Hrun & _ & _ & Hsent & Hpend' & _ & _ & _).
    exists m', (progress (hid_start_ms m1) ws2).
    rewrite (ticks_app _ _ _ _ Hrun1), Hrun.
    rewrite Hpend in *. rewrite Hsent1 in Hsent.
    repeat split; try assumption.
    intros Hdone. rewrite Hsent. f_equal.
    apply firstn_all_of_skipn_nil. rewrite <- Hpend'.
    unfold pending. rewrite Hdone. reflexivity.
Qed.

Lemma firstn_over_app {A : Type} (g j : nat) (p h : list A) :
  (g <= List.length p)%nat ->
  firstn g p ++ firstn j (skipn g p ++ h) = firstn (g + j) (p ++ h).
Proof.
  intros Hg. rewrite firstn_plus, (firstn_app g p h), (skipn_app g p h).
  replace (g - List.length p)%nat with 0%nat by lia.
  cbn [firstn skipn]. rewrite app_nil_r. reflexivity.
Qed.

(** X1.  From any state of the mouse sub-sequence, in any run of calls with
    the device mounted (stalled and refused calls included), the accepted
    reports are a prefix of: the mouse reports still due (up, down, click,
    release), then the reports of the script; a run that has reached
    [STATE_DONE] has sent all of them. *)
Theorem mouse_reports_in_order (ws : list usb) :
  forall m : machine,
  is_mouse_state (app_state m) = true ->
  Forall (fun w => tud_mounted w = true) ws ->
  exists (m' : machine) (j : nat),
    exec (ticks ws) m = Some m'
    /\ sent (trace m')
       = sent (trace m)
         ++ firstn j (mouse_pending (app_state m) ++ hello_world_reports)
    /\ (app_state m' = STATE_DONE ->
        sent (trace m')
        = sent (trace m) ++ mouse_pending (app_state m)
          ++ hello_world_reports).
Proof.
  induction ws as [| w ws IH]; intros m Hmouse Hws.
  - exists m, 0%nat. cbn [firstn]. rewrite app_nil_r.
    split; [reflexivity |]. split; [reflexivity |].
    intros Hdone. rewrite Hdone in Hmouse. discriminate Hmouse.
  - inversion Hws as [| ? ? Hw Hws']; subst.
    destruct (mouse_step w m Hw Hmouse)
      as (m1 & Hstep & _ & _ & Hsent & [[Hmouse1 Hpend1] | Hexit]).
    + destruct (IH m1 Hmouse1 Hws') as (m' & j & Hrun & Hsent' & Hdone').
      exists m', (gained w (hid_start_ms m) + j)%nat.
      unfold exec in *. rewrite (ticks_cons _ _ _ _ Hstep).
      split; [exact Hrun |].
      assert (Hg : (gained w (hid_start_ms m)
                    <= List.length (mouse_pending (app_state m)))%nat).
      { pose proof (gained_le_1 w (hid_start_ms m)).
        pose proof (mouse_pending_nonempty _ Hmouse). lia. }
      split.
      * rewrite Hsent', Hsent, Hpend1, <- app_assoc.
        rewrite (firstn_over_app _ _ _ _ Hg). reflexivity.
      * intros Hdone. rewrite (Hdone' Hdone), Hsent, Hpend1.
        rewrite <- !app_assoc. f_equal. rewrite app_assoc.
        rewrite firstn_skipn. reflexivity.
    + destruct Hexit as (Hg & Hst & Hst1 & _).
      assert (Hpre : before_typing (app_state m1) = true)
        by (rewrite Hst1; reflexivity).
      destruct (prelude_then_typing ws m1 Hws' Hpre)
        as (m' & k & Hrun & Hsent' & Hdone').
      exists m', (1 + k)%nat.
      unfold exec. rewrite (ticks_cons _ _ _ _ Hstep), Hrun.
      split; [reflexivity |].
      rewrite Hg, Hst in Hsent. cbn [mouse_pending firstn] in Hsent.
      rewrite Hst. cbn [mouse_pending].
      split.
      * rewrite Hsent', Hsent, <- app_assoc. reflexivity.
      * intros Hdone. rewrite (Hdone' Hdone), Hsent, <- app_assoc.
        reflexivity.
Qed.

(** X3.  Entering [STATE_WAIT_BEFORE_TYPE] from [STATE_CLICK_RELEASE]
    captures the clock, and a later call that passes the gate and the guards
    moves to [STATE_TYPE_CHAR] with the cursor reset to 0 exactly when more
    than 500 ms have elapsed on the wrapping clock since that capture;
    otherwise it stays, capture and cursor untouched. *)
Theorem wait_before_type_threshold (m0 : machine) (w0 : usb) :
  due w0 (hid_start_ms m0) = true -> tud_mounted w0 = true ->
  tud_suspended w0 = false -> tud_hid_ready w0 = true ->
  tud_hid_report w0 = true ->
  app_state m0 = STATE_CLICK_RELEASE ->
  exists m1 : machine,
    exec (hid_task w0) m0 = Some m1
    /\ app_state m1 = STATE_WAIT_BEFORE_TYPE
    /\ state_start_ms m1 = u32 (board_millis w0)
    /\ forall (m : machine) (w : usb),
       app_state m = STATE_WAIT_BEFORE_TYPE ->
       state_start_ms m = state_start_ms m1 ->
       due w (hid_start_ms m) = true -> tud_mounted w = true ->
       tud_suspended w = false -> tud_hid_ready w = true ->
       exists m' : machine,
         exec (hid_task w) m = Some m'
         /\ state_start_ms m' = state_start_ms m
         /\ (500 < u32 (board_millis w - board_millis w0) ->
             app_state m' = STATE_TYPE_CHAR /\ text_index m' = 0)
         /\ (u32 (board_millis w - board_millis w0) <= 500 ->
             app_state m' = STATE_WAIT_BEFORE_TYPE
             /\ text_index m' = text_index m).
Proof.
  intros Hdue0 Hm0 Hs0 Hr0 Hacc0 Hst0. unfold exec.
  rewrite (hid_task_click_release _ _ Hdue0 Hm0 Hs0 Hr0 Hst0), Hacc0.
  eexists. split; [reflexivity |]. split; [reflexivity |].
  split; [reflexivity |].
  intros m w Hst Hanchor Hdue Hm Hs Hr.
  rewrite (hid_task_wait_before_type _ _ Hdue Hm Hs Hr Hst).
  fields. rewrite Hanchor, u32_sub_r.
  eexists. split; [reflexivity |].
  destruct (Z.ltb_spec 500 (u32 (board_millis w - board_millis w0)))
    as [Hgt | Hle]; fields; rewrite ?Hst;
    repeat split; intros; try lia; try congruence; try reflexivity.
Qed.

Lemma wait_before_type_cadence (n : nat) :
  forall (m : machine) (t a : Z),
  app_state m = STATE_WAIT_BEFORE_TYPE ->
  u32 (hid_start_ms m) = u32 t -> state_start_ms m = u32 a ->
  a <= t -> t + interval_ms * Z.of_nat n - a <= 500 ->
  exists m',
    ticks (cadence t n) m = Some (tt, m')
    /\ app_state m' = STATE_WAIT_BEFORE_TYPE
    /\ state_start_ms m' = u32 a
    /\ u32 (hid_start_ms m') = u32 (t + interval_ms * Z.of_nat n)
    /\ trace m' = trace m.
Proof.
  unfold interval_ms.
  induction n as [| n IH]; intros m t a Hst Hacc Hanchor Hle Hwait.
  - exists m. cbn [cadence ticks]. replace (t + 10 * Z.of_nat 0) with t by lia.
    settle.
  - cbn [cadence].
    assert (Hdue := steady_due _ _ Hacc).
    assert (Hstep := hid_task_wait_before_type (steady (t + interval_ms)) m
                       Hdue eq_refl eq_refl eq_refl Hst).
    rewrite Hanchor in Hstep. cbn [board_millis steady] in Hstep.
    rewrite u32_sub_r, u32_small in Hstep by (unfold interval_ms; lia).
    destruct (Z.ltb_spec 500 (t + interval_ms - a)) as [Hbad | _];
      [unfold interval_ms in Hbad; lia |].
    rewrite (ticks_cons _ _ _ _ Hstep).
    destruct (IH (advance m) (t + 10) a)
      as (m' & Hrun & Hst' & Ha' & Hacc' & Htr);
      fields; try assumption; try lia.
    + rewrite u32_u32. apply u32_congr_add. exact Hacc.
    + exists m'. unfold interval_ms. rewrite Hrun.
      replace (t + 10 * Z.of_nat (S n)) with (t + 10 + 10 * Z.of_nat n) by lia.
      settle.
Qed.

Lemma mouse_cadence (m : machine) :
  app_state m = STATE_MOUSE_UP ->
  exists m4,
    ticks (cadence (hid_start_ms m) 4) m = Some (tt, m4)
    /\ app_state m4 = STATE_WAIT_BEFORE_TYPE
    /\ state_start_ms m4 = u32 (hid_start_ms m + 40)
    /\ u32 (hid_start_ms m4) = u32 (hid_start_ms m + 40)
    /\ sent (trace m4) = sent (trace m) ++ mouse_pending STATE_MOUSE_UP.
Proof.
  intros Hst. set (t0 := hid_start_ms m).
  cbn [cadence]. unfold interval_ms.
  replace (t0 + 10 + 10) with (t0 + 20) by lia.
  replace (t0 + 20 + 10) with (t0 + 30) by lia.
  replace (t0 + 30 + 10) with (t0 + 40) by lia.
  assert (Hdue1 : due (steady (t0 + 10)) (hid_start_ms m) = true)
    by (apply (steady_due _ t0); reflexivity).
  assert (H1 := hid_task_mouse_up _ _ Hdue1 eq_refl eq_refl eq_refl Hst).
  cbn [steady tud_hid_report] in H1. cbv zeta in H1.
  rewrite (ticks_cons _ _ _ _ H1). clear H1.
  match goal with |- context [ticks _ ?x] => set (m1 := x) end.
  assert (Hacc1 : u32 (hid_start_ms m1) = u32 (t0 + 10))
    by (subst m1; fields; apply u32_u32).
  assert (Hdue2 : due (steady (t0 + 20)) (hid_start_ms m1) = true).
  { replace (t0 + 20) with (t0 + 10 + interval_ms)
      by (unfold interval_ms; lia).
    apply steady_due. exact Hacc1. }
  assert (H2 := hid_task_mouse_down _ _ Hdue2 eq_refl eq_refl eq_refl
                  (eq_refl : app_state m1 = STATE_MOUSE_DOWN)).
  cbn [steady tud_hid_report] in H2. cbv zeta in H2.
  rewrite (ticks_cons _ _ _ _ H2). clear H2.
  match goal with |- context [ticks _ ?x] => set (m2 := x) end.
  assert (Hacc2 : u32 (hid_start_ms m2) = u32 (t0 + 20)).
  { subst m2. fields. rewrite u32_u32.
    replace (t0 + 20) with (t0 + 10 + interval_ms)
      by (unfold interval_ms; lia).
    apply u32_congr_add. exact Hacc1. }
  assert (Hdue3 : due (steady (t0 + 30)) (hid_start_ms m2) = true).
  { replace (t0 + 30) with (t0 + 20 + interval_ms)
      by (unfold interval_ms; lia).
    apply steady_due. exact Hacc2. }
  assert (H3 := hid_task_click_press _ _ Hdue3 eq_refl eq_refl eq_refl
                  (eq_refl : app_state m2 = STATE_CLICK_PRESS)).
  cbn [steady tud_hid_report] in H3. cbv zeta in H3.
  rewrite (ticks_cons _ _ _ _ H3). clear H3.
  match goal with |- context [ticks _ ?x] => set (m3 := x) end.
  assert (Hacc3 : u32 (hid_start_ms m3) = u32 (t0 + 30)).
  { subst m3. fields. rewrite u32_u32.
    replace (t0 + 30) with (t0 + 20 + interval_ms)
      by (unfold interval_ms; lia).
    apply u32_congr_add. exact Hacc2. }
  assert (Hdue4 : due (steady (t0 + 40)) (hid_start_ms m3) = true).
  { replace (t0 + 40) with (t0 + 30 + interval_ms)
      by (unfold interval_ms; lia).
    apply steady_due. exact Hacc3. }
  assert (H4 := hid_task_click_release _ _ Hdue4 eq_refl eq_refl eq_refl
                  (eq_refl : app_state m3 = STATE_CLICK_RELEASE)).
  cbn [steady tud_hid_report board_millis] in H4. cbv zeta in H4.
  rewrite (ticks_cons _ _ _ _ H4). clear H4.
  eexists. split; [reflexivity |].
  split; [reflexivity |]. split; [reflexivity |]. split.
  - fields. rewrite u32_u32.
    replace (t0 + 40) with (t0 + 30 + interval_ms)
      by (unfold interval_ms; lia).
    apply u32_congr_add. exact Hacc3.
  - subst m3 m2 m1. fields. rewrite !sent_app. cbn [sent mouse_pending].
    rewrite <- !app_assoc. reflexivity.
Qed.

(** X2.  Started in [STATE_MOUSE_UP] and called every 10 ms with the device
    ready, the sequencer sends the four mouse reports in the first four
    calls, then really waits in [STATE_WAIT_BEFORE_TYPE]: it is still there,
    with nothing more sent, after every call up to the 54th (500 ms after the
    click release), and from the 80th call on it is in [STATE_DONE] with the
    mouse reports and the whole script sent. *)
Theorem mouse_then_script_on_cadence (m : machine) :
  app_state m = STATE_MOUSE_UP ->
  (forall n : nat,
     (4 <= n <= 54)%nat ->
     exists m' : machine,
       exec (ticks (cadence (hid_start_ms m) n)) m = Some m'
       /\ app_state m' = STATE_WAIT_BEFORE_TYPE
       /\ sent (trace m') = sent (trace m) ++ mouse_pending STATE_MOUSE_UP)
  /\ (forall n : nat,
        (80 <= n)%nat ->
        exists m' : machine,
          exec (ticks (cadence (hid_start_ms m) n)) m = Some m'
          /\ app_state m' = STATE_DONE
          /\ sent (trace m')
             = sent (trace m) ++ mouse_pending STATE_MOUSE_UP
               ++ hello_world_reports).
Proof.
  intros Hst.
  destruct (mouse_cadence m Hst) as (m4 & H4 & Hst4 & Hanchor4 & Hacc4 & Hsent4).
  set (t0 := hid_start_ms m) in *.
  split.
  - intros n Hn. replace n with (4 + (n - 4))%nat by lia.
    rewrite cadence_app. unfold exec. rewrite (ticks_app _ _ _ _ H4).
    unfold interval_ms at 1.
    replace (t0 + 10 * Z.of_nat 4) with (t0 + 40) by lia.
    destruct (wait_before_type_cadence (n - 4) m4 (t0 + 40) (t0 + 40))
      as (m' & Hrun & Hst' & _ & _ & Htr);
      try assumption; try (unfold interval_ms; lia).
    exists m'. rewrite Hrun, Htr. repeat split; assumption.
  - intros n Hn. replace n with (4 + (50 + (1 + (n - 55))))%nat by lia.
    rewrite (cadence_app 4), (cadence_app 50).
    unfold exec. rewrite (ticks_app _ _ _ _ H4).
    unfold interval_ms.
    replace (t0 + 10 * Z.of_nat 4) with (t0 + 40) by lia.
    replace (t0 + 40 + 10 * Z.of_nat 50) with (t0 + 540) by lia.
    destruct (wait_before_type_cadence 50 m4 (t0 + 40) (t0 + 40))
      as (m5 & H5 & Hst5 & Hanchor5 & Hacc5 & Htr5);
      try assumption; try (unfold interval_ms; lia).
    rewrite (ticks_app _ _ _ _ H5).
    unfold interval_ms in Hacc5.
    replace (t0 + 40 + 10 * Z.of_nat 50) with (t0 + 540) in Hacc5 by lia.
    assert (Hdue6 : due (steady (t0 + 550)) (hid_start_ms m5) = true).
    { replace (t0 + 550) with (t0 + 540 + interval_ms)
        by (unfold interval_ms; lia).
      apply steady_due. exact Hacc5. }
    assert (H6 := hid_task_wait_before_type (steady (t0 + 550)) m5 Hdue6
                    eq_refl eq_refl eq_refl Hst5).
    rewrite Hanchor5 in H6. cbn [board_millis steady] in H6.
    rewrite u32_sub_r in H6.
    replace (t0 + 550 - (t0 + 40)) with 510 in H6 by lia.
    change (500 <? u32 510) with true in H6. cbv iota in H6.
    change (1 + (n - 55))%nat with (S (n - 55)).
    cbn [cadence]. unfold interval_ms.
    replace (t0 + 540 + 10) with (t0 + 550) by lia.
    rewrite (ticks_cons _ _ _ _ H6).
    set (m6 := set_app_state STATE_TYPE_CHAR (set_text_index 0 (advance m5))).
    assert (Hacc6 : u32 (hid_start_ms m6) = u32 (t0 + 550)).
    { subst m6. fields. rewrite u32_u32.
      replace (t0 + 550) with (t0 + 540 + interval_ms)
        by (unfold interval_ms; lia).
      apply u32_congr_add. exact Hacc5. }
    destruct (pending_at_start m6 eq_refl eq_refl) as (Hpend & Hcur & Hloop).
    destruct (typing_run (cadence (t0 + 550) (n - 55)) m6
                (cadence_mounted _ _) Hloop Hcur)
      as (m' & Hrun & _ & _ & Hsent & _ & _ & Hfin & _).
    rewrite (progress_cadence _ _ _ Hacc6), Hpend in *.
    exists m'. rewrite Hrun. split; [reflexivity |]. split.
    + apply Hfin. rewrite hello_world_length. lia.
    + rewrite Hsent. subst m6. fields. rewrite Htr5, Hsent4.
      rewrite <- app_assoc. do 2 f_equal. apply firstn_all2.
      rewrite hello_world_length. lia.
Qed.

(** ** What one call of [hid_task] can change *)

Lemma hid_task_type_char_ok (w : usb) (m : machine) :
  due w (hid_start_ms m) = true -> tud_mounted w = true ->
  tud_suspended w = false -> tud_hid_ready w = true ->
  app_state m = STATE_TYPE_CHAR -> cursor_ok m ->
  exists c : Z,
    nth_error text_bytes (Z.to_nat (text_index m)) = Some c
    /\ hid_task w m
       = Some (tt, if c =? 0 then set_app_state STATE_DONE (advance m)
                   else
                     let m1 := set_trace
                                 (trace m
                                  ++ [HidReport (press c) (tud_hid_report w)])
                                 (advance m) in
                     if tud_hid_report w
                     then set_app_state STATE_RELEASE_CHAR m1 else m1).
Proof.
  intros Hdue Hm Hs Hr Hst [Hidx _].
  destruct (Z.eq_dec (text_index m) 12) as [Hend | Hmid].
  - exists 0.
    assert (Hc : nth_error text_bytes (Z.to_nat (text_index m)) = Some 0)
      by (rewrite Hend; reflexivity).
    split; [exact Hc |].
    apply (hid_task_type_char _ _ 0 Hdue Hm Hs Hr Hst (proj1 Hidx) Hc).
  - destruct (text_at (text_index m)) as [c [Hc _]]; [lia |].
    exists c. split; [exact Hc |].
    apply (hid_task_type_char _ _ c Hdue Hm Hs Hr Hst (proj1 Hidx) Hc).
Qed.

(** A call leaves the indicator's variables alone, moves the accumulator as
    the gate says and adds at most one call into the stack to the trace. *)
Lemma hid_task_shape (w : usb) (m : machine) :
  cursor_ok m ->
  exists (m' : machine) (new : list effect),
    hid_task w m = Some (tt, m')
    /\ cursor_ok m'
    /\ blink_interval_ms m' = blink_interval_ms m
    /\ led_start_ms m' = led_start_ms m
    /\ led_state m' = led_state m
    /\ hid_start_ms m' = polled w (hid_start_ms m)
    /\ trace m' = trace m ++ new
    /\ (new = []
        \/ new = [RemoteWakeup]
        \/ exists r : report,
             new = [HidReport r (tud_hid_report w)]
             /\ (on_script_path (app_state m) = true ->
                 is_mouse_report r = false))
    /\ (on_script_path (app_state m) = true ->
        on_script_path (app_state m') = true).
Proof.
  intros Hcur. unfold polled.
  destruct (due w (hid_start_ms m)) eqn:Hdue.
  2: { exists m, []. rewrite (hid_task_early _ _ Hdue), app_nil_r. settle. }
  destruct (tud_mounted w) eqn:Hm.
  2: { rewrite (hid_task_unmounted _ _ Hdue Hm).
       eexists. exists []. split; [reflexivity |]. rewrite app_nil_r.
       settle. }
  destruct (tud_suspended w) eqn:Hs.
  { rewrite (hid_task_suspended _ _ Hdue Hm Hs).
    eexists. exists [RemoteWakeup]. split; [reflexivity |]. settle. }
  destruct (tud_hid_ready w) eqn:Hr.
  2: { rewrite (hid_task_busy _ _ Hdue Hm Hs Hr).
       eexists. exists []. split; [reflexivity |]. rewrite app_nil_r.
       settle. }
  destruct (app_state m) eqn:Hst.
  - rewrite (hid_task_idle _ _ Hdue Hm Hs Hr Hst).
    eexists. exists []. split; [reflexivity |]. rewrite app_nil_r. settle.
  - rewrite (hid_task_wait_init _ _ Hdue Hm Hs Hr Hst).
    eexists. exists []. split; [reflexivity |]. rewrite app_nil_r.
    destruct (2000 <? _); settle.
  - rewrite (hid_task_mouse_up _ _ Hdue Hm Hs Hr Hst).
    eexists. exists [HidReport (mouse_report 0 0 (-20)) (tud_hid_report w)].
    split; [reflexivity |].
    destruct (tud_hid_report w); settle; right; right; eexists; settle.
  - rewrite (hid_task_mouse_down _ _ Hdue Hm Hs Hr Hst).
    eexists. exists [HidReport (mouse_report 0 0 20) (tud_hid_report w)].
    split; [reflexivity |].
    destruct (tud_hid_report w); settle; right; right; eexists; settle.
  - rewrite (hid_task_click_press _ _ Hdue Hm Hs Hr Hst).
    eexists. exists [HidReport (mouse_report (u8 MOUSE_BUTTON_LEFT) 0 0) (tud_hid_report w)].
    split; [reflexivity |].
    destruct (tud_hid_report w); settle; right; right; eexists; settle.
  - rewrite (hid_task_click_release _ _ Hdue Hm Hs Hr Hst).
    eexists. exists [HidReport (mouse_report 0 0 0) (tud_hid_report w)].
    split; [reflexivity |].
    destruct (tud_hid_report w); settle; right; right; eexists; settle.
  - rewrite (hid_task_wait_before_type _ _ Hdue Hm Hs Hr Hst).
    eexists. exists []. split; [reflexivity |]. rewrite app_nil_r.
    destruct (500 <? _); settle.
  - destruct (hid_task_type_char_ok _ _ Hdue Hm Hs Hr Hst Hcur)
      as (c & Hc & Heq).
    rewrite Heq.
    destruct (c =? 0) eqn:Hz.
    + eexists. exists []. split; [reflexivity |]. rewrite app_nil_r. settle.
    + assert (Hlt : text_index m < 12).
      { destruct (Z.eq_dec (text_index m) 12) as [He | He];
          [| destruct Hcur; lia].
        rewrite He in Hc. vm_compute in Hc. injection Hc as <-.
        discriminate Hz. }
      eexists. exists [HidReport (press c) (tud_hid_report w)].
      split; [reflexivity |].
      destruct (tud_hid_report w); settle; right; right; eexists; settle.
  - assert (Hrel : text_index m < 12) by (apply Hcur; exact Hst).
    rewrite (hid_task_release_char _ _ Hdue Hm Hs Hr Hst);
      [| unfold INT_MAX; lia].
    eexists. exists [HidReport key_up (tud_hid_report w)].
    split; [reflexivity |].
    destruct (tud_hid_report w); settle; right; right; eexists; settle.
  - rewrite (hid_task_done _ _ Hdue Hm Hs Hr Hst).
    eexists. exists []. split; [reflexivity |]. rewrite app_nil_r. settle.
Qed.

(** ** What the callbacks and the blinking task can change *)

Lemma usb_calls_app (a b : list effect) :
  usb_calls (a ++ b) = usb_calls a ++ usb_calls b.
Proof.
  induction a as [| e a IH]; [reflexivity |].
  destruct e as [r acc | |]; cbn; rewrite IH; reflexivity.
Qed.

Lemma wakeups_app (a b : list effect) :
  wakeups (a ++ b) = (wakeups a + wakeups b)%nat.
Proof.
  induction a as [| e a IH]; [reflexivity |].
  destruct e as [r acc | |]; cbn; rewrite IH; reflexivity.
Qed.

Lemma offered_usb_calls (tr : list effect) :
  offered (usb_calls tr) = offered tr.
Proof.
  induction tr as [| e tr IH]; [reflexivity |].
  destruct e as [r acc | |]; cbn; rewrite ?IH; reflexivity.
Qed.

Lemma leds_usb_calls (tr : list effect) : leds (usb_calls tr) = [].
Proof.
  induction tr as [| e tr IH]; [reflexivity |].
  destruct e as [r acc | |]; cbn; exact IH.
Qed.

(** Everything but [hid_task] leaves the sequencer's variables alone and
    adds nothing but LED writes to the trace. *)
Lemma callback_shape (e : event) (m : machine) :
  is_hid_task e = false ->
  exists (m' : machine) (new : list effect),
    fire e m = Some (tt, m')
    /\ app_state m' = app_state m
    /\ state_start_ms m' = state_start_ms m
    /\ text_index m' = text_index m
    /\ hid_start_ms m' = hid_start_ms m
    /\ trace m' = trace m ++ new
    /\ usb_calls new = [].
Proof.
  intros He.
  destruct e as [| | en | w | | | id ty buffer | w | w]; try discriminate He;
    cbn [fire].
  - eexists. exists []. split; [reflexivity |]. rewrite app_nil_r. settle.
  - eexists. exists []. split; [reflexivity |]. rewrite app_nil_r. settle.
  - eexists. exists []. split; [reflexivity |]. rewrite app_nil_r. settle.
  - eexists. exists []. split; [reflexivity |]. rewrite app_nil_r. settle.
  - exists m, []. rewrite app_nil_r. settle.
  - exists m, []. rewrite app_nil_r. settle.
  - destruct buffer as [| kbd_leds rest].
    + exists m, []. rewrite set_report_empty, app_nil_r. settle.
    + destruct (ty =? HID_REPORT_TYPE_OUTPUT) eqn:Hty;
        [destruct (id =? REPORT_ID_KEYBOARD) eqn:Hid |].
      * apply Z.eqb_eq in Hty, Hid. subst. rewrite set_report_leds.
        destruct (Z.land kbd_leds KEYBOARD_LED_CAPSLOCK =? 0).
        -- eexists. exists [LedWrite false]. split; [reflexivity |]. settle.
        -- eexists. exists [LedWrite true]. split; [reflexivity |]. settle.
      * exists m, []. unfold tud_hid_set_report_cb. rewrite Hty, Hid.
        rewrite app_nil_r. settle.
      * exists m, []. unfold tud_hid_set_report_cb. rewrite Hty.
        rewrite app_nil_r. settle.
  - unfold led_blinking_task, bind, read, write, board_led_write, emit, ret.
    destruct (blink_interval_ms m =? 0).
    + exists m, []. rewrite app_nil_r. settle.
    + destruct (u32 (board_millis w - led_start_ms m) <? blink_interval_ms m).
      * exists m, []. rewrite app_nil_r. settle.
      * eexists. exists [LedWrite (led_state m)]. split; [reflexivity |].
        settle.
Qed.

(** ** The mouse states are dead from the initial state *)

Lemma fire_keyboard_only (e : event) (m : machine) :
  cursor_ok m -> keyboard_only m ->
  exists m',
    fire e m = Some (tt, m') /\ cursor_ok m' /\ keyboard_only m'.
Proof.
  intros Hcur [Hpath Hkbd].
  destruct (is_hid_task e) eqn:He.
  - destruct e; try discriminate He. cbn [fire].
    destruct (hid_task_shape w m Hcur)
      as (m' & new & Hstep & Hcur' & _ & _ & _ & _ & Htr & Hnew & Hpath').
    exists m'. split; [exact Hstep |]. split; [exact Hcur' |].
    split; [apply Hpath'; exact Hpath |].
    rewrite Htr, offered_app. apply Forall_app. split; [exact Hkbd |].
    destruct Hnew as [-> | [-> | (r & -> & Hr)]]; cbn [offered];
      repeat constructor. apply Hr. exact Hpath.
  - destruct (callback_shape e m He)
      as (m' & new & Hfire & Hst & _ & Hidx & _ & Htr & Hnew).
    exists m'. split; [exact Hfire |]. split.
    + destruct Hcur as [Hb Hrel]. unfold cursor_ok. rewrite Hst, Hidx.
      split; assumption.
    + split; [rewrite Hst; exact Hpath |].
      rewrite Htr, offered_app, <- (offered_usb_calls new), Hnew.
      cbn [offered]. rewrite app_nil_r. exact Hkbd.
Qed.

(** X4.  Whatever callbacks and task calls happen after the statics are
    initialised, the sequencer is never in one of the four mouse states and
    no mouse report is ever handed to the stack. *)
Theorem mouse_states_unreachable (es : list event) :
  exists m : machine,
    exec (run es) boot = Some m
    /\ is_mouse_state (app_state m) = false
    /\ Forall (fun r => is_mouse_report r = false) (offered (trace m)).
Proof.
  assert (Hgen : forall es m, cursor_ok m -> keyboard_only m ->
            exists m', run es m = Some (tt, m') /\ keyboard_only m').
  { clear es. induction es as [| e es IH]; intros m Hcur Hkbd.
    - exists m. split; [reflexivity | exact Hkbd].
    - destruct (fire_keyboard_only e m Hcur Hkbd)
        as (m1 & Hfire & Hcur1 & Hkbd1).
      destruct (IH m1 Hcur1 Hkbd1) as (m' & Hrun & Hkbd').
      exists m'. cbn [run]. unfold bind. rewrite Hfire. split; assumption. }
  destruct (Hgen es boot boot_cursor_ok) as (m & Hrun & Hpath & Hkbd).
  { split; [reflexivity | constructor]. }
  exists m. unfold exec. rewrite Hrun. split; [reflexivity |].
  split; [| exact Hkbd].
  destruct (app_state m); try reflexivity; discriminate Hpath.
Qed.

(** ** The poll gate of [hid_task] *)

Lemma ticks_shape (ws : list usb) :
  forall m : machine,
  cursor_ok m ->
  exists m',
    ticks ws m = Some (tt, m') /\ cursor_ok m'
    /\ hid_start_ms m' = accumulator (hid_start_ms m) ws.
Proof.
  induction ws as [| w ws IH]; intros m Hcur.
  - exists m. split; [reflexivity |]. split; [exact Hcur | reflexivity].
  - destruct (hid_task_shape w m Hcur)
      as (m1 & new & Hstep & Hcur1 & _ & _ & _ & Hacc & _).
    destruct (IH m1 Hcur1) as (m' & Hrun & Hcur' & Hacc').
    exists m'. rewrite (ticks_cons _ _ _ _ Hstep).
    split; [exact Hrun |]. split; [exact Hcur' |].
    cbn [accumulator]. rewrite <- Hacc. exact Hacc'.
Qed.

Lemma u32_range (z : Z) : 0 <= u32 z < 4294967296.
Proof. unfold u32. apply Z.mod_pos_bound. lia. Qed.

Lemma lag_after_pass (t s d : Z) :
  d <= u32 (t - s) -> 0 <= d -> u32 (t - u32 (s + d)) = u32 (t - s) - d.
Proof.
  intros Hd Hpos. rewrite u32_sub_r.
  replace (t - (s + d)) with (t - s - d) by lia.
  rewrite <- u32_sub_l. apply u32_small.
  pose proof (u32_range (t - s)). lia.
Qed.



Lemma u32_add (a b : Z) : u32 (a + b) = u32 (u32 a + u32 b).
Proof. unfold u32. apply Zplus_mod. Qed.

Lemma paced_lag (ws : list usb) :
  forall t s : Z,
  u32 (t - s) < interval_ms -> paced t ws ->
  u32 (last_clock t ws - accumulator s ws) < interval_ms.
Proof.
  unfold interval_ms.
  induction ws as [| w ws IH]; intros t s Hlag Hpaced.
  - exact Hlag.
  - destruct Hpaced as [Hstep Hrest]. unfold interval_ms in Hstep.
    cbn [last_clock accumulator].
    assert (Hsum : u32 (board_millis w - s)
                   = u32 (board_millis w - t) + u32 (t - s)).
    { replace (board_millis w - s) with ((board_millis w - t) + (t - s))
        by lia.
      rewrite u32_add. apply u32_small.
      pose proof (u32_range (board_millis w - t)).
      pose proof (u32_range (t - s)). lia. }
    apply IH; [| exact Hrest].
    unfold polled, due, interval_ms.
    pose proof (u32_range (board_millis w - t)).
    pose proof (u32_range (t - s)).
    destruct (Z.ltb_spec (u32 (board_millis w - s)) 10) as [Hearly | Hlate];
      cbn [negb].
    + exact Hearly.
    + rewrite lag_after_pass by lia. lia.
Qed.

(** X6.  When the accumulator is less than 10 ms behind the clock and
    successive calls read clocks at most 10 ms apart, it is again less than
    10 ms behind after every call: polled that often, the task neither falls
    behind nor runs twice for one 10 ms period. *)
Theorem hid_gate_keeps_up (t : Z) (ws : list usb) (m : machine) :
  cursor_ok m ->
  u32 (t - hid_start_ms m) < interval_ms -> paced t ws ->
  exists m' : machine,
    exec (ticks ws) m = Some m'
    /\ u32 (last_clock t ws - hid_start_ms m') < interval_ms.
Proof.
  intros Hcur Hlag Hpaced.
  destruct (ticks_shape ws m Hcur) as (m' & Hrun & _ & Hacc).
  exists m'. unfold exec. rewrite Hrun. split; [reflexivity |].
  rewrite Hacc. apply paced_lag; assumption.
Qed.

(** ** Suspension *)

Lemma suspended_run (ws : list usb) :
  forall m : machine,
  Forall (fun w => tud_mounted w = true /\ tud_suspended w = true) ws ->
  exists m',
    ticks ws m = Some (tt, m')
    /\ app_state m' = app_state m
    /\ state_start_ms m' = state_start_ms m
    /\ text_index m' = text_index m
    /\ blink_interval_ms m' = blink_interval_ms m
    /\ offered (trace m') = offered (trace m)
    /\ wakeups (trace m')
       = (wakeups (trace m) + passes (hid_start_ms m) ws)%nat.
Proof.
  induction ws as [| w ws IH]; intros m Hws.
  - exists m. cbn [passes]. rewrite Nat.add_0_r. settle.
  - inversion Hws as [| ? ? [Hm Hs] Hws']; subst.
    cbn [passes]. unfold polled.
    destruct (due w (hid_start_ms m)) eqn:Hdue.
    + assert (Hstep := hid_task_suspended _ _ Hdue Hm Hs).
      destruct (IH (set_trace (trace m ++ [RemoteWakeup]) (advance m)) Hws')
        as (m' & Hrun & Hst & Hanchor & Hidx & Hint & Hoff & Hwake).
      exists m'. rewrite (ticks_cons _ _ _ _ Hstep).
      fields. rewrite offered_app in Hoff. rewrite wakeups_app in Hwake.
      cbn [offered wakeups] in Hoff, Hwake. rewrite app_nil_r in Hoff.
      repeat split; try assumption. lia.
    + assert (Hstep := hid_task_early _ _ Hdue).
      destruct (IH m Hws')
        as (m' & Hrun & Hst & Hanchor & Hidx & Hint & Hoff & Hwake).
      exists m'. rewrite (ticks_cons _ _ _ _ Hstep).
      repeat split; try assumption.
Qed.

(** X7.  While the bus is suspended and the device mounted, every call of
    [hid_task] that passes the gate requests remote wakeup, whether or not
    the host allowed it ([remote_wakeup_en] is ignored), and nothing else
    happens: state, timer and cursor stay, no report is handed to the stack,
    and the indicator keeps the suspended cadence. *)
Theorem suspended_requests_wakeup (remote_wakeup_en : bool) (ws : list usb)
    (m : machine) :
  Forall (fun w => tud_mounted w = true /\ tud_suspended w = true) ws ->
  exists m' : machine,
    exec (tud_suspend_cb remote_wakeup_en ;; ticks ws) m = Some m'
    /\ wakeups (trace m')
       = (wakeups (trace m) + passes (hid_start_ms m) ws)%nat
    /\ app_state m' = app_state m
    /\ state_start_ms m' = state_start_ms m
    /\ text_index m' = text_index m
    /\ offered (trace m') = offered (trace m)
    /\ blink_interval_ms m' = BLINK_SUSPENDED.
Proof.
  intros Hws.
  destruct (suspended_run ws (set_blink_interval_ms BLINK_SUSPENDED m) Hws)
    as (m' & Hrun & Hst & Hanchor & Hidx & Hint & Hoff & Hwake).
  exists m'. unfold exec, bind, tud_suspend_cb, write. rewrite Hrun.
  repeat split; assumption.
Qed.

(** ** A new session *)

Lemma idle_cadence_done (m : machine) (n : nat) :
  app_state m = STATE_IDLE -> (228 <= n)%nat ->
  exists m' : machine,
    ticks (cadence (hid_start_ms m) n) m = Some (tt, m')
    /\ app_state m' = STATE_DONE
    /\ sent (trace m') = sent (trace m) ++ hello_world_reports.
Proof.
  intros Hst Hn.
  destruct (cadence_reaches_typing m Hst)
    as (m4 & H4 & Hst4 & Hidx4 & Htr4 & Hacc4).
  destruct (pending_at_start m4 Hst4 Hidx4) as (Hpend & Hcur & Hloop).
  replace n with (203 + (n - 203))%nat by lia.
  rewrite cadence_app, (ticks_app _ _ _ _ H4).
  unfold interval_ms at 1.
  replace (hid_start_ms m + 10 * Z.of_nat 203) with (hid_start_ms m + 2030)
    by lia.
  destruct (typing_run (cadence (hid_start_ms m + 2030) (n - 203)) m4
              (cadence_mounted _ _) Hloop Hcur)
    as (m' & Hrun & _ & _ & Hsent & _ & _ & Hfin & _).
  rewrite (progress_cadence _ _ _ Hacc4), Hpend in *.
  exists m'. split; [exact Hrun |]. split.
  - apply Hfin. rewrite hello_world_length. lia.
  - rewrite Hsent, Htr4. f_equal. apply firstn_all2.
    rewrite hello_world_length. lia.
Qed.

(** X8.  From any state whatever (a key still down, the script done, a
    mouse state, any cursor), one call of [hid_task] that passes the gate
    while the device is not mounted sets [STATE_IDLE] and sends nothing, and
    the 228 calls of the 10 ms cadence that follow with the device ready type
    the whole script again and end in [STATE_DONE]. *)
Theorem script_restarts_after_unmount (w : usb) (m : machine) :
  tud_mounted w = false -> due w (hid_start_ms m) = true ->
  exists m1 : machine,
    exec (hid_task w) m = Some m1
    /\ app_state m1 = STATE_IDLE
    /\ trace m1 = trace m
    /\ forall n : nat,
       (228 <= n)%nat ->
       exists m' : machine,
         exec (ticks (cadence (hid_start_ms m1) n)) m1 = Some m'
         /\ app_state m' = STATE_DONE
         /\ sent (trace m') = sent (trace m) ++ hello_world_reports.
Proof.
  intros Hm Hdue. unfold exec at 1.
  rewrite (hid_task_unmounted _ _ Hdue Hm).
  eexists. split; [reflexivity |]. split; [reflexivity |].
  split; [reflexivity |].
  intros n Hn.
  destruct (idle_cadence_done (set_app_state STATE_IDLE (advance m)) n
              eq_refl Hn) as (m' & Hrun & Hdone & Hsent).
  exists m'. unfold exec. rewrite Hrun. repeat split; assumption.
Qed.

(** ** The blinking task *)

Lemma blink_pattern_snoc (n : nat) :
  forall level : bool,
  blink_pattern (S n) level
  = blink_pattern n level ++ [xorb level (Nat.odd n)].
Proof.
  induction n as [| n IH]; intros level.
  - cbn. destruct level; reflexivity.
  - change (blink_pattern (S (S n)) level)
      with (level :: blink_pattern (S n) (negb level)).
    rewrite IH. cbn [blink_pattern app]. do 2 f_equal.
    rewrite Nat.odd_succ, <- Nat.negb_odd.
    destruct level, (Nat.odd n); reflexivity.
Qed.

Lemma fire_blink_inv (e : event) (m : machine) :
  writes_led e = false -> cursor_ok m -> blink_inv m ->
  exists m', fire e m = Some (tt, m') /\ cursor_ok m' /\ blink_inv m'.
Proof.
  intros He Hcur [Hpat Hled]. unfold blink_inv.
  destruct e as [| | en | w | | | id ty buffer | w | w]; cbn [fire].
  - eexists. split; [reflexivity |]. settle.
  - eexists. split; [reflexivity |]. settle.
  - eexists. split; [reflexivity |]. settle.
  - eexists. split; [reflexivity |]. settle.
  - exists m. settle.
  - exists m. settle.
  - exists m. split; [| settle].
    destruct buffer as [| kbd_leds rest]; [apply set_report_empty |].
    unfold tud_hid_set_report_cb. cbn [writes_led] in He.
    destruct (ty =? HID_REPORT_TYPE_OUTPUT);
      [destruct (id =? REPORT_ID_KEYBOARD) |];
      try reflexivity; discriminate He.
  - unfold led_blinking_task, bind, read, write, board_led_write, emit, ret.
    destruct (blink_interval_ms m =? 0).
    + exists m. settle.
    + destruct (u32 (board_millis w - led_start_ms m) <? blink_interval_ms m).
      * exists m. settle.
      * eexists. split; [reflexivity |]. fields.
        rewrite leds_app, length_app. cbn [leds List.length].
        rewrite Nat.add_1_r, blink_pattern_snoc, <- Hpat, Hled.
        rewrite Nat.odd_succ, <- Nat.negb_odd. settle.
  - destruct (hid_task_shape w m Hcur)
      as (m' & new & Hstep & Hcur' & _ & _ & Hls & _ & Htr & Hnew & _).
    exists m'. split; [exact Hstep |]. split; [exact Hcur' |].
    assert (Hleds : leds (trace m') = leds (trace m)).
    { rewrite Htr, leds_app.
      destruct Hnew as [-> | [-> | (r & -> & _)]]; cbn [leds];
        apply app_nil_r. }
    rewrite Hleds, Hls. split; assumption.
Qed.

(** X9.  As long as no keyboard LED report writes the indicator, the levels
    written to the LED alternate, beginning with off ([false]), whatever
    else happens in between, and the level the blinking task will write next
    is the opposite of the last one written. *)
Theorem blink_levels_alternate (es : list event) :
  Forall (fun e => writes_led e = false) es ->
  exists m : machine,
    exec (run es) boot = Some m
    /\ leds (trace m) = blink_pattern (List.length (leds (trace m))) false
    /\ led_state m = Nat.odd (List.length (leds (trace m))).
Proof.
  assert (Hgen : forall es m,
            Forall (fun e => writes_led e = false) es ->
            cursor_ok m -> blink_inv m ->
            exists m', run es m = Some (tt, m') /\ blink_inv m').
  { clear es. induction es as [| e es IH]; intros m Hes Hcur Hinv.
    - exists m. split; [reflexivity | exact Hinv].
    - inversion Hes as [| ? ? He Hes']; subst.
      destruct (fire_blink_inv e m He Hcur Hinv)
        as (m1 & Hfire & Hcur1 & Hinv1).
      destruct (IH m1 Hes' Hcur1 Hinv1) as (m' & Hrun & Hinv').
      exists m'. cbn [run]. unfold bind. rewrite Hfire. split; assumption. }
  intros Hes.
  destruct (Hgen es boot Hes boot_cursor_ok) as (m & Hrun & Hinv).
  { split; reflexivity. }
  exists m. unfold exec. rewrite Hrun. split; [reflexivity | exact Hinv].
Qed.

Lemma led_task_pass (w : usb) (m : machine) :
  blink_interval_ms m <> 0 ->
  blink_interval_ms m <= u32 (board_millis w - led_start_ms m) ->
  led_blinking_task w m
  = Some (tt, set_led_state (negb (led_state m))
                (set_trace (trace m ++ [LedWrite (led_state m)])
                   (set_led_start_ms
                      (u32 (led_start_ms m + blink_interval_ms m)) m))).
Proof.
  intros Hnz Hlate.
  unfold led_blinking_task, bind, read, write, board_led_write, emit, ret.
  apply Z.eqb_neq in Hnz. rewrite Hnz.
  destruct (Z.ltb_spec (u32 (board_millis w - led_start_ms m))
              (blink_interval_ms m)) as [Hbad | _]; [lia |].
  reflexivity.
Qed.

Lemma led_task_off (w : usb) (m : machine) :
  blink_interval_ms m = 0 -> led_blinking_task w m = Some (tt, m).
Proof.
  intros Hz. unfold led_blinking_task, bind, read. rewrite Hz. reflexivity.
Qed.

Lemma led_task_early (w : usb) (m : machine) :
  u32 (board_millis w - led_start_ms m) < blink_interval_ms m ->
  led_blinking_task w m = Some (tt, m).
Proof.
  intros Hearly.
  unfold led_blinking_task, bind, read, write, board_led_write, emit, ret.
  destruct (blink_interval_ms m =? 0); [reflexivity |].
  apply Z.ltb_lt in Hearly. rewrite Hearly. reflexivity.
Qed.

(** X10.  The blinking task keeps time the same way: with interval [i > 0]
    in force and the clock between [i n] and [i (n + 1)] ms ahead of its
    accumulator (as after a long Capslock lock), [n] calls made back to back
    at that clock reading each write the LED, alternating from the pending
    level, and the next call does nothing. *)
Theorem led_gate_catches_up (w : usb) (n : nat) :
  forall m : machine,
  0 < blink_interval_ms m ->
  blink_interval_ms m * Z.of_nat n
  <= u32 (board_millis w - led_start_ms m)
  < blink_interval_ms m * (Z.of_nat n + 1) ->
  exists m' : machine,
    exec (run (repeat (LedBlinkingTask w) n)) m = Some m'
    /\ leds (trace m') = leds (trace m) ++ blink_pattern n (led_state m)
    /\ blink_interval_ms m' = blink_interval_ms m
    /\ led_blinking_task w m' = Some (tt, m').
Proof.
  induction n as [| n IH]; intros m Hpos Hlag.
  - exists m. cbn [repeat run blink_pattern]. rewrite app_nil_r.
    split; [reflexivity |]. split; [reflexivity |]. split; [reflexivity |].
    apply led_task_early. lia.
  - assert (Hlate : blink_interval_ms m
                    <= u32 (board_millis w - led_start_ms m)) by nia.
    assert (Hstep := led_task_pass w m (Z.neq_sym _ _ (Z.lt_neq _ _ Hpos))
                       Hlate).
    match type of Hstep with _ = Some (tt, ?x) => set (m1 := x) in * end.
    destruct (IH m1) as (m' & Hrun & Hleds & Hint & Hnext).
    { exact Hpos. }
    { subst m1. fields. rewrite lag_after_pass by lia. nia. }
    exists m'. cbn [repeat run fire]. unfold exec, bind in *. rewrite Hstep.
    split; [exact Hrun |]. split; [| split; [exact Hint | exact Hnext]].
    rewrite Hleds. subst m1. fields. rewrite leds_app. cbn [leds blink_pattern].
    rewrite <- app_assoc. reflexivity.
Qed.

(** ** The blink interval *)

Lemma selected_values (es : list event) :
  forall i : Z,
  In i [0; BLINK_NOT_MOUNTED; BLINK_MOUNTED; BLINK_SUSPENDED] ->
  In (selected i es) [0; BLINK_NOT_MOUNTED; BLINK_MOUNTED; BLINK_SUSPENDED].
Proof.
  induction es as [| e es IH]; intros i Hi; [exact Hi |].
  cbn [selected]. apply IH.
  destruct e as [| | en | w | | | id ty buffer | w | w]; cbn [selects];
    try exact Hi; cbn; auto.
  - destruct (tud_mounted w); auto.
  - destruct buffer as [| kbd_leds rest]; [exact Hi |].
    destruct ((ty =? HID_REPORT_TYPE_OUTPUT) && (id =? REPORT_ID_KEYBOARD));
      [| exact Hi].
    destruct (Z.land kbd_leds KEYBOARD_LED_CAPSLOCK =? 0); cbn; auto.
Qed.

Lemma selected_zero_locked (es : list event) :
  forall (i : Z) (locked : bool),
  (i = 0 -> locked = true) ->
  selected i es = 0 -> lock_engaged locked es = true.
Proof.
  induction es as [| e es IH]; intros i locked Hinv Hzero.
  - apply Hinv. exact Hzero.
  - cbn [selected] in Hzero.
    destruct e as [| | en | w | | | id ty buffer | w | w];
      cbn [selects lock_engaged] in *;
      try (apply (IH _ _ Hinv Hzero));
      try (apply (IH _ locked) in Hzero; [exact Hzero |];
           unfold BLINK_MOUNTED, BLINK_NOT_MOUNTED, BLINK_SUSPENDED;
           intros; discriminate).
    + apply (IH _ locked) in Hzero; [exact Hzero |].
      destruct (tud_mounted w); intros; discriminate.
    + destruct buffer as [| kbd_leds rest];
        [apply (IH _ _ Hinv Hzero) |].
      destruct ((ty =? HID_REPORT_TYPE_OUTPUT) && (id =? REPORT_ID_KEYBOARD));
        [| apply (IH _ _ Hinv Hzero)].
      revert Hzero. apply IH.
      destruct (Z.land kbd_leds KEYBOARD_LED_CAPSLOCK =? 0); intros;
        [discriminate | reflexivity].
Qed.

(** X11.  In every reachable state the blink interval is one of 0, 250,
    1000 and 2500 ms, and it is 0 (blinking disabled) only while the most
    recent keyboard LED report had the Capslock bit set. *)
Theorem blink_interval_values (es : list event) :
  exists m : machine,
    exec (run es) boot = Some m
    /\ In (blink_interval_ms m)
         [0; BLINK_NOT_MOUNTED; BLINK_MOUNTED; BLINK_SUSPENDED]
    /\ (blink_interval_ms m = 0 -> lock_engaged false es = true).
Proof.
  destruct (run_total es boot boot_cursor_ok) as (m & Hrun & _ & Hint).
  exists m. unfold exec. rewrite Hrun. split; [reflexivity |].
  rewrite Hint. split.
  - apply selected_values. cbn. auto.
  - apply selected_zero_locked. cbn. intros; discriminate.
Qed.

(** ** The sequencer and the indicator do not interfere *)

Ltac same_view :=
  unfold seq_view; fields; rewrite ?usb_calls_app; congruence.

Lemma hid_task_seq (w : usb) (m1 m2 : machine) :
  seq_view m1 = seq_view m2 -> cursor_ok m1 ->
  exists a b : machine,
    hid_task w m1 = Some (tt, a) /\ hid_task w m2 = Some (tt, b)
    /\ seq_view a = seq_view b /\ cursor_ok a.
Proof.
  intros Hv Hcur.
  destruct (hid_task_shape w m1 Hcur) as (a0 & _ & Ha0 & Hcur0 & _).
  assert (Hcura : forall a, hid_task w m1 = Some (tt, a) -> cursor_ok a)
    by (intros a Ha; rewrite Ha0 in Ha; injection Ha as <-; exact Hcur0).
  clear Ha0 Hcur0 a0.
  unfold seq_view in Hv. injection Hv as Hst Hanchor Hidx Hacc Hcalls.
  assert (Hcur2 : cursor_ok m2)
    by (unfold cursor_ok in *; rewrite <- Hst, <- Hidx; exact Hcur).
  destruct (due w (hid_start_ms m1)) eqn:Hdue.
  2: { assert (Hdue2 := Hdue). rewrite Hacc in Hdue2.
       exists m1, m2. rewrite !hid_task_early by assumption.
       split; [reflexivity |]. split; [reflexivity |].
       split; [same_view | exact Hcur]. }
  assert (Hdue2 := Hdue). rewrite Hacc in Hdue2.
  destruct (tud_mounted w) eqn:Hm.
  2: { pose proof (hid_task_unmounted _ _ Hdue Hm) as E1.
       pose proof (hid_task_unmounted _ _ Hdue2 Hm) as E2.
       eexists. eexists. split; [exact E1 |]. split; [exact E2 |].
       split; [same_view | exact (Hcura _ E1)]. }
  destruct (tud_suspended w) eqn:Hs.
  { pose proof (hid_task_suspended _ _ Hdue Hm Hs) as E1.
    pose proof (hid_task_suspended _ _ Hdue2 Hm Hs) as E2.
    eexists. eexists. split; [exact E1 |]. split; [exact E2 |].
    split; [same_view | exact (Hcura _ E1)]. }
  destruct (tud_hid_ready w) eqn:Hr.
  2: { pose proof (hid_task_busy _ _ Hdue Hm Hs Hr) as E1.
       pose proof (hid_task_busy _ _ Hdue2 Hm Hs Hr) as E2.
       eexists. eexists. split; [exact E1 |]. split; [exact E2 |].
       split; [same_view | exact (Hcura _ E1)]. }
  destruct (app_state m1) eqn:Hst1; symmetry in Hst.
  - pose proof (hid_task_idle _ _ Hdue Hm Hs Hr Hst1) as E1.
    pose proof (hid_task_idle _ _ Hdue2 Hm Hs Hr Hst) as E2.
    eexists. eexists. split; [exact E1 |]. split; [exact E2 |].
    split; [same_view | exact (Hcura _ E1)].
  - pose proof (hid_task_wait_init _ _ Hdue Hm Hs Hr Hst1) as E1.
    pose proof (hid_task_wait_init _ _ Hdue2 Hm Hs Hr Hst) as E2.
    rewrite <- Hanchor in E2.
    eexists. eexists. split; [exact E1 |]. split; [exact E2 |].
    split; [| exact (Hcura _ E1)].
    destruct (2000 <? _); same_view.
  - pose proof (hid_task_mouse_up _ _ Hdue Hm Hs Hr Hst1) as E1.
    pose proof (hid_task_mouse_up _ _ Hdue2 Hm Hs Hr Hst) as E2.
    eexists. eexists. split; [exact E1 |]. split; [exact E2 |].
    split; [| exact (Hcura _ E1)].
    destruct (tud_hid_report w); same_view.
  - pose proof (hid_task_mouse_down _ _ Hdue Hm Hs Hr Hst1) as E1.
    pose proof (hid_task_mouse_down _ _ Hdue2 Hm Hs Hr Hst) as E2.
    eexists. eexists. split; [exact E1 |]. split; [exact E2 |].
    split; [| exact (Hcura _ E1)].
    destruct (tud_hid_report w); same_view.
  - pose proof (hid_task_click_press _ _ Hdue Hm Hs Hr Hst1) as E1.
    pose proof (hid_task_click_press _ _ Hdue2 Hm Hs Hr Hst) as E2.
    eexists. eexists. split; [exact E1 |]. split; [exact E2 |].
    split; [| exact (Hcura _ E1)].
    destruct (tud_hid_report w); same_view.
  - pose proof (hid_task_click_release _ _ Hdue Hm Hs Hr Hst1) as E1.
    pose proof (hid_task_click_release _ _ Hdue2 Hm Hs Hr Hst) as E2.
    eexists. eexists. split; [exact E1 |]. split; [exact E2 |].
    split; [| exact (Hcura _ E1)].
    destruct (tud_hid_report w); same_view.
  - pose proof (hid_task_wait_before_type _ _ Hdue Hm Hs Hr Hst1) as E1.
    pose proof (hid_task_wait_before_type _ _ Hdue2 Hm Hs Hr Hst) as E2.
    rewrite <- Hanchor in E2.
    eexists. eexists. split; [exact E1 |]. split; [exact E2 |].
    split; [| exact (Hcura _ E1)].
    destruct (500 <? _); same_view.
  - destruct (hid_task_type_char_ok _ _ Hdue Hm Hs Hr Hst1 Hcur)
      as (c & Hc & E1).
    assert (Hc2 : nth_error text_bytes (Z.to_nat (text_index m2)) = Some c)
      by (rewrite <- Hidx; exact Hc).
    pose proof (hid_task_type_char _ _ c Hdue2 Hm Hs Hr Hst
                  (eq_ind _ (fun z => 0 <= z) (proj1 (proj1 Hcur)) _ Hidx)
                  Hc2) as E2.
    eexists. eexists. split; [exact E1 |]. split; [exact E2 |].
    split; [| exact (Hcura _ E1)].
    destruct (c =? 0); [same_view |].
    destruct (tud_hid_report w); same_view.
  - assert (Hrel : text_index m1 < INT_MAX).
    { destruct Hcur as [Hb _]. unfold INT_MAX. lia. }
    assert (Hrel2 : text_index m2 < INT_MAX) by (rewrite <- Hidx; exact Hrel).
    pose proof (hid_task_release_char _ _ Hdue Hm Hs Hr Hst1 Hrel) as E1.
    pose proof (hid_task_release_char _ _ Hdue2 Hm Hs Hr Hst Hrel2) as E2.
    eexists. eexists. split; [exact E1 |]. split; [exact E2 |].
    split; [| exact (Hcura _ E1)].
    destruct (tud_hid_report w); same_view.
  - pose proof (hid_task_done _ _ Hdue Hm Hs Hr Hst1) as E1.
    pose proof (hid_task_done _ _ Hdue2 Hm Hs Hr Hst) as E2.
    eexists. eexists. split; [exact E1 |]. split; [exact E2 |].
    split; [same_view | exact (Hcura _ E1)].
Qed.

Lemma run_seq (es : list event) :
  forall m1 m2 : machine,
  seq_view m1 = seq_view m2 -> cursor_ok m1 ->
  exists a b : machine,
    run es m1 = Some (tt, a) /\ ticks (hid_polls es) m2 = Some (tt, b)
    /\ seq_view a = seq_view b.
Proof.
  induction es as [| e es IH]; intros m1 m2 Hv Hcur.
  - exists m1, m2. repeat split. exact Hv.
  - destruct (is_hid_task e) eqn:He.
    + destruct e; try discriminate He. cbn [hid_polls run fire].
      destruct (hid_task_seq w m1 m2 Hv Hcur)
        as (a1 & b1 & Ha1 & Hb1 & Hv1 & Hcur1).
      destruct (IH a1 b1 Hv1 Hcur1) as (a & b & Ha & Hb & Hvab).
      exists a, b. unfold bind. rewrite Ha1. rewrite (ticks_cons _ _ _ _ Hb1).
      repeat split; assumption.
    + destruct (callback_shape e m1 He)
        as (a1 & new & Hfire & Hst & Hanchor & Hidx & Hacc & Htr & Hnew).
      assert (Hv1 : seq_view a1 = seq_view m2).
      { rewrite <- Hv. unfold seq_view.
        rewrite Hst, Hanchor, Hidx, Hacc, Htr, usb_calls_app, Hnew, app_nil_r.
        reflexivity. }
      assert (Hcur1 : cursor_ok a1).
      { destruct Hcur as [Hb Hrel]. unfold cursor_ok. rewrite Hst, Hidx.
        split; assumption. }
      destruct (IH a1 m2 Hv1 Hcur1) as (a & b & Ha & Hb & Hvab).
      exists a, b. cbn [run]. unfold bind. rewrite Hfire.
      replace (hid_polls (e :: es)) with (hid_polls es)
        by (destruct e; try reflexivity; discriminate He).
      repeat split; assumption.
Qed.

Lemma main_loop_run (its : list iteration) (m : machine) :
  main_loop its m = run (events_of its) m.
Proof.
  revert m. induction its as [| it its IH]; intros m; [reflexivity |].
  cbn [main_loop events_of].
  assert (Happ : forall es1 es2 m,
            run (es1 ++ es2) m = (run es1 ;; run es2) m).
  { induction es1 as [| e es1 IH1]; intros es2 m0.
    - cbn [run app]. unfold bind, ret. reflexivity.
    - cbn [run app]. unfold bind in *.
      destruct (fire e m0) as [[[] m1] |]; [apply IH1 | reflexivity]. }
  rewrite Happ. unfold bind.
  destruct (run (delivered it) m) as [[[] m1] |]; [| reflexivity].
  cbn [run fire]. unfold bind.
  destruct (led_blinking_task (led_poll it) m1) as [[[] m2] |];
    [| reflexivity].
  destruct (hid_task (hid_poll it) m2) as [[[] m3] |]; [| reflexivity].
  apply IH.
Qed.

Lemma hid_polls_events_of (its : list iteration) :
  Forall (fun it => Forall (fun e => is_hid_task e = false) (delivered it))
    its ->
  hid_polls (events_of its) = map hid_poll its.
Proof.
  assert (Hcb : forall es rest,
            Forall (fun e => is_hid_task e = false) es ->
            hid_polls (es ++ rest) = hid_polls rest).
  { induction es as [| e es IH]; intros rest Hes; [reflexivity |].
    inversion Hes as [| ? ? He Hes']; subst. cbn [app].
    destruct e; try discriminate He; cbn [hid_polls]; apply IH; exact Hes'. }
  induction its as [| it its IH]; intros Hits; [reflexivity |].
  inversion Hits as [| ? ? Hit Hits']; subst.
  cbn [events_of map]. rewrite (Hcb _ _ Hit). cbn [hid_polls].
  rewrite (IH Hits'). reflexivity.
Qed.

(** X12.  Under [main]'s loop, with [tud_task] delivering any callbacks at
    all and the blinking task running in between, the sequencer's state,
    timer, cursor and accumulator and the calls it made into the stack are
    the same as if [hid_task] alone had been called with the same answers:
    no callback and no LED activity reaches the sequencer. *)
Theorem sequencer_ignores_callbacks (its : list iteration) :
  Forall (fun it => Forall (fun e => is_hid_task e = false) (delivered it))
    its ->
  exists m m0 : machine,
    exec (main_loop its) boot = Some m
    /\ exec (ticks (map hid_poll its)) boot = Some m0
    /\ seq_view m = seq_view m0.
Proof.
  intros Hits.
  destruct (run_seq (events_of its) boot boot eq_refl boot_cursor_ok)
    as (m & m0 & Hm & Hm0 & Hv).
  rewrite (hid_polls_events_of its Hits) in Hm0.
  exists m, m0. unfold exec. rewrite main_loop_run, Hm, Hm0.
  repeat split. exact Hv.
Qed.

Ltac same_blink :=
  unfold blink_view; fields; rewrite ?leds_app; cbn [leds]; congruence.

Lemma fire_blink (e : event) (m1 m2 : machine) :
  is_hid_task e = false -> blink_view m1 = blink_view m2 ->
  exists a b : machine,
    fire e m1 = Some (tt, a) /\ fire e m2 = Some (tt, b)
    /\ blink_view a = blink_view b.
Proof.
  intros He Hv. unfold blink_view in Hv.
  injection Hv as Hint Hstart Hstate Hleds.
  destruct e as [| | en | w | | | id ty buffer | w | w]; try discriminate He;
    cbn [fire].
  - eexists. eexists. split; [reflexivity |]. split; [reflexivity |].
    same_blink.
  - eexists. eexists. split; [reflexivity |]. split; [reflexivity |].
    same_blink.
  - eexists. eexists. split; [reflexivity |]. split; [reflexivity |].
    same_blink.
  - eexists. eexists. split; [reflexivity |]. split; [reflexivity |].
    same_blink.
  - exists m1, m2. split; [reflexivity |]. split; [reflexivity |].
    same_blink.
  - exists m1, m2. split; [reflexivity |]. split; [reflexivity |].
    same_blink.
  - destruct buffer as [| kbd_leds rest].
    + exists m1, m2. rewrite !set_report_empty.
      split; [reflexivity |]. split; [reflexivity |]. same_blink.
    + destruct (ty =? HID_REPORT_TYPE_OUTPUT) eqn:Hty;
        [destruct (id =? REPORT_ID_KEYBOARD) eqn:Hid |].
      * apply Z.eqb_eq in Hty, Hid. subst. rewrite !set_report_leds.
        eexists. eexists. split; [reflexivity |]. split; [reflexivity |].
        destruct (Z.land kbd_leds KEYBOARD_LED_CAPSLOCK =? 0); same_blink.
      * exists m1, m2. unfold tud_hid_set_report_cb. rewrite Hty, Hid.
        split; [reflexivity |]. split; [reflexivity |]. same_blink.
      * exists m1, m2. unfold tud_hid_set_report_cb. rewrite Hty.
        split; [reflexivity |]. split; [reflexivity |]. same_blink.
  - destruct (Z.eq_dec (blink_interval_ms m1) 0) as [Hz | Hnz].
    + exists m1, m2.
      rewrite !led_task_off by congruence.
      split; [reflexivity |]. split; [reflexivity |]. same_blink.
    + destruct (Z.lt_ge_cases (u32 (board_millis w - led_start_ms m1))
                  (blink_interval_ms m1)) as [Hearly | Hlate].
      * exists m1, m2.
        rewrite !led_task_early by congruence.
        split; [reflexivity |]. split; [reflexivity |]. same_blink.
      * eexists. eexists.
        split; [apply led_task_pass; assumption |].
        split; [apply led_task_pass; congruence |].
        same_blink.
Qed.

(** X13.  The indicator's variables (interval, accumulator, next level)
    and the levels written to the LED are the same whether or not
    [hid_task] runs: dropping every [hid_task] call from a run changes
    nothing the blinking task or the LED can see. *)
Theorem indicator_ignores_hid_task (es : list event) :
  exists m m0 : machine,
    exec (run es) boot = Some m
    /\ exec (run (filter (fun e => negb (is_hid_task e)) es)) boot = Some m0
    /\ blink_view m = blink_view m0.
Proof.
  assert (Hgen : forall es m1 m2,
            blink_view m1 = blink_view m2 -> cursor_ok m1 ->
            exists a b,
              run es m1 = Some (tt, a)
              /\ run (filter (fun e => negb (is_hid_task e)) es) m2
                 = Some (tt, b)
              /\ blink_view a = blink_view b).
  { clear es. induction es as [| e es IH]; intros m1 m2 Hv Hcur.
    - exists m1, m2. repeat split. exact Hv.
    - cbn [filter]. destruct (is_hid_task e) eqn:He; cbn [negb].
      + destruct e; try discriminate He. cbn [run fire].
        destruct (hid_task_shape w m1 Hcur)
          as (a1 & new & Hstep & Hcur1 & Hint & Hstart & Hstate & _ & Htr
              & Hnew & _).
        assert (Hv1 : blink_view a1 = blink_view m2).
        { rewrite <- Hv. unfold blink_view.
          rewrite Hint, Hstart, Hstate, Htr, leds_app.
          destruct Hnew as [-> | [-> | (r & -> & _)]]; cbn [leds];
            rewrite app_nil_r; reflexivity. }
        destruct (IH a1 m2 Hv1 Hcur1) as (a & b & Ha & Hb & Hvab).
        exists a, b. unfold bind. rewrite Hstep. repeat split; assumption.
      + destruct (fire_blink e m1 m2 He Hv) as (a1 & b1 & Ha1 & Hb1 & Hv1).
        assert (Hcur1 : cursor_ok a1).
        { destruct (callback_shape e m1 He)
            as (a1' & new & Hfire & Hst & _ & Hidx & _).
          rewrite Ha1 in Hfire. injection Hfire as <-.
          destruct Hcur as [Hb Hrel]. unfold cursor_ok. rewrite Hst, Hidx.
          split; assumption. }
        destruct (IH a1 b1 Hv1 Hcur1) as (a & b & Ha & Hb & Hvab).
        exists a, b. cbn [run]. unfold bind. rewrite Ha1, Hb1.
        repeat split; assumption. }
  destruct (Hgen es boot boot eq_refl boot_cursor_ok)
    as (m & m0 & Hm & Hm0 & Hv).
  exists m, m0. unfold exec. rewrite Hm, Hm0. repeat split. exact Hv.
Qed.

(** ** Letters *)

(** X14.  For every lowercase letter the key is [HID_KEY_A] plus the
    letter's offset, without modifier; its uppercase form (32 below) gets
    the same key with left shift; and two different lowercase letters never
    get the same key. *)
Theorem letter_keys (c : Z) :
  chr "a" <= c <= chr "z" ->
  key_modifier c = (u8 (HID_KEY_A + (c - chr "a")), 0)
  /\ key_modifier (c - 32)
     = (u8 (HID_KEY_A + (c - chr "a")), u8 KEYBOARD_MODIFIER_LEFTSHIFT)
  /\ forall c' : Z,
     chr "a" <= c' <= chr "z" ->
     fst (key_modifier c') = fst (key_modifier c) -> c' = c.
Proof.
  assert (Hlow : forall x, chr "a" <= x <= chr "z" ->
            key_modifier x = (u8 (HID_KEY_A + (x - chr "a")), 0)).
  { intros x Hx. unfold key_modifier.
    destruct (Z.leb_spec (chr "a") x) as [_ | Hbad]; [| lia].
    destruct (Z.leb_spec x (chr "z")) as [_ | Hbad]; [| lia].
    reflexivity. }
  intros Hc. split; [apply Hlow; exact Hc |]. split.
  - unfold key_modifier. change (chr "a") with 97 in *.
    change (chr "z") with 122 in *. change (chr "A") with 65.
    change (chr "Z") with 90.
    destruct (Z.leb_spec 97 (c - 32)) as [Hbad | _]; [lia |].
    cbn [andb].
    destruct (Z.leb_spec 65 (c - 32)) as [_ | Hbad]; [| lia].
    destruct (Z.leb_spec (c - 32) 90) as [_ | Hbad]; [| lia].
    cbn [andb]. do 2 f_equal. lia.
  - intros c' Hc' Hkey. rewrite (Hlow c Hc), (Hlow c' Hc') in Hkey.
    cbn [fst] in Hkey. unfold u8 in Hkey.
    change (chr "a") with 97 in *. change (chr "z") with 122 in *.
    pose proof (Z.div_mod (HID_KEY_A + (c' - 97)) 256 ltac:(lia)) as H1.
    pose proof (Z.div_mod (HID_KEY_A + (c - 97)) 256 ltac:(lia)) as H2.
    lia.
Qed.

(** ** Refused reports *)

Lemma offer_step (w : usb) (m : machine) (r : report) :
  due w (hid_start_ms m) = true -> tud_mounted w = true ->
  tud_suspended w = false -> tud_hid_ready w = true ->
  cursor_ok m -> next_report m = Some r ->
  exists m',
    hid_task w m = Some (tt, m')
    /\ trace m' = trace m ++ [HidReport r (tud_hid_report w)]
    /\ hid_start_ms m' = u32 (hid_start_ms m + interval_ms)
    /\ (tud_hid_report w = false ->
        app_state m' = app_state m /\ text_index m' = text_index m
        /\ state_start_ms m' = state_start_ms m).
Proof.
  intros Hdue Hm Hs Hr Hcur Hnext. unfold next_report in Hnext.
  destruct (app_state m) eqn:Hst; try discriminate Hnext.
  - injection Hnext as <-.
    rewrite (hid_task_mouse_up _ _ Hdue Hm Hs Hr Hst).
    eexists. split; [reflexivity |]. destruct (tud_hid_report w); settle.
  - injection Hnext as <-.
    rewrite (hid_task_mouse_down _ _ Hdue Hm Hs Hr Hst).
    eexists. split; [reflexivity |]. destruct (tud_hid_report w); settle.
  - injection Hnext as <-.
    rewrite (hid_task_click_press _ _ Hdue Hm Hs Hr Hst).
    eexists. split; [reflexivity |]. destruct (tud_hid_report w); settle.
  - injection Hnext as <-.
    rewrite (hid_task_click_release _ _ Hdue Hm Hs Hr Hst).
    eexists. split; [reflexivity |]. destruct (tud_hid_report w); settle.
  - destruct (nth_error text_bytes (Z.to_nat (text_index m))) as [c |] eqn:Hc;
      [| discriminate Hnext].
    destruct (c =? 0) eqn:Hz; [discriminate Hnext |].
    injection Hnext as <-.
    rewrite (hid_task_type_char _ _ c Hdue Hm Hs Hr Hst
               (proj1 (proj1 Hcur)) Hc), Hz.
    eexists. split; [reflexivity |]. destruct (tud_hid_report w); settle.
  - injection Hnext as <-.
    assert (Hrel : text_index m < INT_MAX).
    { destruct Hcur as [Hb _]. unfold INT_MAX. lia. }
    rewrite (hid_task_release_char _ _ Hdue Hm Hs Hr Hst Hrel).
    eexists. split; [reflexivity |]. destruct (tud_hid_report w); settle.
Qed.

(** X15.  In a state that sends (a mouse state, a character to press, a
    release), a call that gets through hands the state's report to the
    stack; when the stack refuses it the state, the cursor and the timer are
    as before, and the next call that gets through hands over the very same
    report again. *)
Theorem refused_report_is_retried (w1 w2 : usb) (m : machine) (r : report) :
  cursor_ok m -> next_report m = Some r ->
  due w1 (hid_start_ms m) = true -> tud_mounted w1 = true ->
  tud_suspended w1 = false -> tud_hid_ready w1 = true ->
  tud_hid_report w1 = false ->
  due w2 (u32 (hid_start_ms m + interval_ms)) = true ->
  tud_mounted w2 = true -> tud_suspended w2 = false ->
  tud_hid_ready w2 = true ->
  exists m1 m2 : machine,
    exec (hid_task w1) m = Some m1
    /\ app_state m1 = app_state m /\ text_index m1 = text_index m
    /\ state_start_ms m1 = state_start_ms m
    /\ exec (hid_task w2) m1 = Some m2
    /\ trace m2
       = trace m ++ [HidReport r false; HidReport r (tud_hid_report w2)].
Proof.
  intros Hcur Hnext Hdue1 Hm1 Hs1 Hr1 Hrefused Hdue2 Hm2 Hs2 Hr2.
  destruct (offer_step w1 m r Hdue1 Hm1 Hs1 Hr1 Hcur Hnext)
    as (m1 & Hstep1 & Htr1 & Hacc1 & Hsame).
  destruct (Hsame Hrefused) as (Hst & Hidx & Hanchor).
  assert (Hcur1 : cursor_ok m1).
  { destruct Hcur as [Hb Hrel]. unfold cursor_ok. rewrite Hst, Hidx.
    split; assumption. }
  assert (Hnext1 : next_report m1 = Some r)
    by (unfold next_report in *; rewrite Hst, Hidx; exact Hnext).
  rewrite <- Hacc1 in Hdue2.
  destruct (offer_step w2 m1 r Hdue2 Hm2 Hs2 Hr2 Hcur1 Hnext1)
    as (m2 & Hstep2 & Htr2 & _ & _).
  exists m1, m2. unfold exec. rewrite Hstep1, Hstep2.
  repeat split; try assumption.
  rewrite Htr2, Htr1, Hrefused, <- app_assoc. reflexivity.
Qed.

(** ** The end of the script *)

Lemma done_step (w : usb) (m : machine) :
  tud_mounted w = true -> app_state m = STATE_DONE ->
  exists m',
    hid_task w m = Some (tt, m')
    /\ app_state m' = STATE_DONE
    /\ text_index m' = text_index m
    /\ state_start_ms m' = state_start_ms m
    /\ offered (trace m') = offered (trace m).
Proof.
  intros Hm Hst.
  destruct (due w (hid_start_ms m)) eqn:Hdue.
  2: { exists m. rewrite (hid_task_early _ _ Hdue). settle. }
  destruct (tud_suspended w) eqn:Hs.
  { rewrite (hid_task_suspended _ _ Hdue Hm Hs).
    eexists. split; [reflexivity |]. fields. rewrite offered_app.
    cbn [offered]. rewrite app_nil_r. settle. }
  destruct (tud_hid_ready w) eqn:Hr.
  - rewrite (hid_task_done _ _ Hdue Hm Hs Hr Hst).
    eexists. split; [reflexivity |]. settle.
  - rewrite (hid_task_busy _ _ Hdue Hm Hs Hr).
    eexists. split; [reflexivity |]. settle.
Qed.

(** X16.  [STATE_DONE] is final for the session: while the device stays
    mounted no call of [hid_task] leaves it, moves the cursor or the timer,
    or hands a report to the stack. *)
Theorem done_is_final (ws : list usb) :
  forall m : machine,
  app_state m = STATE_DONE ->
  Forall (fun w => tud_mounted w = true) ws ->
  exists m' : machine,
    exec (ticks ws) m = Some m'
    /\ app_state m' = STATE_DONE
    /\ text_index m' = text_index m
    /\ state_start_ms m' = state_start_ms m
    /\ offered (trace m') = offered (trace m).
Proof.
  induction ws as [| w ws IH]; intros m Hst Hws.
  - exists m. settle.
  - inversion Hws as [| ? ? Hw Hws']; subst.
    destruct (done_step w m Hw Hst) as (m1 & Hstep & Hst1 & Hidx & Ht & Hoff).
    destruct (IH m1 Hst1 Hws') as (m' & Hrun & Hst' & Hidx' & Ht' & Hoff').
    exists m'. unfold exec in *. rewrite (ticks_cons _ _ _ _ Hstep).
    repeat split; try assumption; congruence.
Qed.

(** X17.  On the 10 ms cadence from [STATE_IDLE] nothing has been sent
    after 203 calls, and from then on every call gets exactly one more
    report of the script accepted: after [203 + k] calls the first [k]
    reports are out, so each key is held for one 10 ms period. *)
Theorem script_paced_on_cadence (m : machine) (k : nat) :
  app_state m = STATE_IDLE ->
  exists m' : machine,
    exec (ticks (cadence (hid_start_ms m) (203 + k))) m = Some m'
    /\ sent (trace m') = sent (trace m) ++ firstn k hello_world_reports
    /\ text_index m' = Z.of_nat (releases (firstn k hello_world_reports)).
Proof.
  intros Hst.
  destruct (cadence_reaches_typing m Hst)
    as (m4 & H4 & Hst4 & Hidx4 & Htr4 & Hacc4).
  destruct (pending_at_start m4 Hst4 Hidx4) as (Hpend & Hcur & Hloop).
  rewrite cadence_app. unfold exec. rewrite (ticks_app _ _ _ _ H4).
  unfold interval_ms at 1.
  replace (hid_start_ms m + 10 * Z.of_nat 203) with (hid_start_ms m + 2030)
    by lia.
  destruct (typing_run (cadence (hid_start_ms m + 2030) k) m4
              (cadence_mounted _ _) Hloop Hcur)
    as (m' & Hrun & _ & _ & Hsent & _ & Hidx & _ & _).
  rewrite (progress_cadence _ _ _ Hacc4), Hpend in *.
  exists m'. rewrite Hrun. split; [reflexivity |].
  split; [rewrite Hsent, Htr4; reflexivity |].
  rewrite Hidx, Hidx4. reflexivity.
Qed.

(** ** Reports and the guards *)

(** X18.  A call of [hid_task] hands at most one report to the stack, and
    none at all unless it passed the poll gate with the device mounted, the
    bus awake and the transport ready: the helpers, [send_key_release]
    included, are only ever reached behind these guards. *)
Theorem hid_task_offers_behind_guards (w : usb) (m : machine) :
  cursor_ok m ->
  exists m' : machine,
    exec (hid_task w) m = Some m'
    /\ (List.length (offered (trace m'))
        <= S (List.length (offered (trace m))))%nat
    /\ (due w (hid_start_ms m) && tud_mounted w && negb (tud_suspended w)
        && tud_hid_ready w = false ->
        offered (trace m') = offered (trace m)).
Proof.
  intros Hcur.
  destruct (hid_task_shape w m Hcur)
    as (m' & new & Hstep & _ & _ & _ & _ & _ & Htr & Hnew & _).
  exists m'. unfold exec. rewrite Hstep. split; [reflexivity |]. split.
  - rewrite Htr, offered_app, length_app.
    destruct Hnew as [-> | [-> | (r & -> & _)]]; cbn [offered List.length];
      lia.
  - intros Hguard.
    destruct (due w (hid_start_ms m)) eqn:Hdue.
    2: { rewrite (hid_task_early _ _ Hdue) in Hstep.
         injection Hstep as <-. reflexivity. }
    destruct (tud_mounted w) eqn:Hm.
    2: { rewrite (hid_task_unmounted _ _ Hdue Hm) in Hstep.
         injection Hstep as <-. reflexivity. }
    destruct (tud_suspended w) eqn:Hs.
    { rewrite (hid_task_suspended _ _ Hdue Hm Hs) in Hstep.
      injection Hstep as <-. fields. rewrite offered_app. cbn [offered].
      apply app_nil_r. }
    destruct (tud_hid_ready w) eqn:Hr; [discriminate Hguard |].
    rewrite (hid_task_busy _ _ Hdue Hm Hs Hr) in Hstep.
    injection Hstep as <-. reflexivity.
Qed.

End Properties.

(** * Concrete runs

    The remaining statements are evaluated with TinyUSB's header values. *)

#[local] Existing Instance tinyusb.

Local Open Scope fw_scope.

(** C5, on the code.  Booted and called every 10 ms with the device ready,
    the sequencer is in [STATE_WAIT_INIT] after the call at 2010 ms, enters
    [STATE_WAIT_BEFORE_TYPE] at 2020 ms with the timer still holding the clock
    captured on leaving [STATE_IDLE] (10 ms), and leaves it for
    [STATE_TYPE_CHAR] at 2030 ms, 10 ms after entering. *)
Theorem wait_before_type_not_timed :
  exists m1 m2 m3 : machine,
    exec (ticks (cadence 0 201)) boot = Some m1
    /\ app_state m1 = STATE_WAIT_INIT
    /\ exec (hid_task (steady 2020)) m1 = Some m2
    /\ app_state m2 = STATE_WAIT_BEFORE_TYPE
    /\ state_start_ms m2 = 10
    /\ exec (hid_task (steady 2030)) m2 = Some m3
    /\ app_state m3 = STATE_TYPE_CHAR.
Proof.
  do 3 eexists.
  repeat (split; [vm_compute; reflexivity |]).
  vm_compute. reflexivity.
Qed.

(** C7, on the code.  With the transport not ready (here: bus suspended) and
    the stack accepting, [send_key_release] hands its report to the stack and
    returns [true], where the other helpers return [false] and touch
    nothing. *)
Theorem send_key_release_skips_ready_check :
  let w := {| board_millis := 0; tud_mounted := true; tud_suspended := true;
              tud_hid_ready := false; tud_hid_report := true |} in
  send_key_release w boot
  = Some (true, set_trace [HidReport (Keyboard 1 0 None) true] boot)
  /\ send_key_press w 0 4 boot = Some (false, boot)
  /\ send_mouse_move w 0 (-20) boot = Some (false, boot)
  /\ send_mouse_click w 1 boot = Some (false, boot)
  /\ send_mouse_release w boot = Some (false, boot).
Proof. vm_compute. repeat split. Qed.

(** C2 fails on an unmounted device: the 'H' is down, the device is
    unplugged (not mounted, hence not ready), and the next call puts the
    sequencer back to [STATE_IDLE]. *)
Lemma unmounted_tick_resets :
  let w := {| board_millis := 2050; tud_mounted := false;
              tud_suspended := false; tud_hid_ready := false;
              tud_hid_report := false |} in
  exists m m' : machine,
    exec (ticks (cadence 0 204)) boot = Some m
    /\ app_state m = STATE_RELEASE_CHAR
    /\ tud_hid_ready w = false
    /\ exec (hid_task w) m = Some m'
    /\ app_state m' = STATE_IDLE
    /\ app_state m' <> app_state m.
Proof.
  do 2 eexists.
  repeat (split; [vm_compute; reflexivity |]).
  vm_compute. discriminate.
Qed.

(** C3 fails at the callback: after the script has run to [STATE_DONE],
    [tud_umount_cb] leaves the state at [STATE_DONE], and when the device is
    mounted again before [hid_task] next passes its gate the state is still
    [STATE_DONE]. *)
Lemma unmount_callback_keeps_state :
  exists m m1 m2 : machine,
    exec (ticks (cadence 0 228)) boot = Some m
    /\ app_state m = STATE_DONE
    /\ exec tud_umount_cb m = Some m1
    /\ app_state m1 <> STATE_IDLE
    /\ exec (run [Umount; Mount; HidTask (steady 2290)]) m = Some m2
    /\ app_state m2 = STATE_DONE.
Proof.
  do 3 eexists.
  split; [vm_compute; reflexivity |].
  split; [vm_compute; reflexivity |].
  split; [vm_compute; reflexivity |].
  split; [vm_compute; discriminate |].
  split; vm_compute; reflexivity.
Qed.

(** C9 fails on a suspend after Capslock: the last LED report had the
    Capslock bit set, yet the interval is the suspended cadence and the
    blinking task drives the LED off again. *)
Lemma suspend_overrides_capslock :
  let es := [Mount; SetReport 1 2 [2]; Suspend true;
             LedBlinkingTask (steady 2500)] in
  exists m : machine,
    exec (run es) boot = Some m
    /\ lock_engaged false es = true
    /\ blink_interval_ms m = BLINK_SUSPENDED
    /\ blink_interval_ms m <> 0
    /\ leds (trace m) = [true; false].
Proof.
  eexists.
  split; [vm_compute; reflexivity |].
  split; [vm_compute; reflexivity |].
  split; [vm_compute; reflexivity |].
  split; [vm_compute; discriminate |].
  vm_compute. reflexivity.
Qed.

(** ** Instances of the general statements *)

Lemma hello_world_typed_witness :
  exists m' : machine,
    exec (ticks (cadence 0 228)) boot = Some m'
    /\ app_state m' = STATE_DONE
    /\ sent (trace m') = hello_world_reports.
Proof.
  exact (proj2 (hello_world_typed boot eq_refl) 228%nat (le_n 228)).
Defined.

Lemma not_ready_tick_stalls_witness :
  let w := {| board_millis := 2040; tud_mounted := true;
              tud_suspended := false; tud_hid_ready := false;
              tud_hid_report := false |} in
  let m := set_app_state STATE_RELEASE_CHAR boot in
  exists m' : machine,
    exec (hid_task w) m = Some m'
    /\ app_state m' = STATE_RELEASE_CHAR
    /\ text_index m' = 0
    /\ state_start_ms m' = 0
    /\ offered (trace m') = []
    /\ hid_start_ms m' = 10
    /\ trace m' = [].
Proof.
  exact (not_ready_tick_stalls
           {| board_millis := 2040; tud_mounted := true;
              tud_suspended := false; tud_hid_ready := false;
              tud_hid_report := false |}
           (set_app_state STATE_RELEASE_CHAR boot) eq_refl eq_refl).
Defined.

Lemma unmount_resets_on_next_poll_witness :
  let w := {| board_millis := 10; tud_mounted := false;
              tud_suspended := false; tud_hid_ready := false;
              tud_hid_report := false |} in
  let m := set_app_state STATE_DONE boot in
  exists m1 m' : machine,
    exec tud_umount_cb m = Some m1
    /\ app_state m1 = STATE_DONE
    /\ blink_interval_ms m1 = 250
    /\ exec (hid_task w) m1 = Some m'
    /\ app_state m' = STATE_IDLE.
Proof.
  exact (unmount_resets_on_next_poll
           {| board_millis := 10; tud_mounted := false;
              tud_suspended := false; tud_hid_ready := false;
              tud_hid_report := false |}
           (set_app_state STATE_DONE boot) eq_refl eq_refl).
Defined.

Lemma typing_loop_stall_invariance_witness :
  let busy t := {| board_millis := t; tud_mounted := true;
                   tud_suspended := false; tud_hid_ready := false;
                   tud_hid_report := false |} in
  let m := set_app_state STATE_TYPE_CHAR boot in
  let ws := [busy 10; steady 20; steady 21; busy 30; steady 40] in
  exists m' m0 : machine,
    exec (ticks ws) m = Some m'
    /\ sent (trace m') = [Keyboard 1 2 (Some [11; 0; 0; 0; 0; 0]);
                          Keyboard 1 0 None]
    /\ text_index m' = 1
    /\ exec (ticks (cadence 0 2)) m = Some m0
    /\ sent (trace m0) = sent (trace m')
    /\ text_index m0 = text_index m'.
Proof.
  refine (typing_loop_stall_invariance
            (set_app_state STATE_TYPE_CHAR boot)
            [ {| board_millis := 10; tud_mounted := true;
                 tud_suspended := false; tud_hid_ready := false;
                 tud_hid_report := false |}; steady 20; steady 21;
              {| board_millis := 30; tud_mounted := true;
                 tud_suspended := false; tud_hid_ready := false;
                 tud_hid_report := false |}; steady 40 ]
            (or_introl eq_refl) _ _).
  - split; [cbn; lia | discriminate].
  - repeat constructor.
Defined.

Lemma wait_init_threshold_witness :
  exists m1 m2 m' ma mb mc : machine,
    exec (hid_task (steady 10)) boot = Some m1
    /\ state_start_ms m1 = 10
    /\ exec (ticks (stalls 10 200)) m1 = Some m2
    /\ app_state m2 = STATE_WAIT_INIT
    /\ exec (hid_task (steady 2020)) m2 = Some m'
    /\ app_state m' = STATE_WAIT_BEFORE_TYPE
    /\ exec (hid_task (steady 2009)) m1 = Some ma
    /\ app_state ma = STATE_WAIT_INIT
    /\ exec (hid_task (steady 2010)) m1 = Some mb
    /\ app_state mb = STATE_WAIT_INIT
    /\ exec (hid_task (steady 2011)) m1 = Some mc
    /\ app_state mc = STATE_WAIT_BEFORE_TYPE.
Proof.
  destruct (wait_init_threshold boot (steady 10) (stalls 10 200)
              (steady 2020) eq_refl eq_refl eq_refl eq_refl eq_refl
              (stalls_mounted _ _) ltac:(vm_compute; reflexivity)
              ltac:(vm_compute; reflexivity) eq_refl eq_refl eq_refl)
    as (m1 & m2 & m' & H1 & _ & Hanchor & H2 & Hst2 & _ & _ & H3 & _ & Hfire
        & _).
  destruct (wait_init_threshold boot (steady 10) [] (steady 2009)
              eq_refl eq_refl eq_refl eq_refl eq_refl (Forall_nil _)
              eq_refl eq_refl eq_refl eq_refl eq_refl)
    as (m1a & m2a & ma & H1a & _ & _ & H2a & _ & _ & _ & H3a & _ & _ & _
        & Ha & _ & _).
  destruct (wait_init_threshold boot (steady 10) [] (steady 2010)
              eq_refl eq_refl eq_refl eq_refl eq_refl (Forall_nil _)
              eq_refl eq_refl eq_refl eq_refl eq_refl)
    as (m1b & m2b & mb & H1b & _ & _ & H2b & _ & _ & _ & H3b & _ & _ & _
        & _ & Hb & _).
  destruct (wait_init_threshold boot (steady 10) [] (steady 2011)
              eq_refl eq_refl eq_refl eq_refl eq_refl (Forall_nil _)
              eq_refl eq_refl eq_refl eq_refl eq_refl)
    as (m1c & m2c & mc & H1c & _ & _ & H2c & _ & _ & _ & H3c & _ & _ & _
        & _ & _ & Hc).
  assert (Ea : m2a = m1).
  { rewrite H1 in H1a. injection H1a as <-. cbn in H2a.
    injection H2a as <-. reflexivity. }
  assert (Eb : m2b = m1).
  { rewrite H1 in H1b. injection H1b as <-. cbn in H2b.
    injection H2b as <-. reflexivity. }
  assert (Ec : m2c = m1).
  { rewrite H1 in H1c. injection H1c as <-. cbn in H2c.
    injection H2c as <-. reflexivity. }
  subst m2a m2b m2c.
  exists m1, m2, m', ma, mb, mc.
  split; [exact H1 |]. split; [exact Hanchor |]. split; [exact H2 |].
  split; [exact Hst2 |]. split; [exact H3 |].
  split; [apply Hfire; reflexivity |].
  split; [exact H3a |]. split; [apply Ha; reflexivity |].
  split; [exact H3b |]. split; [apply Hb; reflexivity |].
  split; [exact H3c |]. apply Hc; reflexivity.
Defined.

(** C6 fails for mounted-and-ready time: after the capture at 10 ms the
    transport is not ready at any of the 200 calls up to 2010 ms, and the
    call at 2020 ms, the second that finds it ready, leaves
    [STATE_WAIT_INIT]. *)
Lemma wait_init_fires_on_stalled_time :
  let ws := stalls 10 200 ++ [steady 2020] in
  exists m1 m' : machine,
    exec (hid_task (steady 10)) boot = Some m1
    /\ app_state m1 = STATE_WAIT_INIT
    /\ state_start_ms m1 = 10
    /\ exec (ticks ws) m1 = Some m'
    /\ app_state m' = STATE_WAIT_BEFORE_TYPE
    /\ ready_time 10 ws = 10
    /\ ready_time 10 ws < 2000.
Proof.
  do 2 eexists.
  repeat (split; [vm_compute; reflexivity |]).
  vm_compute. reflexivity.
Qed.

Lemma typed_character_mapping_witness :
  let m := set_app_state STATE_TYPE_CHAR boot in
  keymap 72 2 11
  /\ exists m' : machine,
       exec (hid_task (steady 10)) m = Some m'
       /\ trace m' = [HidReport (Keyboard 1 2 (Some [11; 0; 0; 0; 0; 0])) true]
       /\ app_state m' = STATE_RELEASE_CHAR.
Proof.
  split.
  - exact (proj1 (typed_character_mapping 72)).
  - refine (proj2 (typed_character_mapping 72) (steady 10)
              (set_app_state STATE_TYPE_CHAR boot)
              eq_refl eq_refl eq_refl eq_refl eq_refl _ eq_refl _).
    + cbn. lia.
    + discriminate.
Defined.

Lemma blink_interval_last_selected_witness :
  exists m m' : machine,
    exec (run [Mount; SetReport 1 2 [2]]) boot = Some m
    /\ blink_interval_ms m = 0
    /\ exec (fire (Suspend true)) m = Some m'
    /\ blink_interval_ms m' = 2500
    /\ exec (led_blinking_task (steady 2500)) m = Some m.
Proof.
  destruct (blink_interval_last_selected [Mount; SetReport 1 2 [2]]
              (Suspend true))
    as (m & m' & Hrun & Hint & Hfire & Hint' & _ & _ & Hsteady).
  exists m, m'.
  split; [exact Hrun |]. split; [exact Hint |]. split; [exact Hfire |].
  split; [exact Hint' |].
  exact (proj1 (Hsteady Hint (steady 2500))).
Defined.

Lemma cursor_within_text_witness :
  let unplugged := {| board_millis := 2290; tud_mounted := false;
                      tud_suspended := false; tud_hid_ready := false;
                      tud_hid_report := false |} in
  let again := map HidTask (cadence 0 228 ++ unplugged :: cadence 2290 202) in
  (exists m m' : machine,
     exec (run (map HidTask (cadence 0 227))) boot = Some m
     /\ text_index m = 12
     /\ exec (hid_task (steady 2280)) m = Some m'
     /\ app_state m' = STATE_DONE /\ text_index m' = 12)
  /\ exists m m' : machine,
       exec (run again) boot = Some m
       /\ app_state m = STATE_WAIT_BEFORE_TYPE
       /\ text_index m = 12
       /\ exec (hid_task (steady 4320)) m = Some m'
       /\ app_state m' = STATE_TYPE_CHAR
       /\ text_index m' = 0
       /\ cursor_after m m' = 0.
Proof.
  intros unplugged again. split.
  - destruct (cursor_within_text (map HidTask (cadence 0 227)))
      as (m & Hrun & _ & _ & Hstep).
    destruct (Hstep (steady 2280)) as (m' & Hnext & _ & _ & Hend & _).
    exists m, m'.
    assert (Hst : option_map app_state
                    (exec (run (map HidTask (cadence 0 227))) boot)
                  = Some STATE_TYPE_CHAR) by (vm_compute; reflexivity).
    assert (Hidx : option_map text_index
                     (exec (run (map HidTask (cadence 0 227))) boot)
                   = Some 12) by (vm_compute; reflexivity).
    assert (Hacc : option_map hid_start_ms
                     (exec (run (map HidTask (cadence 0 227))) boot)
                   = Some 2270) by (vm_compute; reflexivity).
    rewrite Hrun in Hst, Hidx, Hacc. cbn [option_map] in Hst, Hidx, Hacc.
    injection Hst as Hst. injection Hidx as Hidx. injection Hacc as Hacc.
    split; [exact Hrun |].
    split; [exact Hidx |].
    split; [exact Hnext |].
    apply Hend; try assumption; try reflexivity.
    rewrite Hacc. reflexivity.
  - destruct (cursor_within_text again) as (m & Hrun & _ & _ & Hstep).
    destruct (Hstep (steady 4320))
      as (m' & Hnext & _ & _ & _ & Hafter & _ & _ & Hreset).
    exists m, m'.
    assert (Hst : option_map app_state (exec (run again) boot)
                  = Some STATE_WAIT_BEFORE_TYPE) by (vm_compute; reflexivity).
    assert (Hidx : option_map text_index (exec (run again) boot) = Some 12)
      by (vm_compute; reflexivity).
    assert (Hacc : option_map hid_start_ms (exec (run again) boot)
                   = Some 4310) by (vm_compute; reflexivity).
    assert (Hanchor : option_map state_start_ms (exec (run again) boot)
                      = Some 2300) by (vm_compute; reflexivity).
    rewrite Hrun in Hst, Hidx, Hacc, Hanchor.
    cbn [option_map] in Hst, Hidx, Hacc, Hanchor.
    injection Hst as Hst. injection Hidx as Hidx. injection Hacc as Hacc.
    injection Hanchor as Hanchor.
    assert (Hgo : app_state m' = STATE_TYPE_CHAR /\ text_index m' = 0).
    { apply Hreset; try assumption; try reflexivity.
      - rewrite Hacc. reflexivity.
      - rewrite Hanchor. reflexivity. }
    split; [exact Hrun |]. split; [exact Hst |]. split; [exact Hidx |].
    split; [exact Hnext |]. split; [apply Hgo |]. split; [apply Hgo |].
    rewrite <- Hafter. apply Hgo.
Defined.

(** ** Instances of the further properties *)

Lemma mouse_reports_in_order_witness :
  let busy t := {| board_millis := t; tud_mounted := true;
                   tud_suspended := false; tud_hid_ready := false;
                   tud_hid_report := false |} in
  let m := set_app_state STATE_CLICK_PRESS boot in
  exists (m' : machine) (j : nat),
    exec (ticks [steady 10; busy 20; steady 30; steady 40]) m = Some m'
    /\ sent (trace m')
       = firstn j (mouse_pending STATE_CLICK_PRESS ++ hello_world_reports)
    /\ (app_state m' = STATE_DONE ->
        sent (trace m')
        = mouse_pending STATE_CLICK_PRESS ++ hello_world_reports).
Proof.
  refine (mouse_reports_in_order
            [steady 10;
             {| board_millis := 20; tud_mounted := true;
                tud_suspended := false; tud_hid_ready := false;
                tud_hid_report := false |}; steady 30; steady 40]
            (set_app_state STATE_CLICK_PRESS boot) eq_refl _).
  repeat constructor.
Defined.

Lemma mouse_then_script_on_cadence_witness :
  let m := set_app_state STATE_MOUSE_UP boot in
  (exists m' : machine,
     exec (ticks (cadence 0 54)) m = Some m'
     /\ app_state m' = STATE_WAIT_BEFORE_TYPE
     /\ sent (trace m') = mouse_pending STATE_MOUSE_UP)
  /\ (exists m' : machine,
        exec (ticks (cadence 0 80)) m = Some m'
        /\ app_state m' = STATE_DONE
        /\ sent (trace m') = mouse_pending STATE_MOUSE_UP ++ hello_world_reports).
Proof.
  destruct (mouse_then_script_on_cadence (set_app_state STATE_MOUSE_UP boot)
              eq_refl) as [Hwait Hdone].
  split.
  - apply (Hwait 54%nat). lia.
  - apply (Hdone 80%nat). lia.
Defined.

Lemma wait_before_type_threshold_witness :
  let m0 := set_app_state STATE_CLICK_RELEASE boot in
  let m := set_app_state STATE_WAIT_BEFORE_TYPE (set_state_start_ms 10 boot) in
  exists m1 ma mb : machine,
    exec (hid_task (steady 10)) m0 = Some m1
    /\ app_state m1 = STATE_WAIT_BEFORE_TYPE /\ state_start_ms m1 = 10
    /\ exec (hid_task (steady 510)) m = Some ma
    /\ app_state ma = STATE_WAIT_BEFORE_TYPE
    /\ exec (hid_task (steady 511)) m = Some mb
    /\ app_state mb = STATE_TYPE_CHAR.
Proof.
  destruct (wait_before_type_threshold
              (set_app_state STATE_CLICK_RELEASE boot) (steady 10)
              eq_refl eq_refl eq_refl eq_refl eq_refl eq_refl)
    as (m1 & H1 & H2 & H3 & Hnext).
  pose (m := set_app_state STATE_WAIT_BEFORE_TYPE (set_state_start_ms 10 boot)).
  assert (Hanchor : state_start_ms m = state_start_ms m1)
    by (rewrite H3; reflexivity).
  destruct (Hnext m (steady 510) eq_refl Hanchor eq_refl eq_refl eq_refl
              eq_refl) as (ma & Ha & _ & _ & Ha').
  destruct (Hnext m (steady 511) eq_refl Hanchor eq_refl eq_refl eq_refl
              eq_refl) as (mb & Hb & _ & Hb' & _).
  exists m1, ma, mb.
  repeat split; try assumption.
  - apply Ha'. vm_compute. discriminate.
  - apply Hb'. reflexivity.
Defined.


Lemma hid_gate_keeps_up_witness :
  exists m' : machine,
    exec (ticks [steady 4; steady 12; steady 20]) boot = Some m'
    /\ u32 (20 - hid_start_ms m') < 10.
Proof.
  refine (hid_gate_keeps_up 0 [steady 4; steady 12; steady 20] boot
            boot_cursor_ok _ _).
  - vm_compute. reflexivity.
  - vm_compute. intuition discriminate.
Defined.

Lemma suspended_requests_wakeup_witness :
  let asleep t := {| board_millis := t; tud_mounted := true;
                     tud_suspended := true; tud_hid_ready := false;
                     tud_hid_report := false |} in
  let m := set_app_state STATE_RELEASE_CHAR boot in
  exists m' : machine,
    exec (tud_suspend_cb false ;; ticks [asleep 10; asleep 15; asleep 20]) m
    = Some m'
    /\ wakeups (trace m') = 2%nat
    /\ app_state m' = STATE_RELEASE_CHAR
    /\ state_start_ms m' = 0
    /\ text_index m' = 0
    /\ offered (trace m') = []
    /\ blink_interval_ms m' = 2500.
Proof.
  refine (suspended_requests_wakeup false
            [ {| board_millis := 10; tud_mounted := true;
                 tud_suspended := true; tud_hid_ready := false;
                 tud_hid_report := false |};
              {| board_millis := 15; tud_mounted := true;
                 tud_suspended := true; tud_hid_ready := false;
                 tud_hid_report := false |};
              {| board_millis := 20; tud_mounted := true;
                 tud_suspended := true; tud_hid_ready := false;
                 tud_hid_report := false |} ]
            (set_app_state STATE_RELEASE_CHAR boot) _).
  repeat constructor.
Defined.

Lemma script_restarts_after_unmount_witness :
  let unplugged := {| board_millis := 10; tud_mounted := false;
                      tud_suspended := false; tud_hid_ready := false;
                      tud_hid_report := false |} in
  let m := set_app_state STATE_DONE (set_text_index 12 boot) in
  exists m1 m' : machine,
    exec (hid_task unplugged) m = Some m1
    /\ app_state m1 = STATE_IDLE
    /\ exec (ticks (cadence 10 228)) m1 = Some m'
    /\ app_state m' = STATE_DONE
    /\ sent (trace m') = hello_world_reports.
Proof.
  destruct (script_restarts_after_unmount
              {| board_millis := 10; tud_mounted := false;
                 tud_suspended := false; tud_hid_ready := false;
                 tud_hid_report := false |}
              (set_app_state STATE_DONE (set_text_index 12 boot))
              eq_refl eq_refl) as (m1 & H1 & Hst1 & Htr1 & Hnext).
  assert (Hacc : option_map hid_start_ms
                   (exec (hid_task
                            {| board_millis := 10; tud_mounted := false;
                               tud_suspended := false; tud_hid_ready := false;
                               tud_hid_report := false |})
                      (set_app_state STATE_DONE (set_text_index 12 boot)))
                 = Some 10) by (vm_compute; reflexivity).
  rewrite H1 in Hacc. cbn [option_map] in Hacc. injection Hacc as Hacc.
  destruct (Hnext 228%nat (le_n 228)) as (m' & Hrun & Hdone & Hsent).
  rewrite Hacc in Hrun.
  exists m1, m'. repeat split; assumption.
Defined.

Lemma blink_levels_alternate_witness :
  exists m : machine,
    exec (run [Mount; LedBlinkingTask (steady 1000); HidTask (steady 1000);
               LedBlinkingTask (steady 2000)]) boot = Some m
    /\ leds (trace m) = blink_pattern (List.length (leds (trace m))) false
    /\ led_state m = Nat.odd (List.length (leds (trace m))).
Proof.
  refine (blink_levels_alternate
            [Mount; LedBlinkingTask (steady 1000); HidTask (steady 1000);
             LedBlinkingTask (steady 2000)] _).
  repeat constructor.
Defined.

Lemma led_gate_catches_up_witness :
  exists m' : machine,
    exec (run (repeat (LedBlinkingTask (steady 600)) 2)) boot = Some m'
    /\ leds (trace m') = [false; true]
    /\ blink_interval_ms m' = 250
    /\ led_blinking_task (steady 600) m' = Some (tt, m').
Proof.
  refine (led_gate_catches_up (steady 600) 2 boot _ _).
  - reflexivity.
  - vm_compute. split; [discriminate | reflexivity].
Defined.

Lemma blink_interval_values_witness :
  exists m : machine,
    exec (run [Mount; SetReport 1 2 [2]]) boot = Some m
    /\ blink_interval_ms m = 0
    /\ lock_engaged false [Mount; SetReport 1 2 [2]] = true.
Proof.
  destruct (blink_interval_values [Mount; SetReport 1 2 [2]])
    as (m & Hrun & _ & Hlock).
  assert (Hint : option_map blink_interval_ms
                   (exec (run [Mount; SetReport 1 2 [2]]) boot) = Some 0)
    by (vm_compute; reflexivity).
  rewrite Hrun in Hint. cbn [option_map] in Hint. injection Hint as Hint.
  exists m. split; [exact Hrun |]. split; [exact Hint |].
  apply Hlock. exact Hint.
Defined.

Lemma sequencer_ignores_callbacks_witness :
  let its := [ {| delivered := [Mount; SetReport 1 2 [2]];
                  led_poll := steady 10; hid_poll := steady 10 |};
               {| delivered := [Suspend true; Resume (steady 20)];
                  led_poll := steady 20; hid_poll := steady 20 |} ] in
  exists m m0 : machine,
    exec (main_loop its) boot = Some m
    /\ exec (ticks [steady 10; steady 20]) boot = Some m0
    /\ seq_view m = seq_view m0.
Proof.
  refine (sequencer_ignores_callbacks
            [ {| delivered := [Mount; SetReport 1 2 [2]];
                 led_poll := steady 10; hid_poll := steady 10 |};
              {| delivered := [Suspend true; Resume (steady 20)];
                 led_poll := steady 20; hid_poll := steady 20 |} ] _).
  repeat constructor.
Defined.

Lemma letter_keys_witness :
  key_modifier 104 = (11, 0)
  /\ key_modifier 72 = (11, 2)
  /\ forall c' : Z,
     chr "a" <= c' <= chr "z" ->
     fst (key_modifier c') = fst (key_modifier 104) -> c' = 104.
Proof.
  refine (letter_keys 104 _). vm_compute. split; discriminate.
Defined.

Lemma refused_report_is_retried_witness :
  let refusing := {| board_millis := 10; tud_mounted := true;
                     tud_suspended := false; tud_hid_ready := true;
                     tud_hid_report := false |} in
  let m := set_app_state STATE_TYPE_CHAR boot in
  exists m1 m2 : machine,
    exec (hid_task refusing) m = Some m1
    /\ app_state m1 = STATE_TYPE_CHAR /\ text_index m1 = 0
    /\ state_start_ms m1 = 0
    /\ exec (hid_task (steady 20)) m1 = Some m2
    /\ trace m2 = [HidReport (press 72) false; HidReport (press 72) true].
Proof.
  refine (refused_report_is_retried
            {| board_millis := 10; tud_mounted := true;
               tud_suspended := false; tud_hid_ready := true;
               tud_hid_report := false |} (steady 20)
            (set_app_state STATE_TYPE_CHAR boot) (press 72)
            _ eq_refl eq_refl eq_refl eq_refl eq_refl eq_refl eq_refl
            eq_refl eq_refl eq_refl).
  split; [cbn; lia | discriminate].
Defined.

Lemma done_is_final_witness :
  let asleep := {| board_millis := 20; tud_mounted := true;
                   tud_suspended := true; tud_hid_ready := false;
                   tud_hid_report := false |} in
  let m := set_app_state STATE_DONE (set_text_index 12 boot) in
  exists m' : machine,
    exec (ticks [steady 10; asleep; steady 30]) m = Some m'
    /\ app_state m' = STATE_DONE
    /\ text_index m' = 12
    /\ state_start_ms m' = 0
    /\ offered (trace m') = [].
Proof.
  refine (done_is_final
            [steady 10;
             {| board_millis := 20; tud_mounted := true;
                tud_suspended := true; tud_hid_ready := false;
                tud_hid_report := false |}; steady 30]
            (set_app_state STATE_DONE (set_text_index 12 boot)) eq_refl _).
  repeat constructor.
Defined.

Lemma script_paced_on_cadence_witness :
  exists m' : machine,
    exec (ticks (cadence 0 206)) boot = Some m'
    /\ sent (trace m')
       = [Keyboard 1 2 (Some [11; 0; 0; 0; 0; 0]); Keyboard 1 0 None;
          Keyboard 1 0 (Some [8; 0; 0; 0; 0; 0])]
    /\ text_index m' = 1.
Proof.
  exact (script_paced_on_cadence boot 3 eq_refl).
Defined.

Lemma hid_task_offers_behind_guards_witness :
  let asleep := {| board_millis := 10; tud_mounted := true;
                   tud_suspended := true; tud_hid_ready := true;
                   tud_hid_report := true |} in
  let m := set_app_state STATE_RELEASE_CHAR boot in
  exists m' : machine,
    exec (hid_task asleep) m = Some m'
    /\ (List.length (offered (trace m')) <= 1)%nat
    /\ offered (trace m') = [].
Proof.
  destruct (hid_task_offers_behind_guards
              {| board_millis := 10; tud_mounted := true;
                 tud_suspended := true; tud_hid_ready := true;
                 tud_hid_report := true |}
              (set_app_state STATE_RELEASE_CHAR boot))
    as (m' & Hstep & Hlen & Hnone).
  - split; [cbn; lia | intros _; cbn; lia].
  - exists m'. split; [exact Hstep |]. split; [exact Hlen |].
    apply Hnone. reflexivity.
Defined.
